(** * Recurrence expansion, reminder planning and the daily digest

    A shallow embedding of [generate_recurring_instances],
    [schedule_reminders_and_updates] and [send_daily_update] of [main.py],
    with the parts of Python's [datetime], [dateutil.relativedelta] and
    APScheduler that these three functions call. *)

From Stdlib Require Import ZArith Lia Bool Ascii.
From stdpp Require Import base option list sorting strings pretty gmap fin_maps.

Local Open Scope Z_scope.

(** ** The proleptic Gregorian calendar of [datetime.py] *)

Module Calendar.

(** [_is_leap(year)] *)
Definition is_leap (year : Z) : bool :=
  (year mod 4 =? 0) && (negb (year mod 100 =? 0) || (year mod 400 =? 0)).

(** [_days_before_year(year)] *)
Definition days_before_year (year : Z) : Z :=
  let y := year - 1 in
  y * 365 + y / 4 - y / 100 + y / 400.

(** [_DAYS_IN_MONTH[month]] ; the entry at index 0 is the placeholder -1. *)
Definition DAYS_IN_MONTH (month : Z) : Z :=
  match month with
  | 1 => 31 | 2 => 28 | 3 => 31 | 4 => 30 | 5 => 31 | 6 => 30
  | 7 => 31 | 8 => 31 | 9 => 30 | 10 => 31 | 11 => 30 | 12 => 31
  | _ => -1
  end.

(** [_DAYS_BEFORE_MONTH[month]] *)
Definition DAYS_BEFORE_MONTH (month : Z) : Z :=
  match month with
  | 1 => 0 | 2 => 31 | 3 => 59 | 4 => 90 | 5 => 120 | 6 => 151
  | 7 => 181 | 8 => 212 | 9 => 243 | 10 => 273 | 11 => 304 | 12 => 334
  | _ => -1
  end.

(** [_days_in_month(year, month)] *)
Definition days_in_month (year month : Z) : Z :=
  if (month =? 2) && is_leap year then 29 else DAYS_IN_MONTH month.

(** [_days_before_month(year, month)] *)
Definition days_before_month (year month : Z) : Z :=
  DAYS_BEFORE_MONTH month + (if (2 <? month) && is_leap year then 1 else 0).

(** [_ymd2ord(year, month, day)]: January 1st of year 1 is day 1. *)
Definition ymd2ord (year month day : Z) : Z :=
  days_before_year year + days_before_month year month + day.

Definition DI400Y : Z := 146097.
Definition DI100Y : Z := 36524.
Definition DI4Y : Z := 1461.

(** The second half of [_ord2ymd]: month and day from the zero-based day
    [n] of a year. *)
Definition month_day_of_yday (leapyear : bool) (n : Z) : Z * Z :=
  let month := Z.shiftr (n + 50) 5 in
  let preceding :=
    DAYS_BEFORE_MONTH month + (if (2 <? month) && leapyear then 1 else 0) in
  if n <? preceding then
    let month' := month - 1 in
    let preceding' :=
      preceding
      - (DAYS_IN_MONTH month' + (if (month' =? 2) && leapyear then 1 else 0)) in
    (month', n - preceding' + 1)
  else (month, n - preceding + 1).

(** [_ord2ymd(n)] *)
Definition ord2ymd (ordinal : Z) : Z * Z * Z :=
  let n := ordinal - 1 in
  let n400 := n / DI400Y in
  let n := n mod DI400Y in
  let year := n400 * 400 + 1 in
  let n100 := n / DI100Y in
  let n := n mod DI100Y in
  let n4 := n / DI4Y in
  let n := n mod DI4Y in
  let n1 := n / 365 in
  let n := n mod 365 in
  let year := year + n100 * 100 + n4 * 4 + n1 in
  if (n1 =? 4) || (n100 =? 4) then (year - 1, 12, 31)
  else
    let leapyear := (n1 =? 3) && (negb (n4 =? 24) || (n100 =? 3)) in
    let '(month, day) := month_day_of_yday leapyear n in
    (year, month, day).

(** A civil date that [date(year, month, day)] accepts, the year range
    apart. *)
Definition valid_md (year month day : Z) : Prop :=
  1 <= month <= 12 /\ 1 <= day <= days_in_month year month.

(** Lexicographic order on (year, month, day). *)
Definition ymd_lt (a b : Z * Z * Z) : Prop :=
  let '(y1, m1, d1) := a in
  let '(y2, m2, d2) := b in
  y1 < y2 \/ (y1 = y2 /\ (m1 < m2 \/ (m1 = m2 /\ d1 < d2))).

(** What [month_day_of_yday] owes for the day [n] of a year. *)
Definition yday_ok (leapyear : bool) (n : Z) : bool :=
  let '(month, day) := month_day_of_yday leapyear n in
  (1 <=? month) && (month <=? 12) && (1 <=? day)
  && (day <=? DAYS_IN_MONTH month
              + (if (month =? 2) && leapyear then 1 else 0))
  && (DAYS_BEFORE_MONTH month
      + (if (2 <? month) && leapyear then 1 else 0) + day =? n + 1).

End Calendar.

(** ** Python values: exceptions, naive and aware [datetime], [timedelta] *)

Module Py.
Import Calendar.

Inductive exn : Set :=
| OverflowError      (* date value out of range *)
| ValueError         (* year out of range in [datetime.replace] *)
| ConflictingIdError (* APScheduler: a job with this id is in the store *).

(** What a call does: it returns, or it raises.  [Diverge] is the answer of
    a loop that was given too little fuel; the loops below never give it
    (see [loop_fuel_enough]). *)
Inductive outcome (A : Type) : Type :=
| Ok (a : A)
| Raise (e : exn)
| Diverge.
Arguments Ok {A} a.
Arguments Raise {A} e.
Arguments Diverge {A}.

(** Sequencing: an exception raised by the first call is the result. *)
#[global] Instance outcome_ret : MRet outcome := fun A a => Ok a.
#[global] Instance outcome_bind : MBind outcome := fun A B k m =>
  match m with
  | Ok a => k a
  | Raise e => Raise e
  | Diverge => Diverge
  end.
#[global] Instance outcome_fmap : FMap outcome := fun A B f m =>
  match m with
  | Ok a => Ok (f a)
  | Raise e => Raise e
  | Diverge => Diverge
  end.

Definition US_PER_SECOND : Z := 1000000.
Definition US_PER_DAY : Z := 86400 * US_PER_SECOND.
Definition MINYEAR : Z := 1.
Definition MAXYEAR : Z := 9999.
Definition MAXORDINAL : Z := 3652059.

(** A [datetime] is its wall-clock reading, counted in microseconds from
    0001-01-01T00:00:00, and its [tzinfo]: [None] for a naive value,
    the UTC offset in seconds for an aware one. *)
Record datetime : Set := Datetime { wall : Z; tzinfo : option Z }.

(** A [timedelta], in microseconds. *)
Definition timedelta (days seconds minutes weeks : Z) : Z :=
  ((days + 7 * weeks) * 86400 + minutes * 60 + seconds) * US_PER_SECOND.

Definition days (n : Z) : Z := timedelta n 0 0 0.
Definition minutes (n : Z) : Z := timedelta 0 0 n 0.
Definition weeks (n : Z) : Z := timedelta 0 0 0 n.

(** [datetime(year, month, day, hour, minute, second)], naive. *)
Definition mkdt (year month day hour minute second : Z) : datetime :=
  {| wall := (ymd2ord year month day - 1) * US_PER_DAY
             + ((hour * 60 + minute) * 60 + second) * US_PER_SECOND;
     tzinfo := None |}.

Definition toordinal (d : datetime) : Z := wall d / US_PER_DAY + 1.
Definition time_of_day (d : datetime) : Z := wall d mod US_PER_DAY.
Definition ymd (d : datetime) : Z * Z * Z := ord2ymd (toordinal d).
Definition hour (d : datetime) : Z := time_of_day d / (3600 * US_PER_SECOND).
Definition minute (d : datetime) : Z := time_of_day d / (60 * US_PER_SECOND) mod 60.
Definition second (d : datetime) : Z := time_of_day d / US_PER_SECOND mod 60.
Definition microsecond (d : datetime) : Z := time_of_day d mod US_PER_SECOND.

(** [d.date()], as the ordinal of the day: dates compare and subtract as
    their ordinals do. *)
Definition date (d : datetime) : Z := toordinal d.

(** [d.replace(tzinfo=None)] *)
Definition replace_tzinfo_None (d : datetime) : datetime :=
  {| wall := wall d; tzinfo := None |}.

(** [d.tzinfo is not None] *)
Definition is_aware (d : datetime) : bool :=
  match tzinfo d with Some _ => true | None => false end.

(** The code under study strips [tzinfo] from both sides before every
    comparison of two [datetime]s, so the order is that of the readings. *)
Definition dt_le (a b : datetime) : bool := wall a <=? wall b.

(** [d + delta]: [datetime.__add__] raises [OverflowError] when the day
    leaves [1 .. MAXORDINAL]. *)
Definition dt_add (d : datetime) (delta : Z) : outcome datetime :=
  let w := wall d + delta in
  if (0 <=? w) && (w <? MAXORDINAL * US_PER_DAY)
  then Ok {| wall := w; tzinfo := tzinfo d |}
  else Raise OverflowError.

Definition dt_sub (d : datetime) (delta : Z) : outcome datetime :=
  dt_add d (- delta).

(** [d + relativedelta(months=months)] for [1 <= |months| <= 12]: the month
    moves, the day is cut to the length of the new month, and
    [d.replace(year=, month=, day=)] checks the year. *)
Definition add_months (d : datetime) (months : Z) : outcome datetime :=
  let '(year, month, day) := ymd d in
  let month := month + months in
  let '(year, month) :=
    if 12 <? month then (year + 1, month - 12)
    else if month <? 1 then (year - 1, month + 12)
    else (year, month) in
  let day := Z.min (days_in_month year month) day in
  if (MINYEAR <=? year) && (year <=? MAXYEAR)
  then Ok {| wall := (ymd2ord year month day - 1) * US_PER_DAY + time_of_day d;
             tzinfo := tzinfo d |}
  else Raise ValueError.

(** The civil date one month on: same day of the month when the new month
    has it, the last day of the new month otherwise. *)
Definition month_later (date : Z * Z * Z) : Z * Z * Z :=
  let '(y, m, d) := date in
  let y' := if m =? 12 then y + 1 else y in
  let m' := if m =? 12 then 1 else m + 1 in
  (y', m', Z.min (days_in_month y' m') d).

(** *** Text: [str(int)], zero-padded fields, [isoformat], [strftime] *)

Definition digit_char (n : Z) : ascii := ascii_of_nat (48 + Z.to_nat (n mod 10)).

(** ["%0<width>d" % n] for [0 <= n < 10 ^ width] *)
Fixpoint zero_padded (width : nat) (n : Z) : string :=
  match width with
  | O => EmptyString
  | S w => zero_padded w (n / 10) +:+ String (digit_char n) EmptyString
  end.

(** [str(n)] *)
Definition str_of_int (n : Z) : string := pretty n.

Definition format_offset (off : Z) : string :=
  let a := Z.abs off in
  (if off <? 0 then "-" else "+")
  +:+ zero_padded 2 (a / 3600) +:+ ":" +:+ zero_padded 2 (a / 60 mod 60)
  +:+ (if a mod 60 =? 0 then EmptyString else ":" +:+ zero_padded 2 (a mod 60)).

(** [d.isoformat()] *)
Definition isoformat (d : datetime) : string :=
  let '(y, m, dd) := ymd d in
  zero_padded 4 y +:+ "-" +:+ zero_padded 2 m +:+ "-" +:+ zero_padded 2 dd
  +:+ "T" +:+ zero_padded 2 (hour d) +:+ ":" +:+ zero_padded 2 (minute d)
  +:+ ":" +:+ zero_padded 2 (second d)
  +:+ (if microsecond d =? 0 then EmptyString
       else "." +:+ zero_padded 6 (microsecond d))
  +:+ match tzinfo d with
      | None => EmptyString
      | Some off => format_offset off
      end.

(** [d.strftime("%Y-%m-%d %I:%M %p")] in the C locale.  [%Y] is the year
    as the C library of Linux prints it, without padding: year 1 is [1],
    not [0001]. *)
Definition strftime_12hour (d : datetime) : string :=
  let '(y, m, dd) := ymd d in
  let h12 := if hour d mod 12 =? 0 then 12 else hour d mod 12 in
  str_of_int y +:+ "-" +:+ zero_padded 2 m +:+ "-" +:+ zero_padded 2 dd
  +:+ " " +:+ zero_padded 2 h12 +:+ ":" +:+ zero_padded 2 (minute d)
  +:+ " " +:+ (if hour d <? 12 then "AM" else "PM").

(** [d.weekday()]: Monday is 0. *)
Definition weekday (d : datetime) : Z := (toordinal d + 6) mod 7.

Definition day_name (w : Z) : string :=
  match w with
  | 0 => "Monday" | 1 => "Tuesday" | 2 => "Wednesday" | 3 => "Thursday"
  | 4 => "Friday" | 5 => "Saturday" | _ => "Sunday"
  end.

Definition month_name (m : Z) : string :=
  match m with
  | 1 => "January" | 2 => "February" | 3 => "March" | 4 => "April"
  | 5 => "May" | 6 => "June" | 7 => "July" | 8 => "August"
  | 9 => "September" | 10 => "October" | 11 => "November" | _ => "December"
  end.

(** [d.strftime('%A, %B %d, %Y')] in the C locale *)
Definition strftime_long (d : datetime) : string :=
  let '(y, m, dd) := ymd d in
  day_name (weekday d) +:+ ", " +:+ month_name m +:+ " " +:+ zero_padded 2 dd
  +:+ ", " +:+ str_of_int y.

Definition newline : string := String (ascii_of_nat 10) EmptyString.

(** [s[:n]]: the first [n] characters of a [str] held as UTF-8; the bytes
    [10xxxxxx] continue the character before them. *)
Definition is_continuation (c : ascii) : bool :=
  let k := nat_of_ascii c in (128 <=? k)%nat && (k <? 192)%nat.

Fixpoint str_take (n : nat) (s : string) : string :=
  match s with
  | EmptyString => EmptyString
  | String c rest =>
      if is_continuation c then String c (str_take n rest)
      else match n with
           | O => EmptyString
           | S n' => String c (str_take n' rest)
           end
  end.

(** [bool(s)] for a [str] *)
Definition truthy (s : string) : bool :=
  match s with EmptyString => false | _ => true end.

(** [s.startswith(p)] *)
Definition startswith (s p : string) : bool := String.prefix p s.

(** *** A parser for the plain ISO forms

    [datetime.fromisoformat] is a parameter of the development; this is the
    instance used in the scenarios.  It reads [YYYY-MM-DD], then optionally
    one separator character and [HH:MM] or [HH:MM:SS], and rejects the
    rest. *)

Definition digit_val (c : ascii) : option Z :=
  let k := nat_of_ascii c in
  if (48 <=? k)%nat && (k <=? 57)%nat then Some (Z.of_nat k - 48) else None.

Fixpoint read_digits (n : nat) (acc : Z) (s : string) : option (Z * string) :=
  match n with
  | O => Some (acc, s)
  | S n' =>
      match s with
      | String c rest =>
          match digit_val c with
          | Some v => read_digits n' (acc * 10 + v) rest
          | None => None
          end
      | EmptyString => None
      end
  end.

Definition read_char (c : ascii) (s : string) : option string :=
  match s with
  | String c' rest => if Ascii.eqb c c' then Some rest else None
  | EmptyString => None
  end.

Definition read_time (s : string) : option (Z * Z * Z) :=
  '(hh, s) ← read_digits 2 0 s;
  s ← read_char ":" s;
  '(mm, s) ← read_digits 2 0 s;
  match s with
  | EmptyString => Some (hh, mm, 0)
  | _ =>
      s ← read_char ":" s;
      '(ss, s) ← read_digits 2 0 s;
      match s with
      | EmptyString => Some (hh, mm, ss)
      | _ => None
      end
  end.

Definition fromisoformat_plain (s : string) : option datetime :=
  '(y, s) ← read_digits 4 0 s;
  s ← read_char "-" s;
  '(m, s) ← read_digits 2 0 s;
  s ← read_char "-" s;
  '(d, s) ← read_digits 2 0 s;
  '(hh, mm, ss) ←
    match s with
    | EmptyString => Some (0, 0, 0)
    | String _ rest => read_time rest
    end;
  if (MINYEAR <=? y) && (y <=? MAXYEAR) && (1 <=? m) && (m <=? 12)
     && (1 <=? d) && (d <=? days_in_month y m)
     && (hh <? 24) && (mm <? 60) && (ss <? 60)
  then Some (mkdt y m d hh mm ss)
  else None.

End Py.

(** ** The rows of the [tasks] table and the calendar instances *)

Module Item.

(** A row as [database.fetch_items] returns it: a dict with these eleven
    keys. *)
Record item : Set := Item {
  item_id : Z;
  item_type : string;
  name : string;
  due_date : string;
  status : string;
  mention : string;
  repeat_interval : string;
  category : string;
  notes : string;
  priority : string;
  color : string
}.

(** [item['id']] is an [int]; the id of a generated instance is a [str]. *)
Inductive id_value : Set :=
| IntId (n : Z)
| StrId (s : string).

(** An element of the list [generate_recurring_instances] returns: the row
    itself, or a copy of it with a new ['due_date'] and ['id'] and the two
    keys ['is_recurring_instance'] and ['original_id'] added. *)
Record instance : Set := Instance {
  inst_id : id_value;
  inst_row : item;
  is_recurring_instance : option bool;
  original_id : option Z
}.

Definition with_due_date (i : item) (d : string) : item :=
  {| item_id := item_id i; item_type := item_type i; name := name i;
     due_date := d; status := status i; mention := mention i;
     repeat_interval := repeat_interval i; category := category i;
     notes := notes i; priority := priority i; color := color i |}.

(** The row itself, as an element of the returned list. *)
Definition original (i : item) : instance :=
  {| inst_id := IntId (item_id i); inst_row := i;
     is_recurring_instance := None; original_id := None |}.

End Item.

(** ** [generate_recurring_instances] *)

Module Recurrence.
Import Py Item.

Definition max_instances : Z := 100.

(** The body of [if current_date >= start_date:] *)
Definition make_instance (item : item) (current_date : datetime)
    (instance_count : Z) : instance :=
  {| inst_id :=
       if 0 <? instance_count
       then StrId (str_of_int (item_id item) +:+ "_recur_"
                   +:+ str_of_int instance_count)
       else IntId (item_id item);
     inst_row := with_due_date item (isoformat current_date);
     is_recurring_instance := Some (0 <? instance_count);
     original_id := Some (item_id item) |}.

(** "Calculate next occurrence": [None] is the [break] of the last
    branch. *)
Definition next_occurrence (item : item) (current_date : datetime)
    : option (outcome datetime) :=
  if String.eqb (repeat_interval item) "daily"
  then Some (dt_add current_date (days 1))
  else if String.eqb (repeat_interval item) "weekly"
  then Some (dt_add current_date (weeks 1))
  else if String.eqb (repeat_interval item) "monthly"
  then Some (add_months current_date 1)
  else None.

(** The [while] loop.  Every pass adds one to [instance_count], so
    [max_instances + 1] units of fuel see it through. *)
Fixpoint recur_loop (fuel : nat) (item : item) (start_date end_date : datetime)
    (current_date : datetime) (instance_count : Z) (instances : list instance)
    : outcome (list instance) :=
  match fuel with
  | O => Diverge
  | S fuel =>
      if dt_le current_date end_date && (instance_count <? max_instances)
      then
        let instances :=
          if dt_le start_date current_date
          then instances ++ [make_instance item current_date instance_count]
          else instances in
        let instance_count := instance_count + 1 in
        match next_occurrence item current_date with
        | Some next =>
            current_date ← next;
            recur_loop fuel item start_date end_date current_date
                       instance_count instances
        | None => Ok instances
        end
      else Ok instances
  end.

Definition strip_tz (d : datetime) : datetime :=
  if is_aware d then replace_tzinfo_None d else d.

Section WithParser.

(** [datetime.fromisoformat]; [None] stands for the [ValueError] of a
    string it does not read. *)
Variable fromisoformat : string -> option datetime.

(** [generate_recurring_instances(item, start_date, end_date)] when
    [datetime.now()] answers [now]. *)
Definition generate_recurring_instances (now : datetime) (item : item)
    (start_date end_date : option datetime) : outcome (list instance) :=
  if String.eqb (repeat_interval item) "none" then Ok [original item]
  else
    start_date ← match start_date with
                  | Some d => Ok d
                  | None => dt_sub now (days 180)
                  end;
    end_date ← match end_date with
                | Some d => Ok d
                | None => dt_add now (days 730)
                end;
    let start_date := strip_tz start_date in
    let end_date := strip_tz end_date in
    match fromisoformat (due_date item) with
    | None => Ok [original item]
    | Some original_date =>
        let original_date := strip_tz original_date in
        recur_loop (S (Z.to_nat max_instances)) item start_date end_date
                   original_date 0 []
    end.

End WithParser.

(** *** The occurrences behind the instances *)

(** The pairs [(instance_count, current_date)] for which the loop builds
    an instance. *)
Fixpoint occurrences (fuel : nat) (item : item) (start_date end_date : datetime)
    (current_date : datetime) (instance_count : Z)
    : outcome (list (Z * datetime)) :=
  match fuel with
  | O => Diverge
  | S fuel =>
      if dt_le current_date end_date && (instance_count <? max_instances)
      then
        match next_occurrence item current_date with
        | Some next =>
            next_date ← next;
            rest ← occurrences fuel item start_date end_date next_date
                               (instance_count + 1);
            Ok (if dt_le start_date current_date
                then (instance_count, current_date) :: rest else rest)
        | None =>
            Ok (if dt_le start_date current_date
                then [(instance_count, current_date)] else [])
        end
      else Ok []
  end.

Definition instance_of (item : item) (o : Z * datetime) : instance :=
  make_instance item o.2 o.1.

(** [current_date] after [k] more steps, when none of them raises. *)
Fixpoint nth_occurrence (item : item) (k : nat) (current_date : datetime)
    : option datetime :=
  match k with
  | O => Some current_date
  | S k =>
      match next_occurrence item current_date with
      | Some (Ok next) => nth_occurrence item k next
      | _ => None
      end
  end.

(** Two neighbours in the returned list: one step apart. *)
Definition linked (item : item) (a b : Z * datetime) : Prop :=
  b.1 = a.1 + 1 /\ next_occurrence item a.2 = Some (Ok b.2).

Fixpoint adjacent {A} (R : A -> A -> Prop) (l : list A) : Prop :=
  match l with
  | x :: (y :: _) as t => R x y /\ adjacent R t
  | _ => True
  end.

(** The order of the occurrences in time. *)
Definition occurs_before (a b : Z * datetime) : Prop := wall a.2 < wall b.2.

(** Consecutive occurrences of a monthly row: the index grows by one, the
    civil date is the one a month later (same day of the month, cut to the
    length of the new month), the time of day stays. *)
Definition one_month_apart (a b : Z * datetime) : Prop :=
  b.1 = a.1 + 1
  /\ ymd b.2 = month_later (ymd a.2)
  /\ time_of_day b.2 = time_of_day a.2.

End Recurrence.

(** ** [send_daily_update] *)

Module Digest.
Import Py Item.

(** A [discord.Embed], as far as the function fills it. *)
Record embed_field : Set := Field {
  field_name : string;
  field_value : string;
  field_inline : bool
}.

Record embed : Set := Embed {
  embed_title : string;
  embed_description : string;
  embed_color : Z;
  embed_fields : list embed_field;
  embed_footer : string
}.

(** [embed.add_field(name=, value=, inline=)] *)
Definition add_field (e : embed) (name value : string) (inline : bool) : embed :=
  {| embed_title := embed_title e; embed_description := embed_description e;
     embed_color := embed_color e;
     embed_fields := embed_fields e ++ [Field name value inline];
     embed_footer := embed_footer e |}.

(** [embed.set_footer(text=)] *)
Definition set_footer (e : embed) (text : string) : embed :=
  {| embed_title := embed_title e; embed_description := embed_description e;
     embed_color := embed_color e; embed_fields := embed_fields e;
     embed_footer := text |}.

(** The three lists one of the two bucketing loops appends to. *)
Record buckets : Set := Buckets {
  overdue : list item;
  today_ : list item;
  upcoming : list item
}.

Definition no_buckets : buckets := Buckets [] [] [].

Section WithParser.

Variable fromisoformat : string -> option datetime.

(** [format_time_12hour(datetime_str)] *)
Definition format_time_12hour (datetime_str : string) : string :=
  match fromisoformat datetime_str with
  | Some dt => strftime_12hour dt
  | None => datetime_str
  end.

(** The body of [for task in pending_tasks:], with the lists it appends
    to.  A due date more than 7 days ahead takes none of the three
    branches; a date that does not parse takes the [except]. *)
Definition bucket_step (today : datetime) (b : buckets) (task : item) : buckets :=
  match fromisoformat (due_date task) with
  | Some due =>
      if date due <? date today
      then Buckets (overdue b ++ [task]) (today_ b) (upcoming b)
      else if date due =? date today
      then Buckets (overdue b) (today_ b ++ [task]) (upcoming b)
      else if date due - date today <=? 7
      then Buckets (overdue b) (today_ b) (upcoming b ++ [task])
      else b
  | None => Buckets (overdue b) (today_ b) (upcoming b ++ [task])
  end.

Definition bucket_loop (today : datetime) (pending : list item) : buckets :=
  fold_left (bucket_step today) pending no_buckets.

Definition overdue_line (i : item) : string :=
  "🔴 **" +:+ name i +:+ "** (ID: " +:+ str_of_int (item_id i)
  +:+ ") - Due: " +:+ format_time_12hour (due_date i)
  +:+ " - Priority: " +:+ priority i +:+ newline.

Definition today_line (i : item) : string :=
  "🟡 **" +:+ name i +:+ "** (ID: " +:+ str_of_int (item_id i)
  +:+ ") - Priority: " +:+ priority i +:+ newline.

Definition upcoming_line (i : item) : string :=
  "🟢 **" +:+ name i +:+ "** (ID: " +:+ str_of_int (item_id i)
  +:+ ") - Due: " +:+ format_time_12hour (due_date i)
  +:+ " - Priority: " +:+ priority i +:+ newline.

(** [for task in tasks[:5]: text += line(task)] and the same for the
    events. *)
Definition section_text (line : item -> string) (tasks events : list item)
    : string :=
  let text := EmptyString in
  let text := fold_left (fun text task => text +:+ line task) (take 5 tasks) text in
  let text := fold_left (fun text event => text +:+ line event) (take 5 events) text in
  text.

(** One of the three [if tasks or events:] blocks. *)
Definition add_section (e : embed) (title : string) (line : item -> string)
    (tasks events : list item) : embed :=
  match tasks, events with
  | [], [] => e
  | _, _ =>
      let text := section_text line tasks events in
      if truthy text then add_field e title (str_take 1024 text) false else e
  end.

Definition summary_text (total_pending total_overdue due_today : nat) : string :=
  "Total Pending: " +:+ str_of_int (Z.of_nat total_pending) +:+ newline
  +:+ "Overdue: " +:+ str_of_int (Z.of_nat total_overdue) +:+ newline
  +:+ "Due Today: " +:+ str_of_int (Z.of_nat due_today).

(** The embed [send_daily_update] builds from the rows [items] when
    [datetime.now()] answers [today]; [commands_channel] is the name of the
    commands channel when the bot finds it. *)
Definition daily_update_embed (commands_channel : option string)
    (today : datetime) (items : list item) : embed :=
  let pending_tasks :=
    filter (fun i => item_type i = "task" /\ status i = "pending") items in
  let pending_events :=
    filter (fun i => item_type i = "event" /\ status i = "pending") items in
  let tasks := bucket_loop today pending_tasks in
  let events := bucket_loop today pending_events in
  let embed :=
    {| embed_title := "📋 Daily Update - Tasks & Events";
       embed_description := "Daily summary for " +:+ strftime_long today;
       embed_color := 3381759;
       embed_fields := [];
       embed_footer := EmptyString |} in
  let embed :=
    add_section embed "⚠️ OVERDUE" overdue_line (overdue tasks) (overdue events) in
  let embed :=
    add_section embed "📅 DUE TODAY" today_line (today_ tasks) (today_ events) in
  let embed :=
    add_section embed "📈 UPCOMING (Next 7 Days)" upcoming_line
                (upcoming tasks) (upcoming events) in
  let total_pending := (length pending_tasks + length pending_events)%nat in
  let total_overdue := (length (overdue tasks) + length (overdue events))%nat in
  let embed :=
    add_field embed "📊 Summary"
      (summary_text total_pending total_overdue
                    (length (today_ tasks) + length (today_ events))%nat)
      true in
  set_footer embed
    ("Use commands in #"
     +:+ match commands_channel with
         | Some name => name
         | None => "commands-channel"
         end
     +:+ " to manage items").

(** What goes to the notifications channel, if anything: the mention and
    the embed. *)
Definition send_daily_update (bot_ready : bool) (commands_channel : option string)
    (notifications_channel_found : bool) (today : datetime) (items : list item)
    : option (string * embed) :=
  if negb bot_ready then None
  else
    let embed := daily_update_embed commands_channel today items in
    if notifications_channel_found then Some ("@everyone", embed) else None.

(** The branch of the bucketing loop a row takes, if any. *)
Inductive urgency : Set := Overdue | DueToday | Upcoming.

#[global] Instance urgency_eq_dec : EqDecision urgency.
Proof. solve_decision. Defined.

Definition urgency_of (today : datetime) (task : item) : option urgency :=
  match fromisoformat (due_date task) with
  | Some due =>
      if date due <? date today then Some Overdue
      else if date due =? date today then Some DueToday
      else if date due - date today <=? 7 then Some Upcoming
      else None
  | None => Some Upcoming
  end.

End WithParser.

(** The rows the digest is about: pending tasks and pending events. *)
Definition is_pending (i : item) : Prop :=
  status i = "pending" /\ (item_type i = "task" \/ item_type i = "event").

#[global] Instance is_pending_dec (i : item) : Decision (is_pending i).
Proof. unfold is_pending. apply _. Defined.

(** All the strings of a list, one after the other. *)
Definition lines_text (lines : list string) : string :=
  foldr String.app EmptyString lines.

End Digest.

(** ** The APScheduler job store and [schedule_reminders_and_updates] *)

Module Scheduler.
Import Py Item.

(** [add_job(func, "date", run_date=)] and [add_job(func, "cron", hour=,
    minute=)] *)
Inductive trigger : Set :=
| DateTrigger (run_date : datetime)
| CronTrigger (hour minute : Z).

(** What a job runs: [notify_discord(msg, mention_everyone=True)] with the
    message captured when the job was made, or [send_daily_update()]. *)
Inductive job_func : Set :=
| ReminderJob (msg : string)
| DailyUpdateJob.

Record job : Set := Job { job_trigger : trigger; job_run : job_func }.

(** The calls that change the job store, in the order they are made. *)
Inductive call : Set :=
| RemoveJob (id : string)
| AddJob (id : string).

(** The module-level [scheduler]: its jobs by id, whether it was started,
    and the calls made on it so far. *)
Record scheduler : Type := Sched {
  jobs : gmap string job;
  running : bool;
  calls : list call
}.

(** [scheduler.get_jobs()] *)
Definition get_jobs (s : scheduler) : list (string * job) :=
  map_to_list (jobs s).

(** [scheduler.remove_job(id)] *)
Definition remove_job (id : string) (s : scheduler) : scheduler :=
  {| jobs := delete id (jobs s); running := running s;
     calls := calls s ++ [RemoveJob id] |}.

(** [scheduler.add_job(..., id=id, replace_existing=)]: the store refuses
    an id it holds unless it is told to replace it. *)
Definition add_job (id : string) (j : job) (replace_existing : bool)
    (s : scheduler) : outcome scheduler :=
  match jobs s !! id with
  | Some _ =>
      if replace_existing
      then Ok {| jobs := <[id := j]> (jobs s); running := running s;
                 calls := calls s ++ [AddJob id] |}
      else Raise ConflictingIdError
  | None =>
      Ok {| jobs := <[id := j]> (jobs s); running := running s;
            calls := calls s ++ [AddJob id] |}
  end.

(** [scheduler.start()] *)
Definition start (s : scheduler) : scheduler :=
  {| jobs := jobs s; running := true; calls := calls s |}.


Definition daily_update_job : job :=
  {| job_trigger := CronTrigger 8 0; job_run := DailyUpdateJob |}.

(** "Clear existing reminder jobs to avoid duplicates" *)
Definition clear_reminders (s : scheduler) : scheduler :=
  fold_left (fun s (j : string * job) =>
               if startswith j.1 "reminder_" then remove_job j.1 s else s)
            (get_jobs s) s.

Section WithEnvironment.

(** [datetime.fromisoformat]; [None] stands for its [ValueError]. *)
Variable fromisoformat : string -> option datetime.
(** [str.title] *)
Variable str_title : string -> string.
(** [int(d.timestamp())] for a naive [d], in the time zone of the host. *)
Variable timestamp_int : datetime -> Z.
(** The table of Discord user ids by screen name. *)
Variable USER_ID_MAP : gmap string Z.

Definition mention_text_of (mention_name : string) : string :=
  if truthy mention_name then
    match USER_ID_MAP !! mention_name with
    | Some user_id =>
        if negb (user_id =? 0) then "<@" +:+ str_of_int user_id +:+ ">"
        else "@" +:+ mention_name
    | None => "@" +:+ mention_name
    end
  else EmptyString.

Definition reminder_message (i : item) : string :=
  let mention_text := mention_text_of (mention i) in
  "⏰ Reminder: " +:+ str_title (item_type i) +:+ " '" +:+ name i +:+ "' "
  +:+ "due at " +:+ Digest.format_time_12hour fromisoformat (due_date i)
  +:+ (if truthy mention_text then " " +:+ mention_text else EmptyString)
  +:+ newline
  +:+ "Priority: " +:+ priority i +:+ newline
  +:+ "Notes: " +:+ (if truthy (notes i) then notes i else "No notes").

Definition reminder_job_id (i : item) (reminder_time : datetime) : string :=
  "reminder_" +:+ str_of_int (item_id i) +:+ "_"
  +:+ str_of_int (timestamp_int reminder_time).

(** The body of [for i in items:] up to the call of [add_job]: the job to
    add for the row, if any.  The [try] covers the parsing only; the
    subtraction after it can raise. *)
Definition plan_item (now : datetime) (i : item) : outcome (option (string * job)) :=
  if negb (String.eqb (status i) "pending") then Ok None
  else
    let due_str := due_date i in
    if negb (truthy due_str) then Ok None
    else
      match fromisoformat due_str with
      | None => Ok None
      | Some due =>
          let due := if is_aware due then replace_tzinfo_None due else due in
          reminder_time ← dt_sub due (minutes 30);
          in_window ←
            (if dt_le now reminder_time
             then horizon ← dt_add now (days 30);
                  Ok (dt_le reminder_time horizon)
             else Ok false);
          if in_window : bool
          then Ok (Some (reminder_job_id i reminder_time,
                         {| job_trigger := DateTrigger reminder_time;
                            job_run := ReminderJob (reminder_message i) |}))
          else Ok None
      end.

(** "Schedule individual reminders" *)
Fixpoint schedule_items (now : datetime) (items : list item) (s : scheduler)
    : outcome scheduler :=
  match items with
  | [] => Ok s
  | i :: rest =>
      planned ← plan_item now i;
      s ← match planned with
           | Some (job_id, j) => add_job job_id j false s
           | None => Ok s
           end;
      schedule_items now rest s
  end.

(** [schedule_reminders_and_updates(loop_handle)] when
    [database.fetch_items()] answers [items] and [datetime.now()] answers
    [now]. *)
Definition schedule_reminders_and_updates (now : datetime) (items : list item)
    (s : scheduler) : outcome scheduler :=
  let s := clear_reminders s in
  s ← schedule_items now items s;
  s ← add_job "daily_update" daily_update_job true s;
  Ok (if running s then s else start s).

(** The jobs the loop asks the scheduler to add, in order. *)
Fixpoint planned_jobs (now : datetime) (items : list item)
    : outcome (list (string * job)) :=
  match items with
  | [] => Ok []
  | i :: rest =>
      planned ← plan_item now i;
      more ← planned_jobs now rest;
      Ok (match planned with Some p => p :: more | None => more end)
  end.

End WithEnvironment.

(** The calls of [add_job] of the loop, one after the other. *)
Fixpoint add_all (planned : list (string * job)) (s : scheduler)
    : outcome scheduler :=
  match planned with
  | [] => Ok s
  | (job_id, j) :: rest => s ← add_job job_id j false s; add_all rest s
  end.

(** The jobs the clearing loop leaves alone. *)
Definition kept (kv : string * job) : Prop := startswith kv.1 "reminder_" = false.

(** A reading of the clock that [datetime] can hold. *)
Definition valid_datetime (d : datetime) : Prop :=
  0 <= wall d < MAXORDINAL * US_PER_DAY.

(** [s.title()] for ASCII letters. *)
Definition is_lower (c : ascii) : bool :=
  let k := nat_of_ascii c in (97 <=? k)%nat && (k <=? 122)%nat.
Definition is_upper (c : ascii) : bool :=
  let k := nat_of_ascii c in (65 <=? k)%nat && (k <=? 90)%nat.

Fixpoint title_from (in_word : bool) (s : string) : string :=
  match s with
  | EmptyString => EmptyString
  | String c rest =>
      if is_lower c
      then String (if in_word then c else ascii_of_nat (nat_of_ascii c - 32))
                  (title_from true rest)
      else if is_upper c
      then String (if in_word then ascii_of_nat (nat_of_ascii c + 32) else c)
                  (title_from true rest)
      else String c (title_from false rest)
  end.

Definition title_ascii (s : string) : string := title_from false s.

(** [int(d.timestamp())] on a host whose time zone is UTC. *)
Definition timestamp_utc (d : datetime) : Z :=
  (wall d - wall (mkdt 1970 1 1 0 0 0)) ÷ US_PER_SECOND.

End Scheduler.

(** ** Rows and windows used in the worked scenarios *)

Module Scenario.
Import Py Item.

Definition row (id : Z) (type name due repeat : string) : item :=
  {| item_id := id; item_type := type; name := name; due_date := due;
     status := "pending"; mention := EmptyString; repeat_interval := repeat;
     category := "Misc"; notes := EmptyString; priority := "Medium";
     color := "#3399ff" |}.

(** Due 2025-01-31T09:00, monthly; the window is
    [2025-01-01, 2025-04-01]. *)
Definition rent : item := row 7 "event" "Rent" "2025-01-31T09:00" "monthly".
Definition q1_start : datetime := mkdt 2025 1 1 0 0 0.
Definition q1_end : datetime := mkdt 2025 4 1 0 0 0.
Definition rent_occurrences : list (Z * datetime) :=
  [(0, mkdt 2025 1 31 9 0 0); (1, mkdt 2025 2 28 9 0 0);
   (2, mkdt 2025 3 28 9 0 0)].

(** Due 2025-01-01T09:00, daily; the window [2025-01-10, 2025-01-12] starts
    after the due date. *)
Definition standup : item := row 3 "event" "Standup" "2025-01-01T09:00" "daily".
(** What the window [2025-01-10, 2025-01-12] leaves of it. *)
Definition standup_first_inside : list (Z * datetime) :=
  [(9, mkdt 2025 1 10 9 0 0); (10, mkdt 2025 1 11 9 0 0)].
Definition jan10 : datetime := mkdt 2025 1 10 0 0 0.
Definition jan12 : datetime := mkdt 2025 1 12 0 0 0.

(** Due 2025-06-01T09:00, not repeating; the window
    [2025-01-01, 2025-02-01] ends before the due date. *)
Definition review : item := row 5 "task" "Review" "2025-06-01T09:00" "none".
Definition feb1 : datetime := mkdt 2025 2 1 0 0 0.

(** Due 2024-01-01T09:00, daily; the window [2025-01-01, 2030-01-01] starts
    more than 100 days later. *)
Definition backup : item := row 9 "task" "Backup" "2024-01-01T09:00" "daily".
Definition y2030 : datetime := mkdt 2030 1 1 0 0 0.

(** The digest of 2025-09-10: one row per branch of the bucketing
    loop. *)
Definition sep10 : datetime := mkdt 2025 9 10 8 0 0.
Definition item_a : item := row 1 "task" "A" "2025-09-09T10:00" "none".
Definition item_b : item := row 2 "task" "B" "2025-09-10T18:00" "none".
Definition item_c : item := row 3 "task" "C" "2025-09-15T10:00" "none".
Definition item_d : item := row 4 "task" "D" "2025-10-01T10:00" "none".
Definition item_e : item := row 5 "task" "E" "someday" "none".

(** Six overdue tasks and six overdue events. *)
Definition late (type : string) (n : Z) : item :=
  row n type ("late " +:+ str_of_int n) "2025-09-01T10:00" "none".
Definition late_tasks : list item := map (late "task") [1; 2; 3; 4; 5; 6].
Definition late_events : list item := map (late "event") [7; 8; 9; 10; 11; 12].

(** The reminder of 2025-09-07: a meeting at 14:00, the clock at 13:00,
    an empty table of user ids, a host on UTC. *)
Definition meeting : item := row 1 "event" "Meeting" "2025-09-07T14:00" "none".
Definition sep7_13h : datetime := mkdt 2025 9 7 13 0 0.
Definition sep7_13h30 : datetime := mkdt 2025 9 7 13 30 0.
Definition meeting_job_id : string := "reminder_1_1757251800".

Definition idle : Scheduler.scheduler := Scheduler.Sched ∅ false [].

(** A running scheduler that holds the job of the meeting, made from an
    older text of the row. *)
Definition holding_old_text : Scheduler.scheduler :=
  Scheduler.Sched
    {[ meeting_job_id :=
         Scheduler.Job (Scheduler.DateTrigger sep7_13h30)
                       (Scheduler.ReminderJob "old text") ]}
    true [].

(** A row entered with the due date 0001-01-01 00:10. *)
Definition ancient : item := row 2 "task" "Ancient" "0001-01-01T00:10:00" "none".

End Scenario.

(** * The rest of the program *)

(** ** Text helpers shared by the commands and the web routes *)

Module Text.
Import Py.

(** [len(s)] for a [str] held as UTF-8: the bytes that start a
    character. *)
Fixpoint str_len (s : string) : nat :=
  match s with
  | EmptyString => O
  | String c rest =>
      if is_continuation c then str_len rest else S (str_len rest)
  end.

(** Every character of the string passes the test. *)
Fixpoint all_chars (P : ascii -> bool) (s : string) : bool :=
  match s with
  | EmptyString => true
  | String c rest => P c && all_chars P rest
  end.

Definition not_underscore (c : ascii) : bool := negb (Ascii.eqb c "_").

(** [str.lower] on ASCII text, the instance used in the scenarios. *)
Fixpoint lower_ascii (s : string) : string :=
  match s with
  | EmptyString => EmptyString
  | String c rest =>
      String (if Scheduler.is_upper c
              then ascii_of_nat (nat_of_ascii c + 32) else c)
             (lower_ascii rest)
  end.

End Text.

(** ** The bounds [generate_recurring_instances] works with *)

Module Window.
Import Py.

(** "Set default date range (6 months back to 2 years forward)" *)
Definition window_start (now : datetime) (start_date : option datetime)
    : outcome datetime :=
  match start_date with
  | Some d => Ok d
  | None => dt_sub now (days 180)
  end.

Definition window_end (now : datetime) (end_date : option datetime)
    : outcome datetime :=
  match end_date with
  | Some d => Ok d
  | None => dt_add now (days 730)
  end.

(** Neighbours a fixed number of microseconds apart. *)
Definition apart (delta : Z) (a b : Z * datetime) : Prop :=
  b.1 = a.1 + 1 /\ wall b.2 = wall a.2 + delta.

End Window.

Module Scenario2.
Import Py Item Scenario.

Definition standup_occurrences : list (Z * datetime) :=
  [(9, mkdt 2025 1 10 9 0 0); (10, mkdt 2025 1 11 9 0 0)].

End Scenario2.

(** ** [validate_input], [format_mention_for_discord] and the template
    filters of [main.py] *)

Module Helpers.
Import Py Text.

(** [validate_input(data, max_length)] for a [str]; the callers pass the
    literals 100, 50, 30 and 500 for [max_length]. *)
Definition validate_input (data : string) (max_length : nat) : string :=
  if negb (truthy data) then EmptyString
  else if (max_length <? str_len data)%nat then str_take max_length data
  else data.

(** [s.replace(c, by)] for an ASCII character [c]: every [c] gives way to
    [by]. *)
Fixpoint replace_char (c : ascii) (by_ : string) (s : string) : string :=
  match s with
  | EmptyString => EmptyString
  | String x rest =>
      if Ascii.eqb x c then by_ +:+ replace_char c by_ rest
      else String x (replace_char c by_ rest)
  end.

(** [(a - b).days] for two naive values: whole days, rounded down. *)
Definition days_between (a b : datetime) : Z := (wall a - wall b) / US_PER_DAY.

Section WithLibrary.

(** [datetime.fromisoformat]; [None] stands for its [ValueError]. *)
Variable fromisoformat : string -> option datetime.
(** [str.strip] *)
Variable str_strip : string -> string.

(** [format_mention_for_discord(mention)] *)
Definition format_mention_for_discord (mention : string) : string :=
  if negb (truthy mention) then EmptyString
  else
    let mention := str_strip mention in
    let mention :=
      if truthy mention && negb (startswith mention "@")
      then "@" +:+ mention else mention in
    mention.

(** [format_datetime_filter(datetime_str)] *)
Definition format_datetime_filter (datetime_str : string) : string :=
  if negb (truthy datetime_str) || String.eqb datetime_str "None"
  then EmptyString
  else
    match fromisoformat (replace_char "Z" "+00:00" datetime_str) with
    | Some dt => strftime_12hour dt
    | None => replace_char "T" " " datetime_str
    end.

(** [time_until_due_filter(datetime_str)] when [datetime.now()] answers
    [now]. *)
Definition time_until_due_filter (now : datetime) (datetime_str : string)
    : string :=
  if negb (truthy datetime_str) || String.eqb datetime_str "None"
  then "no-date"
  else
    match fromisoformat (replace_char "Z" "+00:00" datetime_str) with
    | Some due_date =>
        let due_date :=
          if is_aware due_date then replace_tzinfo_None due_date
          else due_date in
        if wall due_date <? wall now then "overdue"
        else if days_between due_date now <=? 1 then "due-soon"
        else "normal"
    | None => "normal"
    end.

End WithLibrary.

End Helpers.

(** ** The listing and searching commands of the bot *)

Module Commands.
Import Py Item Text.

(** A [discord.Embed] made with a title and a colour; the footer is there
    once [set_footer] is called. *)
Record embed : Set := Embed {
  title : string;
  colour : Z;
  fields : list Digest.embed_field;
  footer : option string
}.

(** What a command sends with [ctx.send]: a text or an embed. *)
Inductive reply : Set :=
| Text (content : string)
| Rich (e : embed).

Definition add_field (e : embed) (name value : string) (inline : bool) : embed :=
  {| title := title e; colour := colour e;
     fields := fields e ++ [Digest.Field name value inline];
     footer := footer e |}.

Definition set_footer (e : embed) (text : string) : embed :=
  {| title := title e; colour := colour e; fields := fields e;
     footer := Some text |}.

(** [s in t] for two [str] *)
Fixpoint contains (needle hay : string) : bool :=
  String.prefix needle hay
  || match hay with
     | EmptyString => false
     | String _ rest => contains needle rest
     end.

Section WithLibrary.

Variable fromisoformat : string -> option datetime.
(** [str.lower] and [str.title] *)
Variable str_lower : string -> string.
Variable str_title : string -> string.

Definition repeat_text (i : item) : string :=
  if negb (String.eqb (repeat_interval i) "none")
  then " (Repeats " +:+ repeat_interval i +:+ ")" else EmptyString.

(** The body of the loop of [eventlist] and of [tasklist]. *)
Definition list_entry (e : embed) (i : item) : embed :=
  add_field e
    (name i +:+ " (ID: " +:+ str_of_int (item_id i) +:+ ")" +:+ repeat_text i)
    ("Due: " +:+ Digest.format_time_12hour fromisoformat (due_date i) +:+ newline
     +:+ "Priority: " +:+ priority i +:+ newline
     +:+ "Category: " +:+ category i)
    false.

(** The field [list_entry] adds for a row. *)
Definition list_field (i : item) : Digest.embed_field :=
  Digest.Field
    (name i +:+ " (ID: " +:+ str_of_int (item_id i) +:+ ")" +:+ repeat_text i)
    ("Due: " +:+ Digest.format_time_12hour fromisoformat (due_date i) +:+ newline
     +:+ "Priority: " +:+ priority i +:+ newline
     +:+ "Category: " +:+ category i)
    false.

(** [eventlist(ctx)] when [database.fetch_items()] answers [items] *)
Definition eventlist (items : list item) : reply :=
  let events :=
    filter (fun i => item_type i = "event" /\ status i = "pending") items in
  match events with
  | [] => Text "No incomplete events found!"
  | _ =>
      let embed := Embed "📅 Incomplete Events" 3381759 [] None in
      let embed := fold_left list_entry (take 15 events) embed in
      let embed :=
        if (15 <? length events)%nat
        then set_footer embed
               ("Showing first 15 of " +:+ str_of_int (Z.of_nat (length events))
                +:+ " incomplete events")
        else embed in
      Rich embed
  end.

(** [tasklist(ctx)] *)
Definition tasklist (items : list item) : reply :=
  let tasks :=
    filter (fun i => item_type i = "task" /\ status i = "pending") items in
  match tasks with
  | [] => Text "No incomplete tasks found!"
  | _ =>
      let embed := Embed "📋 Incomplete Tasks" 65280 [] None in
      let embed := fold_left list_entry (take 15 tasks) embed in
      let embed :=
        if (15 <? length tasks)%nat
        then set_footer embed
               ("Showing first 15 of " +:+ str_of_int (Z.of_nat (length tasks))
                +:+ " incomplete tasks")
        else embed in
      Rich embed
  end.

(** The test of the search loops: the term, in lower case, occurs in the
    name, in the category or in the notes. *)
Definition matches (search_lower : string) (i : item) : bool :=
  contains search_lower (str_lower (name i))
  || contains search_lower (str_lower (category i))
  || (truthy (notes i) && contains search_lower (str_lower (notes i))).

(** The body of the loop over the first matches. *)
Definition search_entry (e : embed) (i : item) : embed :=
  let status_emoji := if String.eqb (status i) "completed" then "✅" else "⏳" in
  let status_text := " [" +:+ str_title (status i) +:+ "]" in
  add_field e
    (status_emoji +:+ " " +:+ name i +:+ " (ID: " +:+ str_of_int (item_id i)
     +:+ ")" +:+ repeat_text i +:+ status_text)
    ("Due: " +:+ Digest.format_time_12hour fromisoformat (due_date i) +:+ newline
     +:+ "Priority: " +:+ priority i +:+ newline
     +:+ "Category: " +:+ category i +:+ newline
     +:+ "Notes: " +:+ (if truthy (notes i) then notes i else "None"))
    false.

(** The field [search_entry] adds for a row. *)
Definition search_field (i : item) : Digest.embed_field :=
  Digest.Field
    ((if String.eqb (status i) "completed" then "✅" else "⏳")
     +:+ " " +:+ name i +:+ " (ID: " +:+ str_of_int (item_id i)
     +:+ ")" +:+ repeat_text i +:+ " [" +:+ str_title (status i) +:+ "]")
    ("Due: " +:+ Digest.format_time_12hour fromisoformat (due_date i) +:+ newline
     +:+ "Priority: " +:+ priority i +:+ newline
     +:+ "Category: " +:+ category i +:+ newline
     +:+ "Notes: " +:+ (if truthy (notes i) then notes i else "None"))
    false.

(** [searchevent(ctx, search_term=)]; [None] for the term left out. *)
Definition searchevent (items : list item) (search_term : option string)
    : reply :=
  match search_term with
  | None | Some EmptyString =>
      Text ("Usage: `!searchevent <search_term>`" +:+ newline
            +:+ "Example: `!searchevent meeting`")
  | Some search_term =>
      let events := filter (fun i => item_type i = "event") items in
      let search_lower := str_lower search_term in
      let matching_events :=
        filter (fun i => matches search_lower i = true) events in
      match matching_events with
      | [] => Text ("No events found matching '" +:+ search_term +:+ "'")
      | _ =>
          let embed :=
            Embed ("📅 Events matching '" +:+ search_term +:+ "'") 3381759
                  [] None in
          let embed := fold_left search_entry (take 10 matching_events) embed in
          let embed :=
            if (10 <? length matching_events)%nat
            then set_footer embed
                   ("Showing first 10 of "
                    +:+ str_of_int (Z.of_nat (length matching_events))
                    +:+ " matching events")
            else embed in
          Rich embed
      end
  end.

(** [searchtask(ctx, search_term=)] *)
Definition searchtask (items : list item) (search_term : option string)
    : reply :=
  match search_term with
  | None | Some EmptyString =>
      Text ("Usage: `!searchtask <search_term>`" +:+ newline
            +:+ "Example: `!searchtask homework`")
  | Some search_term =>
      let tasks := filter (fun i => item_type i = "task") items in
      let search_lower := str_lower search_term in
      let matching_tasks :=
        filter (fun i => matches search_lower i = true) tasks in
      match matching_tasks with
      | [] => Text ("No tasks found matching '" +:+ search_term +:+ "'")
      | _ =>
          let embed :=
            Embed ("📋 Tasks matching '" +:+ search_term +:+ "'") 65280
                  [] None in
          let embed := fold_left search_entry (take 10 matching_tasks) embed in
          let embed :=
            if (10 <? length matching_tasks)%nat
            then set_footer embed
                   ("Showing first 10 of "
                    +:+ str_of_int (Z.of_nat (length matching_tasks))
                    +:+ " matching tasks")
            else embed in
          Rich embed
      end
  end.

End WithLibrary.

End Commands.

(** ** [database.py]: the tables and what the program does with them *)

Module Database.
Import Py Item Text.

(** The twelve columns of a row of [tasks] after its [id].  Every value
    the program writes to a text column is a [str], so a column is its
    text; [created_at] and [updated_at] hold what [CURRENT_TIMESTAMP]
    answered. *)
Record columns : Set := Columns {
  c_type : string;
  c_name : string;
  c_due_date : string;
  c_status : string;
  c_mention : string;
  c_repeat_interval : string;
  c_category : string;
  c_notes : string;
  c_priority : string;
  c_color : string;
  c_created_at : string;
  c_updated_at : string
}.

(** The columns of a row of [users] after its [id]. *)
Record user : Set := User {
  u_username : string;
  u_password_hash : string;
  u_created_at : string
}.

(** The file [tasks.db] after [init_db]: the two tables by [id], and for
    each the largest [id] it has held ([sqlite_sequence], kept for an
    [AUTOINCREMENT] key). *)
Record db : Type := Db {
  tasks : gmap Z columns;
  tasks_seq : Z;
  users : gmap Z user;
  users_seq : Z
}.

Definition empty_db : db := Db ∅ 0 ∅ 0.

(** What the functions of [database.py] raise. *)
Inductive error : Set :=
| ValueError (msg : string)
| IntegrityError   (* sqlite3: a CHECK or UNIQUE constraint failed *)
| OperationalError (* sqlite3: the table has held the largest rowid *)
| OverflowError    (* sqlite3: "Python int too large to convert to SQLite
                      INTEGER", for a parameter outside 64 bits *)
| UnsupportedValue (* a value that is no [str]: the [TypeError] (or
                      [KeyError]) of a validator that takes its length or
                      slices it, or the error of sqlite3 for a list it
                      cannot bind *).

Inductive answer (A : Type) : Type :=
| Returns (a : A)
| Raises (e : error).
Arguments Returns {A} a.
Arguments Raises {A} e.

(** *** Python's [in] and [or] on a text that may be [None] *)

Definition in_list (x : string) (l : list string) : bool :=
  existsb (String.eqb x) l.

(** [x in l] *)
Definition is_in (x : option string) (l : list string) : bool :=
  match x with
  | Some s => in_list s l
  | None => false
  end.

(** [bool(x)] *)
Definition is_true (x : option string) : bool :=
  match x with
  | Some s => truthy s
  | None => false
  end.

(** [x or d] *)
Definition or_else (x : option string) (d : string) : string :=
  match x with
  | Some s => if truthy s then s else d
  | None => d
  end.

(** The text of a value known not to be [None]. *)
Definition text (x : option string) : string := default EmptyString x.

(** *** What SQLite does *)

Definition MAX_ROWID : Z := 9223372036854775807.

(** An [int] that sqlite3 binds to a parameter: one of 64 bits. *)
Definition fits (n : Z) : bool := (- MAX_ROWID - 1 <=? n) && (n <=? MAX_ROWID).

(** The largest key of a table, 0 for an empty one. *)
Definition max_rowid {A} (m : gmap Z A) : Z :=
  map_fold (fun k _ acc => Z.max k acc) 0 m.

(** The key an [AUTOINCREMENT] column gives to a new row: one more than
    the largest the table has held; none is left after the largest
    rowid. *)
Definition next_rowid {A} (m : gmap Z A) (seq : Z) : option Z :=
  let top := Z.max seq (max_rowid m) in
  if top <? MAX_ROWID then Some (top + 1) else None.

(** The [CHECK] constraints of [tasks]. *)
Definition check_constraints (c : columns) : bool :=
  in_list (c_type c) ["task"; "event"]
  && in_list (c_status c) ["pending"; "completed"]
  && in_list (c_repeat_interval c) ["none"; "daily"; "weekly"; "monthly"]
  && in_list (c_priority c) ["Low"; "Medium"; "High"].

(** [INSERT INTO tasks]: the new rowid is the answer ([lastrowid]). *)
Definition insert_task (c : columns) (d : db) : answer Z * db :=
  if negb (check_constraints c) then (Raises IntegrityError, d)
  else
    match next_rowid (tasks d) (tasks_seq d) with
    | None => (Raises OperationalError, d)
    | Some k =>
        (Returns k,
         {| tasks := <[k := c]> (tasks d); tasks_seq := k;
            users := users d; users_seq := users_seq d |})
    end.

(** [UPDATE tasks SET ... WHERE id=?] with values that are [str]: the
    answer is [rowcount].  An id outside 64 bits is refused when it is
    bound, before the statement runs. *)
Definition update_task (item_id : Z) (set : columns -> columns) (d : db)
    : answer Z * db :=
  if negb (fits item_id) then (Raises OverflowError, d)
  else
    match tasks d !! item_id with
    | None => (Returns 0, d)
    | Some c =>
        if negb (check_constraints (set c)) then (Raises IntegrityError, d)
        else
          (Returns 1,
           {| tasks := <[item_id := set c]> (tasks d);
              tasks_seq := tasks_seq d;
              users := users d; users_seq := users_seq d |})
    end.

(** [DELETE FROM tasks WHERE id=?]: the answer is [rowcount]. *)
Definition delete_task (item_id : Z) (d : db) : answer Z * db :=
  if negb (fits item_id) then (Raises OverflowError, d)
  else
    match tasks d !! item_id with
    | None => (Returns 0, d)
    | Some _ =>
        (Returns 1,
         {| tasks := delete item_id (tasks d); tasks_seq := tasks_seq d;
            users := users d; users_seq := users_seq d |})
    end.

(** [SELECT * FROM tasks WHERE id=?], then [fetchone]. *)
Definition select_task (item_id : Z) (d : db) : answer (option (Z * columns)) :=
  if negb (fits item_id) then Raises OverflowError
  else Returns (c ← tasks d !! item_id; Some (item_id, c)).

(** [ORDER BY due_date ASC]: the texts compared byte by byte. *)
Definition due_date_le (a b : Z * columns) : Prop :=
  String.leb (c_due_date a.2) (c_due_date b.2) = true.

#[global] Instance due_date_le_dec (a b : Z * columns)
  : Decision (due_date_le a b).
Proof. unfold due_date_le. apply _. Defined.

(** [SELECT * FROM tasks ORDER BY due_date ASC]; the order among rows of
    one due date is the one the sort leaves. *)
Definition select_tasks (d : db) : list (Z * columns) :=
  merge_sort due_date_le (map_to_list (tasks d)).

(** [SELECT id, username, password_hash FROM users WHERE username=?], then
    [fetchone]. *)
Definition select_user (username : string) (d : db) : option (Z * user) :=
  head (filter (fun r : Z * user => u_username r.2 = username)
               (map_to_list (users d))).

(** [INSERT INTO users]: [username] is [UNIQUE]. *)
Definition insert_user (u : user) (d : db) : answer Z * db :=
  match select_user (u_username u) d with
  | Some _ => (Raises IntegrityError, d)
  | None =>
      match next_rowid (users d) (users_seq d) with
      | None => (Raises OperationalError, d)
      | Some k =>
          (Returns k,
           {| tasks := tasks d; tasks_seq := tasks_seq d;
              users := <[k := u]> (users d); users_seq := k |})
      end
  end.

(** *** The functions of [database.py]

    [current_timestamp] is what [CURRENT_TIMESTAMP] answers during the
    call. *)

(** [add_user(username, password)], when [generate_password_hash(password)]
    answers [password_hash] (the salt is drawn afresh at each call). *)
Definition add_user (current_timestamp password_hash : string)
    (username password : string) (d : db) : answer unit * db :=
  if negb (truthy username) || negb (truthy password)
  then (Raises (ValueError "Username and password are required"), d)
  else if (50 <? str_len username)%nat
  then (Raises (ValueError "Username too long"), d)
  else if (str_len password <? 6)%nat
  then (Raises (ValueError "Password must be at least 6 characters"), d)
  else
    match insert_user (User username password_hash current_timestamp) d with
    | (Returns _, d') => (Returns (), d')
    | (Raises IntegrityError, d') =>
        (Raises (ValueError "Username already exists"), d')
    | (Raises e, d') => (Raises e, d')
    end.

(** [fetch_user(username)] *)
Definition fetch_user (username : string) (d : db) : option (Z * user) :=
  if negb (truthy username) || (50 <? str_len username)%nat then None
  else select_user username d.

(** [get_user_count()] *)
Definition get_user_count (d : db) : nat := size (users d).

(** The dict [fetch_items] builds from a row. *)
Definition safe_item (r : Z * columns) : item :=
  let (k, c) := r in
  {| item_id := if k =? 0 then 0 else k;
     item_type := or_else (Some (c_type c)) "task";
     name := or_else (Some (c_name c)) EmptyString;
     due_date := or_else (Some (c_due_date c)) EmptyString;
     status := or_else (Some (c_status c)) "pending";
     mention := or_else (Some (c_mention c)) EmptyString;
     repeat_interval := or_else (Some (c_repeat_interval c)) "none";
     category := or_else (Some (c_category c)) "Misc";
     notes := or_else (Some (c_notes c)) EmptyString;
     priority := or_else (Some (c_priority c)) "Medium";
     color := or_else (Some (c_color c)) "#3399ff" |}.

(** [fetch_items()] *)
Definition fetch_items (d : db) : list item :=
  map safe_item (select_tasks d).

(** [add_item_db(item_type, name, due_date, mention, repeat_interval,
    category, notes, priority, color)]; an argument is a [str] or
    [None]. *)
Definition add_item_db (current_timestamp : string)
    (item_type name due_date mention repeat_interval category notes priority
       color : option string) (d : db) : answer Z * db :=
  if negb (is_true item_type) || negb (is_in item_type ["task"; "event"])
  then (Raises (ValueError "Invalid item type"), d)
  else if negb (is_true name) || (100 <? str_len (text name))%nat
  then (Raises (ValueError "Invalid name"), d)
  else if negb (is_true due_date)
  then (Raises (ValueError "Due date is required"), d)
  else
    let priority :=
      if negb (is_in priority ["Low"; "Medium"; "High"]) then "Medium"
      else text priority in
    let repeat_interval :=
      if negb (is_in repeat_interval ["none"; "daily"; "weekly"; "monthly"])
      then "none" else text repeat_interval in
    let mention := str_take 50 (or_else mention EmptyString) in
    let category := str_take 30 (or_else category "Misc") in
    let notes := str_take 500 (or_else notes EmptyString) in
    let color := str_take 20 (or_else color "#3399ff") in
    insert_task
      {| c_type := text item_type; c_name := text name;
         c_due_date := text due_date; c_status := "pending";
         c_mention := mention; c_repeat_interval := repeat_interval;
         c_category := category; c_notes := notes; c_priority := priority;
         c_color := color; c_created_at := current_timestamp;
         c_updated_at := current_timestamp |}
      d.

Definition set_status (status current_timestamp : string) (c : columns)
    : columns :=
  {| c_type := c_type c; c_name := c_name c; c_due_date := c_due_date c;
     c_status := status; c_mention := c_mention c;
     c_repeat_interval := c_repeat_interval c; c_category := c_category c;
     c_notes := c_notes c; c_priority := c_priority c; c_color := c_color c;
     c_created_at := c_created_at c; c_updated_at := current_timestamp |}.

(** [update_item_status(item_id, status)] *)
Definition update_item_status (current_timestamp : string) (item_id : Z)
    (status : string) (d : db) : answer unit * db :=
  if item_id <=? 0 then (Raises (ValueError "Invalid item ID"), d)
  else if negb (in_list status ["pending"; "completed"])
  then (Raises (ValueError "Invalid status"), d)
  else
    match update_task item_id (set_status status current_timestamp) d with
    | (Returns affected_rows, d') =>
        if affected_rows =? 0
        then (Raises (ValueError ("No item found with ID "
                                  +:+ str_of_int item_id)), d')
        else (Returns (), d')
    | (Raises e, d') => (Raises e, d')
    end.

(** [get_item(item_id)]: the row as a tuple, its [id] first; an exception
    of the query is answered with [None]. *)
Definition get_item (item_id : Z) (d : db) : option (Z * columns) :=
  if item_id <=? 0 then None
  else
    match select_task item_id d with
    | Returns item => item
    | Raises _ => None
    end.

(** A value of a field of [update_item_db].  The route that calls it
    passes on what the JSON of the request holds: [None], a [str], a
    [bool], a number (what matters of it is whether it is zero), a list or
    a dict (what matters is how many elements it has). *)
Inductive value : Set :=
| VNone
| VStr (s : string)
| VBool (b : bool)
| VNumber (is_zero : bool)
| VList (length : nat)
| VDict (length : nat).

(** What a validator of [allowed_fields] makes of a value: [None] (the
    field is left out), a [str], a list (sqlite3 will not bind it), or an
    exception. *)
Inductive validated : Set :=
| Left_out
| Kept (s : string)
| Unbound
| Failed.

#[global] Instance validated_eq_dec : EqDecision validated.
Proof. solve_decision. Defined.

(** [not x] *)
Definition falsy (x : value) : bool :=
  match x with
  | VNone => true
  | VStr s => negb (truthy s)
  | VBool b => negb b
  | VNumber is_zero => is_zero
  | VList n | VDict n => (n =? 0)%nat
  end.

(** [len(x)]; [None] stands for the [TypeError] of a [bool] or a
    number. *)
Definition len (x : value) : option nat :=
  match x with
  | VStr s => Some (str_len s)
  | VList n | VDict n => Some n
  | _ => None
  end.

(** [x[:n]] for a value that is not falsy and [n] above 0: the start of a
    [str], a list for a list, an exception for the rest. *)
Definition cut (n : nat) (x : value) : validated :=
  match x with
  | VStr s => Kept (str_take n s)
  | VList _ => Unbound
  | _ => Failed
  end.

(** [x if x in l else None] for a list [l] of [str] *)
Definition one_of (l : list string) (x : value) : validated :=
  match x with
  | VStr s => if in_list s l then Kept s else Left_out
  | _ => Left_out
  end.

(** [(x or default)[:n]] *)
Definition or_cut (default_ : string) (n : nat) (x : value) : validated :=
  if falsy x then Kept (str_take n default_) else cut n x.

(** The dict [allowed_fields] of [update_item_db]. *)
Definition allowed_fields : gmap string (value -> validated) :=
  list_to_map
    [("type", one_of ["task"; "event"]);
     ("name", fun x => if falsy x then Left_out
                       else match len x with
                            | None => Failed
                            | Some n => if (n <=? 100)%nat then cut 100 x
                                        else Left_out
                            end);
     ("due_date", fun x => if falsy x then Left_out else cut 50 x);
     ("status", one_of ["pending"; "completed"]);
     ("mention", or_cut EmptyString 50);
     ("repeat_interval", one_of ["none"; "daily"; "weekly"; "monthly"]);
     ("category", or_cut "Misc" 30);
     ("notes", or_cut EmptyString 500);
     ("priority", one_of ["Low"; "Medium"; "High"]);
     ("color", or_cut "#3399ff" 20)].

(** "Filter and validate fields": the dict [safe_fields], were the loop to
    go on past a validator that raises ([Failed] marks the field of
    one). *)
Definition safe_fields (fields : gmap string value) : gmap string validated :=
  map_imap (fun k v =>
              validate ← allowed_fields !! k;
              match validate v with
              | Left_out => None
              | validated_value => Some validated_value
              end) fields.

(** One of the fields has this outcome. *)
Definition has (outcome : validated) (m : gmap string validated) : Prop :=
  map_Exists (fun _ r => r = outcome) m.

(** The fields that are [str]. *)
Definition texts (m : gmap string validated) : gmap string string :=
  omap (fun r => match r with Kept s => Some s | _ => None end) m.

(** The [SET] clauses built from [safe_fields], and [updated_at]. *)
Definition set_fields (safe_fields : gmap string string)
    (current_timestamp : string) (c : columns) : columns :=
  {| c_type := default (c_type c) (safe_fields !! "type");
     c_name := default (c_name c) (safe_fields !! "name");
     c_due_date := default (c_due_date c) (safe_fields !! "due_date");
     c_status := default (c_status c) (safe_fields !! "status");
     c_mention := default (c_mention c) (safe_fields !! "mention");
     c_repeat_interval :=
       default (c_repeat_interval c) (safe_fields !! "repeat_interval");
     c_category := default (c_category c) (safe_fields !! "category");
     c_notes := default (c_notes c) (safe_fields !! "notes");
     c_priority := default (c_priority c) (safe_fields !! "priority");
     c_color := default (c_color c) (safe_fields !! "color");
     c_created_at := c_created_at c;
     c_updated_at := current_timestamp |}.

(** [update_item_db(item_id, **fields)].  A validator that raises ends the
    call before any statement is sent; the values are bound before the
    id. *)
Definition update_item_db (current_timestamp : string) (item_id : Z)
    (fields : gmap string value) (d : db) : answer unit * db :=
  if item_id <=? 0 then (Raises (ValueError "Invalid item ID"), d)
  else if decide (fields = ∅) then (Returns (), d)
  else
    let safe_fields := safe_fields fields in
    if decide (has Failed safe_fields) then (Raises UnsupportedValue, d)
    else if decide (safe_fields = ∅) then (Returns (), d)
    else if decide (has Unbound safe_fields) then (Raises UnsupportedValue, d)
    else
      match update_task item_id
                        (set_fields (texts safe_fields) current_timestamp) d
      with
      | (Returns _, d') => (Returns (), d')
      | (Raises e, d') => (Raises e, d')
      end.

(** [delete_item(item_id)] *)
Definition delete_item (item_id : Z) (d : db) : answer bool * db :=
  if item_id <=? 0 then (Raises (ValueError "Invalid item ID"), d)
  else
    match delete_task item_id d with
    | (Returns rows_affected, d') => (Returns (0 <? rows_affected), d')
    | (Raises e, d') => (Raises e, d')
    end.

(** *** What the rows the program writes have in common *)

(** A row as the writes of the program leave it. *)
Record written (c : columns) : Prop := Written {
  written_type : c_type c = "task" \/ c_type c = "event";
  written_name : c_name c <> EmptyString /\ (str_len (c_name c) <= 100)%nat;
  written_due_date : c_due_date c <> EmptyString;
  written_status : c_status c = "pending" \/ c_status c = "completed";
  written_mention : (str_len (c_mention c) <= 50)%nat;
  written_repeat_interval :
    c_repeat_interval c = "none" \/ c_repeat_interval c = "daily"
    \/ c_repeat_interval c = "weekly" \/ c_repeat_interval c = "monthly";
  written_category :
    c_category c <> EmptyString /\ (str_len (c_category c) <= 30)%nat;
  written_notes : (str_len (c_notes c) <= 500)%nat;
  written_priority :
    c_priority c = "Low" \/ c_priority c = "Medium" \/ c_priority c = "High";
  written_color : c_color c <> EmptyString /\ (str_len (c_color c) <= 20)%nat
}.

(** A database the program has made: the ids are positive, of 64 bits as
    every rowid of SQLite, and none is above the largest the table has
    held; every row is as the writes leave it. *)
Definition consistent (d : db) : Prop :=
  forall k c,
    tasks d !! k = Some c ->
    (0 < k <= tasks_seq d /\ k <= MAX_ROWID) /\ written c.

(** The row as a dict, its values taken as they are. *)
Definition item_of (r : Z * columns) : item :=
  {| item_id := r.1; item_type := c_type r.2; name := c_name r.2;
     due_date := c_due_date r.2; status := c_status r.2;
     mention := c_mention r.2; repeat_interval := c_repeat_interval r.2;
     category := c_category r.2; notes := c_notes r.2;
     priority := c_priority r.2; color := c_color r.2 |}.

(** No two rows of [users] have one username. *)
Definition users_unique (d : db) : Prop :=
  forall k1 k2 u1 u2,
    users d !! k1 = Some u1 -> users d !! k2 = Some u2 ->
    u_username u1 = u_username u2 -> k1 = k2.

(** *** The writes of the program, one after the other

    The calls of [database.py] that change the file, and the [DELETE] that
    [api_event] of [main.py] sends itself. *)
Inductive write : Type :=
| AddUser (current_timestamp password_hash username password : string)
| AddItem (current_timestamp : string)
    (item_type name due_date mention repeat_interval category notes priority
       color : option string)
| SetStatus (current_timestamp : string) (item_id : Z) (status : string)
| UpdateItem (current_timestamp : string) (item_id : Z)
    (fields : gmap string value)
| DeleteItem (item_id : Z)
| DeleteRow (event_id : Z).

(** The database after a write, whether the call returns or raises. *)
Definition perform (d : db) (w : write) : db :=
  match w with
  | AddUser current_timestamp password_hash username password =>
      (add_user current_timestamp password_hash username password d).2
  | AddItem current_timestamp item_type name due_date mention repeat_interval
            category notes priority color =>
      (add_item_db current_timestamp item_type name due_date mention
                   repeat_interval category notes priority color d).2
  | SetStatus current_timestamp item_id status =>
      (update_item_status current_timestamp item_id status d).2
  | UpdateItem current_timestamp item_id fields =>
      (update_item_db current_timestamp item_id fields d).2
  | DeleteItem item_id => (delete_item item_id d).2
  | DeleteRow event_id => (delete_task event_id d).2
  end.

Definition perform_all (ws : list write) (d : db) : db :=
  fold_left perform ws d.

End Database.

(** ** Marking a row completed: [completetask], [completeevent] and the
    route [/complete/<int:item_id>] *)

Module Completion.
Import Py Item Text Database.

(** What a command or a route has done when it ends: what it has sent
    with [ctx.send], the text it has given to the notifications channel,
    if any, and what it answers. *)
Record done (A : Type) : Type := Done {
  sent : list Commands.reply;
  notified : option string;
  result : A
}.
Arguments Done {A} sent notified result.
Arguments sent {A} d.
Arguments notified {A} d.
Arguments result {A} d.

(** [notify_discord(message, mention_everyone)]: the text given to
    [channel.send], when the bot is ready and the channel is found. *)
Definition notify_discord (bot_ready channel_found : bool) (message : string)
    (mention_everyone : bool) : option string :=
  if negb bot_ready then None
  else if channel_found
  then Some (if mention_everyone then "@everyone" +:+ newline +:+ message
             else message)
  else None.

Section WithLibrary.

(** [str.strip], [str.title] *)
Variable str_strip : string -> string.
Variable str_title : string -> string.
(** [int(s)] for a [str]; [None] stands for its [ValueError]. *)
Variable int_of_str : string -> option Z.
(** [BOT_READY], and whether [bot.get_channel] finds the notifications
    channel. *)
Variable bot_ready channel_found : bool.

(** [format_mention_for_discord(item[5]) if item[5] else ""] *)
Definition mention_of (c : columns) : string :=
  if truthy (c_mention c)
  then Helpers.format_mention_for_discord str_strip (c_mention c)
  else EmptyString.

(** The embed the two commands send. *)
Definition completed_embed (title : string) (colour : Z) (kind : string)
    (c : columns) : Commands.embed :=
  let mention := mention_of c in
  let embed := Commands.Embed title colour [] None in
  let embed := Commands.add_field embed kind (c_name c) true in
  let embed := Commands.add_field embed "Priority" (c_priority c) true in
  let embed := Commands.add_field embed "Category" (c_category c) true in
  let embed :=
    if truthy mention then Commands.add_field embed "Mention" mention true
    else embed in
  let embed :=
    if truthy (c_notes c) then Commands.add_field embed "Notes" (c_notes c) false
    else embed in
  embed.

(** The text for the notifications channel; [heading] is its first
    line. *)
Definition completed_message (heading : string) (c : columns) : string :=
  let mention := mention_of c in
  heading +:+ newline +:+ newline
  +:+ "**" +:+ c_name c +:+ "**"
  +:+ (if truthy mention then " " +:+ mention else EmptyString) +:+ newline
  +:+ "🎯 Priority: " +:+ c_priority c +:+ newline
  +:+ "📝 Notes: " +:+ (if truthy (c_notes c) then c_notes c else "None").

(** [completetask(ctx, task_id=None)], past the check of the channel. *)
Definition completetask (current_timestamp : string) (task_id : option string)
    (d : db) : answer (done unit) * db :=
  if negb (is_true task_id)
  then (Returns (Done [Commands.Text
                         ("Usage: `!completetask <task_id>`" +:+ newline
                          +:+ "Example: `!completetask 123`")] None ()), d)
  else
    match int_of_str (text task_id) with
    | None =>
        (Returns (Done [Commands.Text
                          "Invalid task ID. Please provide a number."]
                       None ()), d)
    | Some task_id =>
        match get_item task_id d with
        | None =>
            (Returns (Done [Commands.Text
                              ("Task with ID " +:+ str_of_int task_id
                               +:+ " not found.")] None ()), d)
        | Some (_, item) =>
            if negb (String.eqb (c_type item) "task")
            then (Returns (Done [Commands.Text
                                   ("ID " +:+ str_of_int task_id
                                    +:+ " is not a task. Use `!completeevent` for events.")]
                                None ()), d)
            else if String.eqb (c_status item) "completed"
            then (Returns (Done [Commands.Text
                                   ("Task '" +:+ c_name item
                                    +:+ "' is already completed.")]
                                None ()), d)
            else
              match update_item_status current_timestamp task_id "completed" d
              with
              | (Raises e, d') => (Raises e, d')
              | (Returns _, d') =>
                  (Returns
                     (Done [Commands.Rich
                              (completed_embed "✅ Task Completed!" 65280
                                               "Task" item)]
                           (notify_discord bot_ready channel_found
                              (completed_message "✅ Task Completed!" item)
                              true)
                           ()), d')
              end
        end
    end.

(** [completeevent(ctx, event_id=None)], past the check of the channel. *)
Definition completeevent (current_timestamp : string)
    (event_id : option string) (d : db) : answer (done unit) * db :=
  if negb (is_true event_id)
  then (Returns (Done [Commands.Text
                         ("Usage: `!completeevent <event_id>`" +:+ newline
                          +:+ "Example: `!completeevent 123`")] None ()), d)
  else
    match int_of_str (text event_id) with
    | None =>
        (Returns (Done [Commands.Text
                          "Invalid event ID. Please provide a number."]
                       None ()), d)
    | Some event_id =>
        match get_item event_id d with
        | None =>
            (Returns (Done [Commands.Text
                              ("Event with ID " +:+ str_of_int event_id
                               +:+ " not found.")] None ()), d)
        | Some (_, item) =>
            if negb (String.eqb (c_type item) "event")
            then (Returns (Done [Commands.Text
                                   ("ID " +:+ str_of_int event_id
                                    +:+ " is not an event. Use `!completetask` for tasks.")]
                                None ()), d)
            else if String.eqb (c_status item) "completed"
            then (Returns (Done [Commands.Text
                                   ("Event '" +:+ c_name item
                                    +:+ "' is already completed.")]
                                None ()), d)
            else
              match update_item_status current_timestamp event_id "completed"
                                       d with
              | (Raises e, d') => (Raises e, d')
              | (Returns _, d') =>
                  (Returns
                     (Done [Commands.Rich
                              (completed_embed "✅ Event Completed!" 3381759
                                               "Event" item)]
                           (notify_discord bot_ready channel_found
                              (completed_message "✅ Event Completed!" item)
                              true)
                           ()), d')
              end
        end
    end.

(** The [UPDATE tasks SET status=?] that [complete_item] sends itself when
    [update_item_status] has raised. *)
Definition set_status_only (status : string) (c : columns) : columns :=
  {| c_type := c_type c; c_name := c_name c; c_due_date := c_due_date c;
     c_status := status; c_mention := c_mention c;
     c_repeat_interval := c_repeat_interval c; c_category := c_category c;
     c_notes := c_notes c; c_priority := c_priority c; c_color := c_color c;
     c_created_at := c_created_at c; c_updated_at := c_updated_at c |}.

(** What a route answers with [redirect(location)]: 302 Found. *)
Inductive response : Set :=
| Found (location : string).

(** [complete_item(item_id)] for a logged-in user; [async_loop] tells
    whether [ASYNC_LOOP] is set. *)
Definition complete_item (async_loop : bool) (current_timestamp : string)
    (item_id : Z) (d : db) : answer (done response) * db :=
  match get_item item_id d with
  | None => (Returns (Done [] None (Found "/dashboard")), d)
  | Some (_, item) =>
      let updated :=
        match update_item_status current_timestamp item_id "completed" d with
        | (Returns _, d') => (Returns 1, d')
        | (Raises _, d') =>
            update_task item_id (set_status_only "completed") d'
        end in
      match updated with
      | (Raises e, d') => (Raises e, d')
      | (Returns _, d') =>
          let message :=
            completed_message
              ("✅ " +:+ str_title (c_type item) +:+ " Completed!") item in
          (Returns
             (Done []
                   (if async_loop && bot_ready
                    then notify_discord bot_ready channel_found message true
                    else None)
                   (Found "/dashboard")), d')
      end
  end.

End WithLibrary.

End Completion.

(** ** The calendar feed: [GET /api/events] *)

Module Api.
Import Py Item Recurrence Helpers.

(** An element of the list the route answers with; the last nine fields
    are its ["extendedProps"]. *)
Record event : Set := Event {
  ev_id : id_value;
  ev_title : string;
  ev_start : string;
  ev_color : string;
  ev_type : string;
  ev_status : string;
  ev_priority : string;
  ev_category : string;
  ev_notes : string;
  ev_mention : string;
  ev_repeat_interval : string;
  ev_is_recurring_instance : bool;
  ev_original_id : id_value
}.

(** The dict built for an instance. *)
Definition event_of_instance (instance : instance) : event :=
  let row := inst_row instance in
  {| ev_id := inst_id instance;
     ev_title := name row;
     ev_start := due_date row;
     ev_color := if truthy (color row) then color row else "#3399ff";
     ev_type := item_type row;
     ev_status := status row;
     ev_priority := priority row;
     ev_category := category row;
     ev_notes := notes row;
     ev_mention := mention row;
     ev_repeat_interval := repeat_interval row;
     ev_is_recurring_instance := default false (is_recurring_instance instance);
     ev_original_id :=
       match original_id instance with
       | Some n => IntId n
       | None => inst_id instance
       end |}.

(** The dict built for the row itself, "without recurring instances". *)
Definition event_of_item (item : item) : event :=
  {| ev_id := IntId (item_id item);
     ev_title := name item;
     ev_start := due_date item;
     ev_color := if truthy (color item) then color item else "#3399ff";
     ev_type := item_type item;
     ev_status := status item;
     ev_priority := priority item;
     ev_category := category item;
     ev_notes := notes item;
     ev_mention := mention item;
     ev_repeat_interval := repeat_interval item;
     ev_is_recurring_instance := false;
     ev_original_id := IntId (item_id item) |}.

(** An event is of a row when it carries the values of the row, its due
    date and its id apart, and names the row as its origin. *)
Definition event_of_row (i : item) (e : event) : Prop :=
  ev_original_id e = IntId (item_id i)
  /\ ev_title e = name i /\ ev_type e = item_type i /\ ev_status e = status i
  /\ ev_priority e = priority i /\ ev_category e = category i
  /\ ev_notes e = notes i /\ ev_mention e = mention i
  /\ ev_repeat_interval e = repeat_interval i.

Section WithParser.

Variable fromisoformat : string -> option datetime.

(** [datetime.fromisoformat(param.replace('Z', '')) if param else None];
    the outer [None] stands for the exception of the parser. *)
Definition parse_param (param : option string) : option (option datetime) :=
  if Database.is_true param
  then d ← fromisoformat (replace_char "Z" EmptyString (Database.text param));
       Some (Some d)
  else Some None.

(** The two bounds: both are left out as soon as one does not parse. *)
Definition date_range (start_param end_param : option string)
    : option datetime * option datetime :=
  match parse_param start_param with
  | None => (None, None)
  | Some start_date =>
      match parse_param end_param with
      | None => (None, None)
      | Some end_date => (start_date, end_date)
      end
  end.

(** The loop over the rows; [clock n] is what [datetime.now()] answers
    during pass [n]. *)
Fixpoint events_loop (clock : nat -> datetime) (n : nat) (items : list item)
    (start_date end_date : option datetime) (events : list event)
    : outcome (list event) :=
  match items with
  | [] => Ok events
  | item :: rest =>
      match generate_recurring_instances fromisoformat (clock n) item
                                         start_date end_date with
      | Ok instances =>
          events_loop clock (S n) rest start_date end_date
                      (events ++ map event_of_instance instances)
      | Raise _ =>
          events_loop clock (S n) rest start_date end_date
                      (events ++ [event_of_item item])
      | Diverge => Diverge
      end
  end.

(** [api_events()] for [GET], when [database.fetch_items()] answers
    [items]: the list given to [jsonify]. *)
Definition api_events_get (clock : nat -> datetime) (items : list item)
    (start_param end_param : option string) : outcome (list event) :=
  let (start_date, end_date) := date_range start_param end_param in
  events_loop clock 0 items start_date end_date [].

End WithParser.

End Api.

(** ** Adding a row from Discord: [addevent] and [addtask] *)

Module Adding.
Import Py Item Text Helpers Database Completion.

(** [s.split(c)] for an ASCII character [c] *)
Fixpoint split_on (c : ascii) (s : string) : list string :=
  match s with
  | EmptyString => [EmptyString]
  | String x rest =>
      if Ascii.eqb x c then EmptyString :: split_on c rest
      else match split_on c rest with
           | [] => [String x EmptyString]
           | first :: others => String x first :: others
           end
  end.

Section WithLibrary.

(** [str.strip], [str.upper], [str.split()] (at white space) *)
Variable str_strip : string -> string.
Variable str_upper : string -> string.
Variable str_split : string -> list string.
(** [datetime.strptime(s, format)] and [datetime.fromisoformat]; [None]
    stands for their [ValueError]. *)
Variable strptime : string -> string -> option datetime.
Variable fromisoformat : string -> option datetime.
(** [BOT_READY], whether [bot.get_channel] finds the notifications
    channel, and whether [ASYNC_LOOP] is set. *)
Variable bot_ready channel_found async_loop : bool.

(** [parts[n] if len(parts) > n else default] *)
Definition part (parts : list string) (n : nat) (default_ : string) : string :=
  default default_ (parts !! n).

(** "Try to parse the date - support both with and without AM/PM" *)
Definition parse_due_date (due_date_str : string) : option datetime :=
  if existsb (fun x => Commands.contains x (str_upper due_date_str))
             ["AM"; "PM"]
  then
    if (length (str_split due_date_str) =? 3)%nat
    then strptime due_date_str "%Y-%m-%d %I:%M %p"
    else strptime due_date_str "%Y-%m-%d %I %p"
  else if (length (str_split due_date_str) =? 1)%nat
  then strptime due_date_str "%Y-%m-%d"
  else strptime due_date_str "%Y-%m-%d %H:%M".

(** The embed sent for the new row; [title] is ["✅ Event Added"] or
    ["✅ Task Added"], [id_label] is ["Event ID"] or ["Task ID"]. *)
Definition added_embed (title : string) (colour : Z) (id_label : string)
    (name due_date_iso priority category mention notes : string) (new_id : Z)
    : Commands.embed :=
  let embed := Commands.Embed title colour [] None in
  let embed := Commands.add_field embed "Name" name true in
  let embed :=
    Commands.add_field embed "Due Date"
      (Digest.format_time_12hour fromisoformat due_date_iso) true in
  let embed := Commands.add_field embed "Priority" priority true in
  let embed :=
    if negb (String.eqb category "Misc")
    then Commands.add_field embed "Category" category true else embed in
  let embed :=
    if truthy mention then Commands.add_field embed "Mention" mention true
    else embed in
  let embed :=
    if truthy notes then Commands.add_field embed "Notes" notes false
    else embed in
  Commands.add_field embed id_label (str_of_int new_id) true.

(** The text for the notifications channel. *)
Definition added_message (heading : string)
    (name due_date_iso priority category notes : string) (new_id : Z)
    : string :=
  heading +:+ newline +:+ newline
  +:+ "**" +:+ name +:+ "**" +:+ newline
  +:+ "📅 Due: " +:+ Digest.format_time_12hour fromisoformat due_date_iso
  +:+ newline
  +:+ "🎯 Priority: " +:+ priority +:+ newline
  +:+ "📂 Category: " +:+ category +:+ newline
  +:+ "📝 Notes: " +:+ (if truthy notes then notes else "None") +:+ newline
  +:+ "🆔 ID: " +:+ str_of_int new_id.

(** [addevent(ctx, *, args=None)], past the check of the channel.  The
    answer tells whether the reminders are planned anew. *)
Definition addevent (current_timestamp : string) (args : option string)
    (d : db) : answer (done bool) * db :=
  if negb (is_true args)
  then (Returns (Done [Commands.Text
                         ("Usage: `!addevent <name> | <due_date> | [mention] | [category] | [notes] | [priority]`"
                          +:+ newline
                          +:+ "Example: `!addevent Meeting | 2025-09-07 14:00 | @user | Work | Important meeting | High`")]
                      None false), d)
  else
    let parts := map str_strip (split_on "|" (text args)) in
    if (length parts <? 2)%nat
    then (Returns (Done [Commands.Text
                           "Please provide at least name and due date separated by |"]
                        None false), d)
    else
      let name := validate_input (part parts 0 EmptyString) 100 in
      let due_date_str := validate_input (part parts 1 EmptyString) 50 in
      let mention := validate_input (part parts 2 EmptyString) 50 in
      let category := validate_input (part parts 3 "Misc") 30 in
      let notes := validate_input (part parts 4 EmptyString) 500 in
      let priority :=
        if (5 <? length parts)%nat
           && in_list (part parts 5 EmptyString) ["Low"; "Medium"; "High"]
        then part parts 5 EmptyString else "Medium" in
      if negb (truthy name)
      then (Returns (Done [Commands.Text "Event name cannot be empty"]
                          None false), d)
      else
        match parse_due_date due_date_str with
        | None =>
            (Returns (Done [Commands.Text
                              ("Invalid date format. Use:" +:+ newline
                               +:+ "- YYYY-MM-DD HH:MM (24-hour)" +:+ newline
                               +:+ "- YYYY-MM-DD H:MM AM/PM (12-hour)"
                               +:+ newline
                               +:+ "- YYYY-MM-DD (date only)")]
                           None false), d)
        | Some due_date =>
            let due_date_iso := isoformat due_date in
            match add_item_db current_timestamp (Some "event") (Some name)
                              (Some due_date_iso) (Some mention) (Some "none")
                              (Some category) (Some notes) (Some priority)
                              (Some "#3399ff") d with
            | (Raises e, d') => (Raises e, d')
            | (Returns new_id, d') =>
                (Returns
                   (Done [Commands.Rich
                            (added_embed "✅ Event Added" 3381759 "Event ID"
                                         name due_date_iso priority category
                                         mention notes new_id)]
                         (notify_discord bot_ready channel_found
                            (added_message "🆕 New Event Created!" name
                                           due_date_iso priority category
                                           notes new_id)
                            true)
                         async_loop), d')
            end
        end.

(** [addtask(ctx, *, args=None)], past the check of the channel. *)
Definition addtask (current_timestamp : string) (args : option string)
    (d : db) : answer (done bool) * db :=
  if negb (is_true args)
  then (Returns (Done [Commands.Text
                         ("Usage: `!addtask <name> | <due_date> | [mention] | [category] | [notes] | [priority]`"
                          +:+ newline
                          +:+ "Example: `!addtask Homework | 2025-09-07 11:59 PM | @user | School | Chapter 5 | High`")]
                      None false), d)
  else
    let parts := map str_strip (split_on "|" (text args)) in
    if (length parts <? 2)%nat
    then (Returns (Done [Commands.Text
                           "Please provide at least name and due date separated by |"]
                        None false), d)
    else
      let name := validate_input (part parts 0 EmptyString) 100 in
      let due_date_str := validate_input (part parts 1 EmptyString) 50 in
      let mention := validate_input (part parts 2 EmptyString) 50 in
      let category := validate_input (part parts 3 "Misc") 30 in
      let notes := validate_input (part parts 4 EmptyString) 500 in
      let priority :=
        if (5 <? length parts)%nat
           && in_list (part parts 5 EmptyString) ["Low"; "Medium"; "High"]
        then part parts 5 EmptyString else "Medium" in
      if negb (truthy name)
      then (Returns (Done [Commands.Text "Task name cannot be empty"]
                          None false), d)
      else
        match parse_due_date due_date_str with
        | None =>
            (Returns (Done [Commands.Text
                              ("Invalid date format. Use:" +:+ newline
                               +:+ "- YYYY-MM-DD HH:MM (24-hour)" +:+ newline
                               +:+ "- YYYY-MM-DD H:MM AM/PM (12-hour)"
                               +:+ newline
                               +:+ "- YYYY-MM-DD (date only)")]
                           None false), d)
        | Some due_date =>
            let due_date_iso := isoformat due_date in
            match add_item_db current_timestamp (Some "task") (Some name)
                              (Some due_date_iso) (Some mention) (Some "none")
                              (Some category) (Some notes) (Some priority)
                              (Some "#28a745") d with
            | (Raises e, d') => (Raises e, d')
            | (Returns new_id, d') =>
                (Returns
                   (Done [Commands.Rich
                            (added_embed "✅ Task Added" 65280 "Task ID"
                                         name due_date_iso priority category
                                         mention notes new_id)]
                         (notify_discord bot_ready channel_found
                            (added_message "🆕 New Task Created!" name
                                           due_date_iso priority category
                                           notes new_id)
                            true)
                         async_loop), d')
            end
        end.

End WithLibrary.

(** The row one of the two commands hands to the database, for the parts
    of its argument and the due date read from the second. *)
Definition stored_row (current_timestamp row_type color : string)
    (parts : list string) (due : datetime) : columns :=
  {| c_type := row_type;
     c_name := validate_input (part parts 0 EmptyString) 100;
     c_due_date := isoformat due;
     c_status := "pending";
     c_mention := validate_input (part parts 2 EmptyString) 50;
     c_repeat_interval := "none";
     c_category :=
       if truthy (validate_input (part parts 3 "Misc") 30)
       then validate_input (part parts 3 "Misc") 30 else "Misc";
     c_notes := validate_input (part parts 4 EmptyString) 500;
     c_priority :=
       if (5 <? length parts)%nat
          && in_list (part parts 5 EmptyString) ["Low"; "Medium"; "High"]
       then part parts 5 EmptyString else "Medium";
     c_color := color;
     c_created_at := current_timestamp;
     c_updated_at := current_timestamp |}.

End Adding.

(** ** [setup.py] and the [config.py] it checks *)

Module Setup.
Import Py.

(** The value of an attribute of a module, as far as [check_config] looks
    at it. *)
Inductive value : Set :=
| VStr (s : string)
| VInt (n : Z)
| VBool (b : bool)
| VObject.

(** What [import config] does: it binds the module, or it raises. *)
Inductive imported : Type :=
| Module_ (attributes : gmap string value)
| ImportError
| OtherError (* [int()] of a channel id that is not a number *).

Section WithEnvironment.

(** [os.getenv(name)] after [load_dotenv()]; [None] when the variable is
    not set. *)
Variable getenv : string -> option string.
(** [int(s)]; [None] stands for its [ValueError]. *)
Variable int_of_str : string -> option Z.
(** What [secrets.token_hex(32)] answers. *)
Variable token_hex : string.

(** [os.getenv(name, default)] *)
Definition getenv_or (name default_ : string) : string :=
  default default_ (getenv name).

(** The names [config.py] binds at its top level. *)
Definition import_config : imported :=
  match int_of_str (getenv_or "DISCORD_COMMANDS_CHANNEL_ID" "0") with
  | None => OtherError
  | Some commands_channel =>
      match int_of_str (getenv_or "DISCORD_NOTIFICATIONS_CHANNEL_ID" "0") with
      | None => OtherError
      | Some notifications_channel =>
          Module_
            (list_to_map
               [("os", VObject); ("secrets", VObject);
                ("load_dotenv", VObject);
                ("DISCORD_TOKEN", VStr (getenv_or "DISCORD_TOKEN" EmptyString));
                ("DISCORD_COMMANDS_CHANNEL_ID", VInt commands_channel);
                ("DISCORD_NOTIFICATIONS_CHANNEL_ID",
                 VInt notifications_channel);
                ("DATABASE", VStr "tasks.db");
                ("SECRET_KEY", VStr (getenv_or "SECRET_KEY" token_hex));
                ("DEBUG", VBool false);
                ("HOST", VStr "0.0.0.0");
                ("PORT", VInt 5000)])
      end
  end.

End WithEnvironment.

(** [isinstance(v, str)] *)
Definition is_str (v : value) : bool :=
  match v with
  | VStr _ => true
  | _ => false
  end.

(** [check_config()]: [config_exists] is [os.path.exists('config.py')],
    [config] is what [import config] does; [None] is an exception that
    leaves the function. *)
Definition check_config (config_exists : bool) (config : imported)
    : option bool :=
  if negb config_exists then Some false
  else
    match config with
    | ImportError => Some false
    | OtherError => None
    | Module_ config =>
        if match config !! "DISCORD_TOKEN" with
           | None => true
           | Some v =>
               match v with
               | VStr s => String.eqb s "YOUR_DISCORD_BOT_TOKEN_HERE"
               | _ => false
               end
           end
        then Some false
        else if match config !! "DISCORD_CHANNEL_ID" with
                | None => true
                | Some v => is_str v
                end
        then Some false
        else Some true
    end.

(** How [main()] of [setup.py] ends. *)
Inductive ending : Set :=
| Exit1          (* [sys.exit(1)] *)
| Completed      (* "Setup completed successfully!" *)
| Crashed        (* an exception leaves [main] *).

(** [main()]: [setup_database] and [create_user] answer
    [database_ready] and [user_created] when they are called. *)
Definition main (config_exists : bool) (config : imported)
    (database_ready user_created : bool) : ending :=
  match check_config config_exists config with
  | None => Crashed
  | Some false => Exit1
  | Some true =>
      if negb database_ready then Exit1
      else if negb user_created then Exit1
      else Completed
  end.

End Setup.

(** ** Sample data *)

Module Scenario3.
Import Py Item Database.

Definition stamp : string := "2025-09-01 08:00:00".
Definition later : string := "2025-09-02 09:30:00".

Definition add_meeting : write :=
  AddItem stamp (Some "event") (Some "Meeting") (Some "2025-09-07T14:00")
          None (Some "weekly") (Some "Work") None (Some "High") None.

Definition add_review : write :=
  AddItem stamp (Some "task") (Some "Review") (Some "2025-06-01T09:00")
          (Some "ann") None None (Some "Chapter 5") (Some "Urgent")
          (Some "#28a745").

(** Row 1 is the meeting, row 2 the review. *)
Definition two_rows : db := perform_all [add_meeting; add_review] empty_db.

Definition add_backup : write :=
  AddItem later (Some "task") (Some "Backup") (Some "2025-10-01T10:00")
          None None None None None None.

Definition three_rows : db := perform two_rows add_backup.



(** An id that is no rowid. *)
Definition huge_id : Z := 9223372036854775808.

(** [int(s)] on a text of decimal digits, the instance used here. *)
Fixpoint int_of_digits (acc : Z) (s : string) : option Z :=
  match s with
  | EmptyString => Some acc
  | String c rest =>
      d ← digit_val c; int_of_digits (10 * acc + d) rest
  end.

Definition int_plain (s : string) : option Z :=
  match s with
  | EmptyString => None
  | _ => int_of_digits 0 s
  end.

End Scenario3.

(** * Properties *)

Module CalendarFacts.
Import Calendar.

Lemma days_in_month_bounds year month :
  1 <= month <= 12 -> 28 <= days_in_month year month <= 31.
Proof.
  intros Hm. unfold days_in_month.
  assert (Hc : month = 1 \/ month = 2 \/ month = 3 \/ month = 4 \/ month = 5
               \/ month = 6 \/ month = 7 \/ month = 8 \/ month = 9
               \/ month = 10 \/ month = 11 \/ month = 12) by lia.
  destruct (is_leap year);
    repeat (destruct Hc as [-> | Hc]; [simpl; lia |]); subst; simpl; lia.
Qed.

(** The table of cumulated days agrees with the table of month lengths. *)
Lemma days_before_month_succ year month :
  1 <= month < 12 ->
  days_before_month year (month + 1)
  = days_before_month year month + days_in_month year month.
Proof.
  intros Hm. unfold days_before_month, days_in_month.
  assert (Hc : month = 1 \/ month = 2 \/ month = 3 \/ month = 4 \/ month = 5
               \/ month = 6 \/ month = 7 \/ month = 8 \/ month = 9
               \/ month = 10 \/ month = 11) by lia.
  destruct (is_leap year);
    repeat (destruct Hc as [-> | Hc]; [reflexivity |]); subst; reflexivity.
Qed.

Lemma days_before_month_1 year : days_before_month year 1 = 0.
Proof. unfold days_before_month. simpl. reflexivity. Qed.

Lemma year_length year :
  days_before_month year 12 + days_in_month year 12
  = if is_leap year then 366 else 365.
Proof. unfold days_before_month, days_in_month. destruct (is_leap year); reflexivity. Qed.

Lemma days_before_year_succ year :
  days_before_year (year + 1)
  = days_before_year year + (if is_leap year then 366 else 365).
Proof.
  unfold days_before_year, is_leap.
  replace (year + 1 - 1) with year by lia.
  destruct (year mod 4 =? 0) eqn:H4; destruct (year mod 100 =? 0) eqn:H100;
    destruct (year mod 400 =? 0) eqn:H400; simpl;
    rewrite ?Z.eqb_eq, ?Z.eqb_neq in *;
    Z.div_mod_to_equations; lia.
Qed.

Lemma days_before_year_mono y1 y2 :
  y1 <= y2 -> days_before_year y1 <= days_before_year y2.
Proof.
  intros Hle. unfold days_before_year. Z.div_mod_to_equations. lia.
Qed.

Lemma days_before_month_nonneg year month :
  1 <= month <= 12 -> 0 <= days_before_month year month.
Proof.
  intros Hm. unfold days_before_month.
  assert (Hc : month = 1 \/ month = 2 \/ month = 3 \/ month = 4 \/ month = 5
               \/ month = 6 \/ month = 7 \/ month = 8 \/ month = 9
               \/ month = 10 \/ month = 11 \/ month = 12) by lia.
  destruct (is_leap year);
    repeat (destruct Hc as [-> | Hc]; [simpl; lia |]); subst; simpl; lia.
Qed.

(** The end of a month is not after the start of any later month. *)
Lemma days_before_month_lt year m1 m2 :
  1 <= m1 -> m1 < m2 -> m2 <= 12 ->
  days_before_month year m1 + days_in_month year m1
  <= days_before_month year m2.
Proof.
  intros H1 Hlt H2.
  assert (Hnat : exists k : nat, m2 = m1 + 1 + Z.of_nat k).
  { exists (Z.to_nat (m2 - m1 - 1)). lia. }
  destruct Hnat as [k ->]. induction k as [|k IH].
  - rewrite Z.add_0_r, days_before_month_succ by lia. lia.
  - replace (m1 + 1 + Z.of_nat (S k)) with (m1 + 1 + Z.of_nat k + 1) by lia.
    rewrite days_before_month_succ by lia.
    assert (28 <= days_in_month year (m1 + 1 + Z.of_nat k) <= 31)
      by (apply days_in_month_bounds; lia).
    assert (days_before_month year m1 + days_in_month year m1
            <= days_before_month year (m1 + 1 + Z.of_nat k)) by (apply IH; lia).
    lia.
Qed.

Lemma month_end_in_year year month :
  1 <= month <= 12 ->
  days_before_month year month + days_in_month year month
  <= if is_leap year then 366 else 365.
Proof.
  intros Hm. destruct (Z.eq_dec month 12) as [-> | Hne].
  - rewrite year_length. lia.
  - rewrite <- year_length.
    assert (28 <= days_in_month year 12 <= 31)
      by (apply days_in_month_bounds; lia).
    assert (days_before_month year month + days_in_month year month
            <= days_before_month year 12)
      by (apply days_before_month_lt; lia).
    lia.
Qed.

(** [ymd2ord] is strictly increasing on valid civil dates. *)
Lemma ymd2ord_lt y1 m1 d1 y2 m2 d2 :
  valid_md y1 m1 d1 -> valid_md y2 m2 d2 ->
  ymd_lt (y1, m1, d1) (y2, m2, d2) ->
  ymd2ord y1 m1 d1 < ymd2ord y2 m2 d2.
Proof.
  intros [Hm1 Hd1] [Hm2 Hd2] Hlt. unfold ymd2ord. simpl in Hlt.
  destruct Hlt as [Hy | [-> [Hm | [-> Hd]]]].
  - assert (days_before_year (y1 + 1) <= days_before_year y2)
      by (apply days_before_year_mono; lia).
    rewrite days_before_year_succ in *.
    pose proof (month_end_in_year y1 m1 Hm1).
    pose proof (days_before_month_nonneg y2 m2 Hm2).
    lia.
  - pose proof (days_before_month_lt y2 m1 m2 ltac:(lia) Hm ltac:(lia)). lia.
  - lia.
Qed.

Lemma ymd2ord_inj y1 m1 d1 y2 m2 d2 :
  valid_md y1 m1 d1 -> valid_md y2 m2 d2 ->
  ymd2ord y1 m1 d1 = ymd2ord y2 m2 d2 ->
  (y1, m1, d1) = (y2, m2, d2).
Proof.
  intros V1 V2 Heq.
  destruct (Z.lt_trichotomy y1 y2) as [Hy | [-> | Hy]].
  - pose proof (ymd2ord_lt y1 m1 d1 y2 m2 d2 V1 V2 ltac:(simpl; lia)). lia.
  - destruct (Z.lt_trichotomy m1 m2) as [Hm | [-> | Hm]].
    + pose proof (ymd2ord_lt y2 m1 d1 y2 m2 d2 V1 V2 ltac:(simpl; lia)). lia.
    + unfold ymd2ord in Heq. f_equal. lia.
    + pose proof (ymd2ord_lt y2 m2 d2 y2 m1 d1 V2 V1 ltac:(simpl; lia)). lia.
  - pose proof (ymd2ord_lt y2 m2 d2 y1 m1 d1 V2 V1 ltac:(simpl; lia)). lia.
Qed.

(** *** [_ord2ymd] inverts [_ymd2ord] *)

Lemma yday_ok_all leapyear :
  forallb (fun k : nat => yday_ok leapyear (Z.of_nat k))
          (seq 0 (if leapyear then 366 else 365)) = true.
Proof. destruct leapyear; vm_compute; reflexivity. Qed.

Lemma month_day_of_yday_spec (leapyear : bool) (n : Z) :
  0 <= n < (if leapyear then 366 else 365) ->
  yday_ok leapyear n = true.
Proof.
  intros Hn. pose proof (yday_ok_all leapyear) as Hall.
  rewrite forallb_forall in Hall.
  specialize (Hall (Z.to_nat n)).
  rewrite Z2Nat.id in Hall by lia. apply Hall.
  apply in_seq. destruct leapyear; lia.
Qed.

Lemma days_before_year_parts a b c e :
  0 <= b <= 3 -> 0 <= c <= 24 -> 0 <= e <= 3 ->
  days_before_year (400 * a + 100 * b + 4 * c + e + 1)
  = 146097 * a + 36524 * b + 1461 * c + 365 * e.
Proof.
  intros Hb Hc He. unfold days_before_year.
  Z.div_mod_to_equations. lia.
Qed.

Lemma is_leap_parts a b c e :
  0 <= b <= 3 -> 0 <= c <= 24 -> 0 <= e <= 3 ->
  is_leap (400 * a + 100 * b + 4 * c + e + 1)
  = (e =? 3) && (negb (c =? 24) || (b =? 3)).
Proof.
  intros Hb Hc He. unfold is_leap.
  destruct (e =? 3) eqn:E3; destruct (c =? 24) eqn:E24;
    destruct (b =? 3) eqn:B3; simpl;
    rewrite ?Z.eqb_eq, ?Z.eqb_neq in *;
    repeat match goal with
    | |- context [?x mod ?k =? 0] =>
        let E := fresh "E" in destruct (x mod k =? 0) eqn:E;
        rewrite ?Z.eqb_eq, ?Z.eqb_neq in E
    end; simpl; try reflexivity; exfalso;
    Z.div_mod_to_equations; lia.
Qed.

Lemma days_in_month_table year month :
  days_in_month year month
  = DAYS_IN_MONTH month + (if (month =? 2) && is_leap year then 1 else 0).
Proof.
  unfold days_in_month. destruct (month =? 2) eqn:E; simpl.
  - apply Z.eqb_eq in E. subst. destruct (is_leap year); reflexivity.
  - lia.
Qed.

Lemma yday_ok_valid year n month day :
  yday_ok (is_leap year) n = true ->
  month_day_of_yday (is_leap year) n = (month, day) ->
  valid_md year month day /\ days_before_month year month + day = n + 1.
Proof.
  unfold yday_ok. intros Hok Hmd. rewrite Hmd in Hok.
  rewrite !andb_true_iff in Hok.
  destruct Hok as [[[[H1 H2] H3] H4] H5].
  unfold valid_md. rewrite days_in_month_table. unfold days_before_month.
  lia.
Qed.

(** [_ord2ymd] returns a valid civil date, and [_ymd2ord] maps it back. *)
Lemma ord2ymd_spec ordinal :
  let '(year, month, day) := ord2ymd ordinal in
  valid_md year month day /\ ymd2ord year month day = ordinal.
Proof.
  unfold ord2ymd, DI400Y, DI100Y, DI4Y.
  set (n0 := ordinal - 1).
  set (a := n0 / 146097). set (r1 := n0 mod 146097).
  set (b := r1 / 36524). set (r2 := r1 mod 36524).
  set (c := r2 / 1461). set (r3 := r2 mod 1461).
  set (e := r3 / 365). set (r4 := r3 mod 365).
  assert (Hn0 : n0 = 146097 * a + r1 /\ 0 <= r1 < 146097)
    by (subst a r1; Z.div_mod_to_equations; lia).
  assert (Hr1 : r1 = 36524 * b + r2 /\ 0 <= r2 < 36524)
    by (subst b r2; Z.div_mod_to_equations; lia).
  assert (Hr2 : r2 = 1461 * c + r3 /\ 0 <= r3 < 1461)
    by (subst c r3; Z.div_mod_to_equations; lia).
  assert (Hr3 : r3 = 365 * e + r4 /\ 0 <= r4 < 365)
    by (subst e r4; Z.div_mod_to_equations; lia).
  clearbody a r1 b r2 c r3 e r4.
  assert (Hb : 0 <= b <= 4) by lia.
  assert (Hc : 0 <= c <= 24) by lia.
  assert (He : 0 <= e <= 4) by lia.
  destruct ((e =? 4) || (b =? 4)) eqn:Hlast.
  - (* the last day of a leap year *)
    assert (Hy : exists a' b' c',
               a * 400 + 1 + b * 100 + c * 4 + e - 1
               = 400 * a' + 100 * b' + 4 * c' + 3 + 1
               /\ 0 <= b' <= 3 /\ 0 <= c' <= 24
               /\ (c' <> 24 \/ b' = 3)
               /\ 146097 * a' + 36524 * b' + 1461 * c' + 365 * 3 + 366
                  = ordinal).
    { apply orb_true_iff in Hlast.
      destruct (Z.eq_dec b 4) as [-> | Hb4].
      - exists a, 3, 24. lia.
      - destruct Hlast as [E | E]; apply Z.eqb_eq in E; [| lia].
        exists a, b, c. lia. }
    destruct Hy as (a' & b' & c' & -> & Hb' & Hc' & Hleap & Hord).
    assert (Leap : is_leap (400 * a' + 100 * b' + 4 * c' + 3 + 1) = true).
    { rewrite is_leap_parts by lia. simpl.
      destruct Hleap as [Hne | ->]; [| apply orb_true_r].
      apply Z.eqb_neq in Hne. rewrite Hne. reflexivity. }
    split.
    + unfold valid_md, days_in_month. simpl. lia.
    + unfold ymd2ord, days_before_month. rewrite Leap.
      rewrite days_before_year_parts by lia. simpl. lia.
  - apply orb_false_iff in Hlast. destruct Hlast as [E4 B4].
    apply Z.eqb_neq in E4, B4.
    set (year := a * 400 + 1 + b * 100 + c * 4 + e).
    assert (Hyear : year = 400 * a + 100 * b + 4 * c + e + 1)
      by (subst year; lia).
    assert (Leap : (e =? 3) && (negb (c =? 24) || (b =? 3)) = is_leap year).
    { rewrite Hyear, is_leap_parts by lia. reflexivity. }
    rewrite Leap.
    destruct (month_day_of_yday (is_leap year) r4) as [month day] eqn:Hmd.
    assert (Hok : yday_ok (is_leap year) r4 = true).
    { apply month_day_of_yday_spec. destruct (is_leap year); lia. }
    destruct (yday_ok_valid year r4 month day Hok Hmd) as [Hv Hsum].
    split; [exact Hv |].
    unfold ymd2ord. rewrite Hyear at 1.
    rewrite days_before_year_parts by lia. lia.
Qed.

Lemma ord2ymd_valid ordinal year month day :
  ord2ymd ordinal = (year, month, day) -> valid_md year month day.
Proof. intros H. pose proof (ord2ymd_spec ordinal) as S. rewrite H in S. tauto. Qed.

Lemma ymd2ord_ord2ymd ordinal year month day :
  ord2ymd ordinal = (year, month, day) -> ymd2ord year month day = ordinal.
Proof. intros H. pose proof (ord2ymd_spec ordinal) as S. rewrite H in S. tauto. Qed.

Lemma ord2ymd_ymd2ord year month day :
  valid_md year month day -> ord2ymd (ymd2ord year month day) = (year, month, day).
Proof.
  intros V. destruct (ord2ymd (ymd2ord year month day)) as [[y m] d] eqn:E.
  apply (ymd2ord_inj y m d year month day); [| exact V |].
  - exact (ord2ymd_valid _ _ _ _ E).
  - exact (ymd2ord_ord2ymd _ _ _ _ E).
Qed.

End CalendarFacts.

Example isoformat_example :
  Py.isoformat (Py.mkdt 2025 1 31 9 0 0) = "2025-01-31T09:00:00".
Proof. vm_compute. reflexivity. Qed.

Example fromisoformat_plain_example :
  Py.fromisoformat_plain "2025-09-07T14:00" = Some (Py.mkdt 2025 9 7 14 0 0)
  /\ Py.fromisoformat_plain "2025-02-30T14:00" = None
  /\ Py.fromisoformat_plain "tomorrow" = None.
Proof. vm_compute. repeat split; reflexivity. Qed.

Example strftime_12hour_example :
  Py.strftime_12hour (Py.mkdt 2025 9 7 14 5 0) = "2025-09-07 02:05 PM"
  /\ Py.strftime_12hour (Py.mkdt 2025 9 7 0 5 0) = "2025-09-07 12:05 AM".
Proof. vm_compute. split; reflexivity. Qed.

Example add_months_example :
  Py.add_months (Py.mkdt 2025 1 31 9 0 0) 1 = Py.Ok (Py.mkdt 2025 2 28 9 0 0)
  /\ Py.add_months (Py.mkdt 2024 1 31 9 0 0) 1 = Py.Ok (Py.mkdt 2024 2 29 9 0 0)
  /\ Py.add_months (Py.mkdt 9999 12 1 0 0 0) 1 = Py.Raise Py.ValueError
  /\ Py.dt_add (Py.mkdt 9999 12 31 0 0 0) (Py.days 1) = Py.Raise Py.OverflowError.
Proof. vm_compute. repeat split; reflexivity. Qed.


(** ** Facts about [datetime] arithmetic *)

Module PyFacts.
Import Calendar CalendarFacts Py.

Lemma US_PER_DAY_eq : US_PER_DAY = 86400000000.
Proof. reflexivity. Qed.

Lemma wall_split d :
  wall d = (toordinal d - 1) * US_PER_DAY + time_of_day d
  /\ 0 <= time_of_day d < US_PER_DAY.
Proof.
  unfold toordinal, time_of_day. rewrite US_PER_DAY_eq.
  Z.div_mod_to_equations. lia.
Qed.

Lemma toordinal_build ord tod tz :
  0 <= tod < US_PER_DAY ->
  toordinal {| wall := (ord - 1) * US_PER_DAY + tod; tzinfo := tz |} = ord
  /\ time_of_day {| wall := (ord - 1) * US_PER_DAY + tod; tzinfo := tz |} = tod.
Proof.
  unfold toordinal, time_of_day. simpl. rewrite US_PER_DAY_eq.
  intros H. Z.div_mod_to_equations. lia.
Qed.

Lemma dt_add_Ok d delta d' :
  dt_add d delta = Ok d' ->
  wall d' = wall d + delta /\ tzinfo d' = tzinfo d.
Proof.
  unfold dt_add. destruct (_ && _); [| discriminate].
  intros [= <-]. simpl. auto.
Qed.

Lemma month_later_same_month_next date :
  let '(y, m, d) := date in
  let '(y', m', d') := month_later date in
  1 <= m <= 12 -> 1 <= d ->
  (y', m') = (if m =? 12 then (y + 1, 1) else (y, m + 1))
  /\ 1 <= d' <= days_in_month y' m' /\ d' <= d
  /\ (d <= days_in_month y' m' -> d' = d).
Proof.
  destruct date as [[y m] d]. simpl. intros Hm Hd.
  destruct (m =? 12) eqn:E.
  - pose proof (days_in_month_bounds (y + 1) 1 ltac:(lia)). split; [reflexivity | lia].
  - apply Z.eqb_neq in E.
    pose proof (days_in_month_bounds y (m + 1) ltac:(lia)). split; [reflexivity | lia].
Qed.

Lemma add_months_1_Ok d d' :
  add_months d 1 = Ok d' ->
  ymd d' = month_later (ymd d)
  /\ time_of_day d' = time_of_day d
  /\ tzinfo d' = tzinfo d
  /\ wall d < wall d'.
Proof.
  unfold add_months, month_later.
  destruct (ymd d) as [[y m] dd] eqn:Hymd.
  pose proof (ord2ymd_valid _ _ _ _ Hymd) as [Hm Hd].
  pose proof (ymd2ord_ord2ymd _ _ _ _ Hymd) as Hord.
  pose proof (wall_split d) as [Hw Htod].
  assert (Hsel : (if 12 <? m + 1 then (y + 1, m + 1 - 12)
                  else if m + 1 <? 1 then (y - 1, m + 1 + 12) else (y, m + 1))
                 = (if m =? 12 then y + 1 else y, if m =? 12 then 1 else m + 1)).
  { destruct (m =? 12) eqn:E.
    - apply Z.eqb_eq in E. subst m. reflexivity.
    - apply Z.eqb_neq in E.
      destruct (12 <? m + 1) eqn:E1; [apply Z.ltb_lt in E1; lia |].
      destruct (m + 1 <? 1) eqn:E2; [apply Z.ltb_lt in E2; lia |]. reflexivity. }
  rewrite Hsel. clear Hsel.
  set (y' := if m =? 12 then y + 1 else y).
  set (m' := if m =? 12 then 1 else m + 1).
  assert (Hm' : 1 <= m' <= 12) by (subst m'; destruct (m =? 12) eqn:E; lia).
  pose proof (days_in_month_bounds y' m' Hm') as Hdim.
  pose proof (days_in_month_bounds y m Hm) as Hdim0.
  destruct (_ && _); [| discriminate]. intros [= <-].
  set (day' := Z.min (days_in_month y' m') dd).
  assert (V' : valid_md y' m' day') by (unfold valid_md; subst day'; lia).
  destruct (toordinal_build (ymd2ord y' m' day') (time_of_day d) (tzinfo d) Htod)
    as [Hto Htd].
  split; [| split; [exact Htd | split; [reflexivity |]]].
  - unfold ymd. rewrite Hto. apply ord2ymd_ymd2ord. exact V'.
  - assert (Hlt : ymd2ord y m dd < ymd2ord y' m' day').
    { apply ymd2ord_lt; [split; assumption | exact V' |].
      simpl. subst y' m'. destruct (m =? 12) eqn:E.
      - left. lia.
      - right. split; [reflexivity |]. left. lia. }
    simpl. rewrite Hw. unfold ymd in Hymd. rewrite Hord in Hlt.
    rewrite US_PER_DAY_eq in *. nia.
Qed.

(** The first day of year 9999, as a count of days: a date before it has
    a year that [datetime] can still step from. *)
Lemma year_of_ordinal_bounds ordinal y m d :
  ord2ymd ordinal = (y, m, d) ->
  1 <= ordinal <= days_before_year 9999 ->
  1 <= y <= 9998.
Proof.
  intros Hymd Hord.
  pose proof (ord2ymd_valid _ _ _ _ Hymd) as [Hm Hd].
  pose proof (ymd2ord_ord2ymd _ _ _ _ Hymd) as Heq. unfold ymd2ord in Heq.
  pose proof (days_before_month_nonneg y m Hm).
  pose proof (month_end_in_year y m Hm) as Hend.
  split.
  - destruct (Z_le_gt_dec y 0) as [Hneg |]; [| lia]. exfalso.
    pose proof (days_before_year_mono (y + 1) 1 ltac:(lia)) as Hmono.
    rewrite days_before_year_succ in Hmono.
    change (days_before_year 1) with 0 in Hmono. lia.
  - destruct (Z_le_gt_dec 9999 y) as [Hbig |]; [| lia]. exfalso.
    pose proof (days_before_year_mono 9999 y Hbig). lia.
Qed.

Lemma month_later_ordinal y m d :
  valid_md y m d ->
  let '(y', m', d') := month_later (y, m, d) in
  ymd2ord y' m' d' <= ymd2ord y m d + 31.
Proof.
  intros [Hm Hd]. simpl. unfold ymd2ord.
  pose proof (days_in_month_bounds y m Hm) as Hdim.
  destruct (m =? 12) eqn:E.
  - apply Z.eqb_eq in E. subst m.
    rewrite days_before_year_succ, days_before_month_1, <- year_length. lia.
  - apply Z.eqb_neq in E. rewrite days_before_month_succ by lia. lia.
Qed.

(** A month's step from a date before year 9999 returns, and moves the
    clock by at most 31 days. *)
Lemma add_months_1_returns d :
  0 <= wall d < days_before_year 9999 * US_PER_DAY ->
  exists d', add_months d 1 = Ok d' /\ wall d' <= wall d + 31 * US_PER_DAY.
Proof.
  intros Hd. pose proof (wall_split d) as [Hw Htod].
  destruct (ymd d) as [[y m] dd] eqn:Hymd.
  assert (Hord : 1 <= toordinal d <= days_before_year 9999).
  { rewrite US_PER_DAY_eq in *. nia. }
  pose proof (year_of_ordinal_bounds _ _ _ _ Hymd Hord) as Hy.
  pose proof (ord2ymd_valid _ _ _ _ Hymd) as Hv.
  pose proof (ymd2ord_ord2ymd _ _ _ _ Hymd) as Heq.
  pose proof (month_later_ordinal y m dd Hv) as Hstep.
  destruct (add_months d 1) as [d' | e |] eqn:Hadd.
  - exists d'. split; [reflexivity |].
    unfold add_months in Hadd. rewrite Hymd in Hadd.
    simpl in Hstep.
    destruct Hv as [Hm _].
    destruct (m =? 12) eqn:E.
    + apply Z.eqb_eq in E. subst m. simpl in Hadd.
      destruct (_ && _); [| discriminate]. injection Hadd as <-. simpl.
      change (12 + 1 - 12) with 1.
      rewrite Hw, <- Heq, US_PER_DAY_eq. lia.
    + apply Z.eqb_neq in E.
      assert (H12 : (12 <? m + 1) = false) by (apply Z.ltb_ge; lia).
      assert (H1 : (m + 1 <? 1) = false) by (apply Z.ltb_ge; lia).
      rewrite H12, H1 in Hadd.
      destruct (_ && _); [| discriminate]. injection Hadd as <-. simpl.
      rewrite Hw, <- Heq, US_PER_DAY_eq. lia.
  - exfalso. unfold add_months in Hadd. rewrite Hymd in Hadd.
    destruct Hv as [Hm _].
    destruct (12 <? m + 1) eqn:H12; [| destruct (m + 1 <? 1) eqn:H1].
    + assert (Hc : (MINYEAR <=? y + 1) && (y + 1 <=? MAXYEAR) = true).
      { unfold MINYEAR, MAXYEAR. apply andb_true_iff.
        rewrite !Z.leb_le. lia. }
      rewrite Hc in Hadd. discriminate.
    + apply Z.ltb_lt in H1. lia.
    + assert (Hc : (MINYEAR <=? y) && (y <=? MAXYEAR) = true).
      { unfold MINYEAR, MAXYEAR. apply andb_true_iff.
        rewrite !Z.leb_le. lia. }
      rewrite Hc in Hadd. discriminate.
  - exfalso. unfold add_months in Hadd. rewrite Hymd in Hadd.
    repeat match type of Hadd with
           | context [if ?b then _ else _] => destruct b
           end; discriminate.
Qed.

End PyFacts.

(** ** Facts about the recurrence loop *)

Module RecurrenceFacts.
Import Calendar CalendarFacts Py PyFacts Item Recurrence.

Lemma next_occurrence_increases item d d' :
  next_occurrence item d = Some (Ok d') -> wall d < wall d'.
Proof.
  unfold next_occurrence.
  destruct (String.eqb _ "daily");
    [| destruct (String.eqb _ "weekly");
       [| destruct (String.eqb _ "monthly"); [| discriminate]]];
    intros [= H].
  - apply dt_add_Ok in H as [-> _]. unfold days, timedelta, US_PER_SECOND. lia.
  - apply dt_add_Ok in H as [-> _]. unfold weeks, timedelta, US_PER_SECOND. lia.
  - apply add_months_1_Ok in H. tauto.
Qed.

Lemma recur_loop_occurrences fuel item start_date end_date :
  forall current_date instance_count instances,
    recur_loop fuel item start_date end_date current_date instance_count instances
    = (occ ← occurrences fuel item start_date end_date current_date
                          instance_count;
       Ok (instances ++ map (instance_of item) occ)).
Proof.
  induction fuel as [| fuel IH]; intros cur count acc; simpl; [reflexivity |].
  destruct (dt_le cur end_date && (count <? max_instances)); simpl;
    [| rewrite app_nil_r; reflexivity].
  destruct (next_occurrence item cur) as [[next | e |] |]; simpl;
    try reflexivity.
  - rewrite IH.
    destruct (occurrences fuel item start_date end_date next (count + 1));
      destruct (dt_le start_date cur); simpl;
      rewrite <- ?app_assoc; reflexivity.
  - destruct (dt_le start_date cur); simpl; [reflexivity |].
    rewrite app_nil_r. reflexivity.
Qed.

(** One pass of the loop, read backwards from its result. *)
Lemma occurrences_S_inv fuel item start_date end_date cur count occ :
  occurrences (S fuel) item start_date end_date cur count = Ok occ ->
  (dt_le cur end_date && (count <? max_instances) = false /\ occ = [])
  \/ (dt_le cur end_date = true /\ count < max_instances
      /\ ((next_occurrence item cur = None
           /\ occ = if dt_le start_date cur then [(count, cur)] else [])
          \/ exists next rest,
               next_occurrence item cur = Some (Ok next)
               /\ occurrences fuel item start_date end_date next (count + 1)
                  = Ok rest
               /\ occ = if dt_le start_date cur
                        then (count, cur) :: rest else rest)).
Proof.
  simpl. destruct (dt_le cur end_date && (count <? max_instances)) eqn:Hc.
  - apply andb_true_iff in Hc as [Hle Hlt]. apply Z.ltb_lt in Hlt.
    intros H. right. split; [exact Hle | split; [exact Hlt |]].
    destruct (next_occurrence item cur) as [[next | e |] |]; simpl in H;
      try discriminate.
    + right.
      destruct (occurrences fuel item start_date end_date next (count + 1))
        as [rest | e |] eqn:Hr; simpl in H; try discriminate.
      injection H as <-. exists next, rest. auto.
    + left. injection H as <-. auto.
  - intros [= <-]. left. auto.
Qed.

(** [max_instances + 1] passes are enough: the loop never runs out of
    fuel. *)
Lemma loop_fuel_enough fuel item start_date end_date :
  forall cur count,
    (Z.to_nat (max_instances - count) < fuel)%nat ->
    occurrences fuel item start_date end_date cur count <> Diverge.
Proof.
  induction fuel as [| fuel IH]; intros cur count Hfuel; [lia |].
  simpl. destruct (dt_le cur end_date && (count <? max_instances)) eqn:Hc;
    [| discriminate].
  apply andb_true_iff in Hc as [_ Hlt]. apply Z.ltb_lt in Hlt.
  destruct (next_occurrence item cur) as [[next | e |] |] eqn:Hn; simpl;
    try discriminate.
  - specialize (IH next (count + 1) ltac:(lia)).
    destruct (occurrences fuel item start_date end_date next (count + 1));
      simpl; congruence.
  - (* a step is a call of [dt_add] or [add_months]: it returns or raises *)
    exfalso. unfold next_occurrence, dt_add, add_months in Hn.
    repeat match type of Hn with
           | context [if ?b then _ else _] => destruct b
           | context [let '(_, _) := ?p in _] => destruct p
           end; discriminate.
Qed.

Lemma occurrences_length fuel item start_date end_date :
  forall cur count occ,
    occurrences fuel item start_date end_date cur count = Ok occ ->
    (length occ <= Z.to_nat (max_instances - count))%nat.
Proof.
  induction fuel as [| fuel IH]; intros cur count occ H; [discriminate |].
  apply occurrences_S_inv in H
    as [[_ ->] | (_ & Hlt & [[_ ->] | (next & rest & _ & Hr & ->)])].
  - simpl. lia.
  - destruct (dt_le start_date cur); simpl; lia.
  - apply IH in Hr. destruct (dt_le start_date cur); simpl; lia.
Qed.

(** Each occurrence lies in the window, and its index is the number of
    steps from the start of the loop to it. *)
Lemma occurrences_inside fuel item start_date end_date :
  forall cur count occ,
    occurrences fuel item start_date end_date cur count = Ok occ ->
    Forall (fun o : Z * datetime =>
              count <= o.1 < max_instances
              /\ wall start_date <= wall o.2 <= wall end_date
              /\ wall cur <= wall o.2
              /\ nth_occurrence item (Z.to_nat (o.1 - count)) cur = Some o.2)
           occ.
Proof.
  induction fuel as [| fuel IH]; intros cur count occ H; [discriminate |].
  assert (Hhere : dt_le cur end_date = true -> count < max_instances ->
                  dt_le start_date cur = true ->
                  count <= (count, cur).1 < max_instances
                  /\ wall start_date <= wall (count, cur).2 <= wall end_date
                  /\ wall cur <= wall (count, cur).2
                  /\ nth_occurrence item (Z.to_nat ((count, cur).1 - count)) cur
                     = Some (count, cur).2).
  { unfold dt_le. intros H1 H2 H3. apply Z.leb_le in H1, H3. simpl.
    rewrite Z.sub_diag. simpl. repeat split; lia. }
  apply occurrences_S_inv in H
    as [[_ ->] | (Hle & Hlt & [[_ ->] | (next & rest & Hn & Hr & ->)])].
  - constructor.
  - destruct (dt_le start_date cur) eqn:Hs;
      [constructor; [apply Hhere; auto | constructor] | constructor].
  - apply IH in Hr.
    assert (Hrest : Forall (fun o : Z * datetime =>
              count <= o.1 < max_instances
              /\ wall start_date <= wall o.2 <= wall end_date
              /\ wall cur <= wall o.2
              /\ nth_occurrence item (Z.to_nat (o.1 - count)) cur = Some o.2)
           rest).
    { eapply Forall_impl; [exact Hr |]. intros [k d]. simpl.
      intros (Hk & Hw & Hcur & Hnth).
      pose proof (next_occurrence_increases _ _ _ Hn).
      repeat split; try lia.
      replace (Z.to_nat (k - count)) with (S (Z.to_nat (k - (count + 1))))
        by lia.
      simpl. rewrite Hn. exact Hnth. }
    destruct (dt_le start_date cur) eqn:Hs; [constructor; auto | exact Hrest].
Qed.

(** Once the loop is inside the window, it emits at every pass: the list
    starts with the current date and its neighbours are one step apart. *)
Lemma occurrences_linked fuel item start_date end_date :
  forall cur count occ,
    occurrences fuel item start_date end_date cur count = Ok occ ->
    adjacent (linked item) occ
    /\ (dt_le start_date cur = true ->
        match occ with [] => True | o :: _ => o = (count, cur) end).
Proof.
  induction fuel as [| fuel IH]; intros cur count occ H; [discriminate |].
  apply occurrences_S_inv in H
    as [[_ ->] | (Hle & Hlt & [[_ ->] | (next & rest & Hn & Hr & ->)])].
  - simpl. auto.
  - destruct (dt_le start_date cur); simpl; auto.
  - apply IH in Hr as [Hadj Hhead].
    destruct (dt_le start_date cur) eqn:Hs.
    + split; [| reflexivity].
      assert (Hs' : dt_le start_date next = true).
      { pose proof (next_occurrence_increases _ _ _ Hn).
        unfold dt_le in *. apply Z.leb_le in Hs. apply Z.leb_le. lia. }
      specialize (Hhead Hs'). destruct rest as [| o rest']; simpl; [exact I |].
      subst o. split; [| exact Hadj]. split; [reflexivity | exact Hn].
    + split; [exact Hadj | discriminate].
Qed.

Lemma occurrences_first fuel item start_date end_date cur count occ :
  occurrences (S fuel) item start_date end_date cur count = Ok occ ->
  dt_le start_date cur = true -> dt_le cur end_date = true ->
  count < max_instances ->
  head occ = Some (count, cur).
Proof.
  intros H Hs He Hc.
  apply occurrences_S_inv in H
    as [[Hf _] | (Hle & Hlt & [[_ ->] | (next & rest & Hn & Hr & ->)])].
  - rewrite He in Hf. simpl in Hf. apply Z.ltb_ge in Hf. lia.
  - rewrite Hs. reflexivity.
  - rewrite Hs. reflexivity.
Qed.

(** Every step before the first occurrence returned is before the start
    of the window: the list starts with the earliest step that is not. *)
Lemma occurrences_head_earliest fuel item start_date end_date :
  forall cur count o rest,
    occurrences fuel item start_date end_date cur count = Ok (o :: rest) ->
    forall j dj,
      (j < Z.to_nat (o.1 - count))%nat ->
      nth_occurrence item j cur = Some dj ->
      wall dj < wall start_date.
Proof.
  induction fuel as [| fuel IH]; intros cur count o rest H; [discriminate |].
  apply occurrences_S_inv in H
    as [[_ Hnil] | (_ & _ & [[_ Hocc] | (next & more & Hn & Hr & Hocc)])].
  - discriminate.
  - destruct (dt_le start_date cur); [| discriminate].
    injection Hocc as -> _. intros j dj Hj. simpl in Hj. lia.
  - destruct (dt_le start_date cur) eqn:Hs.
    + injection Hocc as -> _. intros j dj Hj. simpl in Hj. lia.
    + subst more. intros j dj Hj Hnth.
      pose proof (occurrences_inside _ _ _ _ _ _ _ Hr) as Hin.
      apply Forall_cons in Hin as [(Hidx & _) _].
      destruct j as [| j]; simpl in Hnth.
      * injection Hnth as <-. unfold dt_le in Hs. apply Z.leb_gt in Hs. exact Hs.
      * rewrite Hn in Hnth.
        apply (IH next (count + 1) o rest Hr j dj); [lia | exact Hnth].
Qed.

Lemma occurrences_increasing fuel item start_date end_date :
  forall cur count occ,
    occurrences fuel item start_date end_date cur count = Ok occ ->
    StronglySorted occurs_before occ.
Proof.
  induction fuel as [| fuel IH]; intros cur count occ H; [discriminate |].
  apply occurrences_S_inv in H
    as [[_ ->] | (Hle & Hlt & [[_ ->] | (next & rest & Hn & Hr & ->)])].
  - constructor.
  - destruct (dt_le start_date cur); repeat constructor.
  - pose proof (IH _ _ _ Hr) as Hsorted.
    destruct (dt_le start_date cur); [| exact Hsorted].
    constructor; [exact Hsorted |].
    apply occurrences_inside in Hr.
    eapply Forall_impl; [exact Hr |]. intros [k d]. unfold occurs_before. simpl.
    intros (_ & _ & Hcur & _).
    pose proof (next_occurrence_increases _ _ _ Hn). lia.
Qed.

(** A due date more than [max_instances] steps before the window: the
    loop spends its whole allowance outside the window. *)
Lemma occurrences_cap_spent fuel item start_date end_date :
  forall cur count limit,
    0 <= count <= max_instances ->
    (Z.to_nat (max_instances - count) < fuel)%nat ->
    nth_occurrence item (Z.to_nat (max_instances - count)) cur = Some limit ->
    wall limit < wall start_date ->
    occurrences fuel item start_date end_date cur count = Ok [].
Proof.
  induction fuel as [| fuel IH]; intros cur count limit Hc Hfuel Hnth Hlim;
    [lia |].
  simpl. destruct (dt_le cur end_date && (count <? max_instances)) eqn:Hcond;
    [| reflexivity].
  apply andb_true_iff in Hcond as [_ Hlt]. apply Z.ltb_lt in Hlt.
  replace (Z.to_nat (max_instances - count))
    with (S (Z.to_nat (max_instances - (count + 1)))) in Hnth by lia.
  simpl in Hnth.
  destruct (next_occurrence item cur) as [[next | e |] |] eqn:Hn;
    try discriminate.
  simpl. rewrite (IH next (count + 1) limit) by (try lia; assumption). simpl.
  assert (Hmono : forall k d d', nth_occurrence item k d = Some d' ->
                                 wall d <= wall d').
  { clear. induction k as [| k IHk]; intros d d'; simpl.
    - intros [= ->]. lia.
    - destruct (next_occurrence item d) as [[n | e |] |] eqn:Hn;
        try discriminate.
      intros H. apply IHk in H.
      pose proof (next_occurrence_increases _ _ _ Hn). lia. }
  apply Hmono in Hnth. pose proof (next_occurrence_increases _ _ _ Hn).
  destruct (dt_le start_date cur) eqn:Hs; [| reflexivity].
  unfold dt_le in Hs. apply Z.leb_le in Hs. lia.
Qed.

(** Far enough from the end of year 9998, a step returns and moves the
    clock by at most 31 days. *)
Lemma next_occurrence_returns item d r :
  next_occurrence item d = Some r ->
  0 <= wall d ->
  wall d + 31 * US_PER_DAY <= days_before_year 9999 * US_PER_DAY ->
  exists d', r = Ok d' /\ wall d' <= wall d + 31 * US_PER_DAY.
Proof.
  intros Hn H0 Hlim. unfold next_occurrence in Hn.
  change (days_before_year 9999) with 3651694 in *.
  destruct (String.eqb _ "daily");
    [| destruct (String.eqb _ "weekly");
       [| destruct (String.eqb _ "monthly"); [| discriminate]]];
    injection Hn as <-.
  - unfold dt_add, days, timedelta, MAXORDINAL.
    rewrite US_PER_DAY_eq in *. unfold US_PER_SECOND.
    destruct (_ && _) eqn:Hc.
    + eexists. split; [reflexivity |]. simpl. lia.
    + apply andb_false_iff in Hc. rewrite Z.leb_gt, Z.ltb_ge in Hc. lia.
  - unfold dt_add, weeks, timedelta, MAXORDINAL.
    rewrite US_PER_DAY_eq in *. unfold US_PER_SECOND.
    destruct (_ && _) eqn:Hc.
    + eexists. split; [reflexivity |]. simpl. lia.
    + apply andb_false_iff in Hc. rewrite Z.leb_gt, Z.ltb_ge in Hc. lia.
  - apply add_months_1_returns.
    change (days_before_year 9999) with 3651694.
    rewrite US_PER_DAY_eq in *. lia.
Qed.

(** The loop returns when its 100 steps stay before year 9999. *)
Lemma occurrences_returns fuel item start_date end_date :
  forall cur count,
    0 <= count ->
    (Z.to_nat (max_instances - count) < fuel)%nat ->
    0 <= wall cur ->
    wall cur + (max_instances - count) * (31 * US_PER_DAY)
    <= days_before_year 9999 * US_PER_DAY ->
    exists occ, occurrences fuel item start_date end_date cur count = Ok occ.
Proof.
  induction fuel as [| fuel IH]; intros cur count Hc Hfuel H0 Hlim; [lia |].
  simpl. destruct (dt_le cur end_date && (count <? max_instances)) eqn:Hcond;
    [| eauto].
  apply andb_true_iff in Hcond as [_ Hlt]. apply Z.ltb_lt in Hlt.
  destruct (next_occurrence item cur) as [r |] eqn:Hn; [| eauto].
  assert (Hroom : wall cur + 31 * US_PER_DAY
                  <= days_before_year 9999 * US_PER_DAY).
  { change (days_before_year 9999) with 3651694 in *.
    rewrite US_PER_DAY_eq in *. unfold max_instances in *. lia. }
  destruct (next_occurrence_returns _ _ _ Hn H0 Hroom) as (d' & -> & Hd').
  pose proof (next_occurrence_increases _ _ _ Hn) as Hinc.
  cbn [mbind outcome_bind].
  destruct (IH d' (count + 1)) as [rest Hrest];
    try (rewrite ?US_PER_DAY_eq in *; unfold max_instances in *; lia).
  rewrite Hrest. cbn [mbind outcome_bind]. eauto.
Qed.

Lemma wall_strip_tz d : wall (strip_tz d) = wall d.
Proof. unfold strip_tz. destruct (is_aware d); reflexivity. Qed.

End RecurrenceFacts.

(** ** [generate_recurring_instances]: the claims *)

Section Expansion.
Import Py PyFacts Item Recurrence RecurrenceFacts.

Variable fromisoformat : string -> option datetime.

Lemma generate_in_window now item s e :
  generate_recurring_instances fromisoformat now item (Some s) (Some e)
  = if String.eqb (repeat_interval item) "none" then Ok [original item]
    else match fromisoformat (due_date item) with
         | None => Ok [original item]
         | Some d0 =>
             occ ← occurrences (S (Z.to_nat max_instances)) item
                                (strip_tz s) (strip_tz e) (strip_tz d0) 0;
             Ok (map (instance_of item) occ)
         end.
Proof.
  unfold generate_recurring_instances.
  destruct (String.eqb (repeat_interval item) "none"); [reflexivity |].
  cbn [mbind outcome_bind].
  destruct (fromisoformat (due_date item)); [| reflexivity].
  rewrite recur_loop_occurrences. reflexivity.
Qed.

(** What a call with both bounds given returns, when it returns: the row
    itself, or the instances of the occurrences of the loop. *)
Lemma generate_in_window_Ok now item s e l :
  generate_recurring_instances fromisoformat now item (Some s) (Some e) = Ok l ->
  l = [original item]
  \/ exists d0 occ,
       repeat_interval item <> "none"
       /\ fromisoformat (due_date item) = Some d0
       /\ occurrences (S (Z.to_nat max_instances)) item
                      (strip_tz s) (strip_tz e) (strip_tz d0) 0 = Ok occ
       /\ l = map (instance_of item) occ.
Proof.
  rewrite generate_in_window.
  destruct (String.eqb (repeat_interval item) "none") eqn:Hrep;
    [intros [= <-]; auto |].
  apply String.eqb_neq in Hrep.
  destruct (fromisoformat (due_date item)) as [d0 |]; [| intros [= <-]; auto].
  destruct (occurrences _ item _ _ _ 0) as [occ | |] eqn:Hocc;
    cbn [mbind outcome_bind]; try discriminate.
  intros [= <-]. right. exists d0, occ. auto.
Qed.

(** C4, as the code has it: a row that does not repeat is returned as it
    is, one element, whatever the window (the first statement of the
    function returns before the window is looked at). *)
Theorem expand_repeat_none now item start_date end_date :
  repeat_interval item = "none" ->
  generate_recurring_instances fromisoformat now item start_date end_date
  = Ok [original item].
Proof.
  intros Hrep. unfold generate_recurring_instances. rewrite Hrep. reflexivity.
Qed.

Lemma expand_returns now item start_date end_date s e :
  start_date = Some s -> end_date = Some e ->
  (forall d0, fromisoformat (due_date item) = Some d0 ->
              0 <= wall d0 < wall (mkdt 9990 1 1 0 0 0)) ->
  exists l,
    generate_recurring_instances fromisoformat now item start_date end_date
    = Ok l.
Proof.
  intros -> -> Hdue. rewrite generate_in_window.
  destruct (String.eqb (repeat_interval item) "none"); [eauto |].
  destruct (fromisoformat (due_date item)) as [d0 |] eqn:Hparse; [| eauto].
  specialize (Hdue d0 eq_refl).
  destruct (occurrences_returns (S (Z.to_nat max_instances)) item
              (strip_tz s) (strip_tz e) (strip_tz d0) 0) as [occ Hocc].
  - lia.
  - unfold max_instances. lia.
  - rewrite wall_strip_tz. lia.
  - rewrite wall_strip_tz.
    change (wall (mkdt 9990 1 1 0 0 0)) with (3648407 * 86400000000) in Hdue.
    change (Calendar.days_before_year 9999) with 3651694.
    rewrite US_PER_DAY_eq. unfold max_instances. lia.
  - rewrite Hocc. cbn [mbind outcome_bind]. eauto.
Qed.

(** C6: the expansion terminates (the loop never runs out of its
    [max_instances + 1] passes: the call returns a list or raises), a list
    it returns has at most 100 elements, and with both bounds given it does
    return one when the due date, if it parses, is before year 9990 (the
    100 steps then stay in the years [datetime] can hold). *)
Theorem expand_terminates_at_most_100 now item start_date end_date :
  generate_recurring_instances fromisoformat now item start_date end_date
  <> Diverge
  /\ (forall l,
        generate_recurring_instances fromisoformat now item start_date end_date
        = Ok l ->
        (length l <= 100)%nat)
  /\ (forall s e,
        start_date = Some s -> end_date = Some e ->
        (forall d0, fromisoformat (due_date item) = Some d0 ->
                    0 <= wall d0 < wall (mkdt 9990 1 1 0 0 0)) ->
        exists l,
          generate_recurring_instances fromisoformat now item start_date end_date
          = Ok l).
Proof.
  assert (Hbounded :
            generate_recurring_instances fromisoformat now item
                                         start_date end_date <> Diverge
            /\ (forall l,
                  generate_recurring_instances fromisoformat now item
                                               start_date end_date = Ok l ->
                  (length l <= 100)%nat)).
  {
    unfold generate_recurring_instances.
    destruct (String.eqb (repeat_interval item) "none");
      [split; [discriminate | intros l [= <-]; simpl; lia] |].
    destruct (match start_date with Some d => Ok d | None => dt_sub now (days 180) end)
      as [s | ex | ] eqn:Hs; cbn [mbind outcome_bind].
    2: { split; [discriminate | intros l; discriminate]. }
    2: { exfalso. destruct start_date; [discriminate |].
         unfold dt_sub, dt_add in Hs. destruct (_ && _); discriminate. }
    destruct (match end_date with Some d => Ok d | None => dt_add now (days 730) end)
      as [e | ex | ] eqn:He; cbn [mbind outcome_bind].
    2: { split; [discriminate | intros l; discriminate]. }
    2: { exfalso. destruct end_date; [discriminate |].
         unfold dt_add in He. destruct (_ && _); discriminate. }
    destruct (fromisoformat (due_date item)) as [d0 |];
      [| split; [discriminate | intros l [= <-]; simpl; lia]].
    rewrite recur_loop_occurrences.
    pose proof (loop_fuel_enough (S (Z.to_nat max_instances)) item
                  (strip_tz s) (strip_tz e) (strip_tz d0) 0 ltac:(lia)) as Hfuel.
    destruct (occurrences _ item _ _ _ 0) as [occ | ex |] eqn:Hocc;
      cbn [mbind outcome_bind]; [| split; [discriminate | intros l; discriminate]
                                   | congruence].
    split; [discriminate |]. intros l [= <-].
    apply occurrences_length in Hocc.
    rewrite ?app_nil_l, length_map.
    change (Z.to_nat (max_instances - 0)) with 100%nat in Hocc. exact Hocc.
  }
  destruct Hbounded as [Hterm Hlen].
  split; [exact Hterm |]. split; [exact Hlen |].
  intros s e. apply expand_returns.
Qed.

(** C7, as the code has it.  A row that does not repeat, or whose date
    does not parse, comes back alone and unchanged, whatever the window.
    For a row that repeats and whose date parses, the occurrences behind
    the returned instances are strictly increasing; the first of them is
    the row's own due date when that date lies inside the window; and when
    the due date is before the start of the window, the first occurrence
    returned, if there is one, is a later step: the earliest step from the
    due date that is not before the start of the window. *)
Theorem occurrences_increasing_first_in_window now item s e l :
  generate_recurring_instances fromisoformat now item (Some s) (Some e) = Ok l ->
  (repeat_interval item = "none" \/ fromisoformat (due_date item) = None ->
   l = [original item])
  /\ (forall d0,
        repeat_interval item <> "none" ->
        fromisoformat (due_date item) = Some d0 ->
        exists occ,
          l = map (instance_of item) occ
          /\ StronglySorted occurs_before occ
          /\ (wall s <= wall d0 <= wall e -> head occ = Some (0, strip_tz d0))
          /\ (wall d0 < wall s ->
              forall o,
                head occ = Some o ->
                0 < o.1 /\ wall d0 < wall o.2 /\ wall s <= wall o.2
                /\ nth_occurrence item (Z.to_nat o.1) (strip_tz d0) = Some o.2
                /\ forall j dj,
                     (j < Z.to_nat o.1)%nat ->
                     nth_occurrence item j (strip_tz d0) = Some dj ->
                     wall dj < wall s)).
Proof.
  intros H. rewrite generate_in_window in H. split.
  - intros [Hrep | Hparse].
    + rewrite Hrep in H. cbn in H. congruence.
    + destruct (String.eqb (repeat_interval item) "none"); [congruence |].
      rewrite Hparse in H. congruence.
  - intros d0 Hrep Hparse. apply String.eqb_neq in Hrep.
    rewrite Hrep, Hparse in H.
    destruct (occurrences _ item _ _ _ 0) as [occ | |] eqn:Hocc;
      cbn [mbind outcome_bind] in H; try discriminate.
    injection H as <-. exists occ. split; [reflexivity |].
    split; [exact (occurrences_increasing _ _ _ _ _ _ _ Hocc) |]. split.
    + intros [Hlo Hhi].
      apply (occurrences_first _ _ _ _ _ _ _ Hocc).
      * unfold dt_le. rewrite !wall_strip_tz. apply Z.leb_le. exact Hlo.
      * unfold dt_le. rewrite !wall_strip_tz. apply Z.leb_le. exact Hhi.
      * reflexivity.
    + intros Hbefore o Hhead. destruct occ as [| o' rest]; [discriminate |].
      injection Hhead as ->.
      pose proof (occurrences_inside _ _ _ _ _ _ _ Hocc) as Hin.
      apply Forall_cons in Hin as [(Hidx & Hwin & _ & Hnth) _].
      rewrite Z.sub_0_r in Hnth. rewrite !wall_strip_tz in Hwin.
      pose proof (occurrences_head_earliest _ _ _ _ _ _ _ _ Hocc) as Hfirst.
      rewrite Z.sub_0_r in Hfirst.
      assert (Hsteps : forall j dj, (j < Z.to_nat o.1)%nat ->
                nth_occurrence item j (strip_tz d0) = Some dj ->
                wall dj < wall s).
      { intros j dj Hj Hj'. specialize (Hfirst j dj Hj Hj').
        rewrite wall_strip_tz in Hfirst. exact Hfirst. }
      assert (Hpos : 0 < o.1).
      { destruct (decide (o.1 = 0)) as [Hz | Hz]; [| lia].
        rewrite Hz in Hnth. simpl in Hnth. injection Hnth as Hnth.
        rewrite <- Hnth, wall_strip_tz in Hwin. lia. }
      split; [exact Hpos |]. split; [lia |]. split; [lia |].
      split; [exact Hnth | exact Hsteps].
Qed.

Lemma adjacent_impl {A} (R S : A -> A -> Prop) (l : list A) :
  (forall a b, R a b -> S a b) -> adjacent R l -> adjacent S l.
Proof.
  intros HRS. induction l as [| x [| y t] IH]; simpl; auto.
  intros [Hxy Ht]. split; [apply HRS; exact Hxy | apply IH; exact Ht].
Qed.

Lemma monthly_neighbours now item s e l :
  repeat_interval item = "monthly" ->
  generate_recurring_instances fromisoformat now item (Some s) (Some e) = Ok l ->
  l = [original item]
  \/ exists occ, l = map (instance_of item) occ
                 /\ adjacent one_month_apart occ.
Proof.
  intros Hrep H. apply generate_in_window_Ok in H
    as [-> | (d0 & occ & _ & Hparse & Hocc & ->)]; [left; reflexivity |].
  right. exists occ. split; [reflexivity |].
  apply occurrences_linked in Hocc as [Hadj _].
  eapply adjacent_impl; [| exact Hadj].
  intros a b [Hidx Hstep]. unfold next_occurrence in Hstep.
  rewrite Hrep in Hstep. simpl in Hstep. injection Hstep as Hstep.
  apply add_months_1_Ok in Hstep as (Hymd & Htod & _ & _).
  split; [exact Hidx | split; assumption].
Qed.

(** C10: the index of an occurrence counts the passes of the loop since the
    due date, emitted or not, and stays below 100; so a due date whose 100th
    step is still before the start of the window leaves nothing to return,
    however late the window ends. *)
Theorem cap_counts_steps now item s e d0 :
  repeat_interval item <> "none" ->
  fromisoformat (due_date item) = Some d0 ->
  (forall l,
     generate_recurring_instances fromisoformat now item (Some s) (Some e)
     = Ok l ->
     exists occ,
       l = map (instance_of item) occ
       /\ Forall (fun o : Z * datetime =>
                    0 <= o.1 < 100
                    /\ nth_occurrence item (Z.to_nat o.1) (strip_tz d0)
                       = Some o.2) occ)
  /\ (forall d100,
        nth_occurrence item 100 (strip_tz d0) = Some d100 ->
        wall d100 < wall s ->
        generate_recurring_instances fromisoformat now item (Some s) (Some e)
        = Ok []).
Proof.
  intros Hrep Hparse. apply String.eqb_neq in Hrep. split.
  - intros l. rewrite generate_in_window, Hrep, Hparse.
    destruct (occurrences _ item _ _ _ 0) as [occ | |] eqn:Hocc;
      cbn [mbind outcome_bind]; try discriminate.
    intros [= <-]. exists occ. split; [reflexivity |].
    apply occurrences_inside in Hocc.
    eapply Forall_impl; [exact Hocc |]. intros [k d]. simpl.
    intros (Hk & _ & _ & Hnth). rewrite Z.sub_0_r in Hnth.
    split; [exact Hk | exact Hnth].
  - intros d100 Hnth Hbefore. rewrite generate_in_window, Hrep, Hparse.
    rewrite (occurrences_cap_spent _ item _ _ _ 0 d100); try reflexivity.
    + unfold max_instances. lia.
    + unfold max_instances. lia.
    + exact Hnth.
    + rewrite wall_strip_tz. exact Hbefore.
Qed.

End Expansion.

Section Scenarios.
Import Py Item Recurrence RecurrenceFacts Scenario.

(** C2, as the code has it: neighbours in the list of a monthly row are one
    calendar month apart, the day cut to the length of the month and never
    carried into the month after; each step starts from the occurrence
    before it, so the row due 2025-01-31T09:00 expanded over
    [2025-01-01, 2025-04-01] gives 2025-01-31, 2025-02-28 and 2025-03-28. *)
Theorem monthly_steps_one_calendar_month :
  (forall fromisoformat now item s e l,
     repeat_interval item = "monthly" ->
     generate_recurring_instances fromisoformat now item (Some s) (Some e)
     = Ok l ->
     l = [original item]
     \/ exists occ, l = map (instance_of item) occ
                    /\ adjacent one_month_apart occ)
  /\ (forall y m d,
        1 <= m <= 12 -> 1 <= d ->
        let '(y', m', d') := month_later (y, m, d) in
        (y', m') = (if m =? 12 then (y + 1, 1) else (y, m + 1))
        /\ 1 <= d' <= Calendar.days_in_month y' m' /\ d' <= d
        /\ (d <= Calendar.days_in_month y' m' -> d' = d))
  /\ (forall now,
        generate_recurring_instances fromisoformat_plain now rent
                                     (Some q1_start) (Some q1_end)
        = Ok (map (instance_of rent)
                  [(0, mkdt 2025 1 31 9 0 0);
                   (1, mkdt 2025 2 28 9 0 0);
                   (2, mkdt 2025 3 28 9 0 0)])).
Proof.
  split; [| split].
  - intros fromisoformat now item s e l. apply monthly_neighbours.
  - intros y m d. apply (PyFacts.month_later_same_month_next (y, m, d)).
  - intros now. rewrite generate_in_window. vm_compute. reflexivity.
Qed.

Lemma monthly_steps_one_calendar_month_witness :
  repeat_interval rent = "monthly"
  /\ (map (instance_of rent)
          rent_occurrences = [original rent]
      \/ exists occ,
           map (instance_of rent)
               rent_occurrences = map (instance_of rent) occ
           /\ adjacent one_month_apart occ).
Proof.
  split; [reflexivity |].
  apply (proj1 monthly_steps_one_calendar_month fromisoformat_plain q1_start
               rent q1_start q1_end); [reflexivity |].
  vm_compute. reflexivity.
Defined.

(** The scenario of C2 as the claim words it fails: the third occurrence is
    2025-03-28, not 2025-03-31. *)
Lemma monthly_jan31_march_is_28 :
  generate_recurring_instances fromisoformat_plain q1_start rent
                               (Some q1_start) (Some q1_end)
  <> Ok (map (instance_of rent)
             [(0, mkdt 2025 1 31 9 0 0);
              (1, mkdt 2025 2 28 9 0 0);
              (2, mkdt 2025 3 31 9 0 0)])
  /\ (map (fun i => due_date (inst_row i))
      <$> generate_recurring_instances fromisoformat_plain q1_start rent
                                       (Some q1_start) (Some q1_end))
     = Ok ["2025-01-31T09:00:00"; "2025-02-28T09:00:00"; "2025-03-28T09:00:00"].
Proof.
  split.
  - vm_compute. discriminate.
  - vm_compute. reflexivity.
Qed.

Lemma expand_repeat_none_witness :
  repeat_interval review = "none"
  /\ generate_recurring_instances fromisoformat_plain q1_start review
                                  (Some q1_start) (Some feb1)
     = Ok [original review].
Proof.
  split; [reflexivity |].
  apply (expand_repeat_none fromisoformat_plain q1_start review
                            (Some q1_start) (Some feb1)).
  reflexivity.
Defined.

(** C4 as the claim words it fails: the window [2025-01-01, 2025-02-01]
    excludes the due date 2025-06-01T09:00 of a row that does not repeat,
    and the row is returned all the same. *)
Lemma repeat_none_outside_window_returned :
  fromisoformat_plain (due_date review) = Some (mkdt 2025 6 1 9 0 0)
  /\ wall feb1 < wall (mkdt 2025 6 1 9 0 0)
  /\ generate_recurring_instances fromisoformat_plain q1_start review
                                  (Some q1_start) (Some feb1)
     <> Ok []
  /\ generate_recurring_instances fromisoformat_plain q1_start review
                                  (Some q1_start) (Some feb1)
     = Ok [original review].
Proof.
  split; [vm_compute; reflexivity |].
  split; [vm_compute; reflexivity |].
  split; [vm_compute; discriminate | vm_compute; reflexivity].
Qed.

Lemma occurrences_increasing_first_in_window_witness :
  generate_recurring_instances fromisoformat_plain q1_start standup
                               (Some jan10) (Some jan12)
  = Ok (map (instance_of standup) standup_first_inside)
  /\ exists occ,
       map (instance_of standup) standup_first_inside
       = map (instance_of standup) occ
       /\ StronglySorted occurs_before occ
       /\ (wall jan10 <= wall (mkdt 2025 1 1 9 0 0) <= wall jan12 ->
           head occ = Some (0, strip_tz (mkdt 2025 1 1 9 0 0)))
       /\ (wall (mkdt 2025 1 1 9 0 0) < wall jan10 ->
           forall o,
             head occ = Some o ->
             0 < o.1 /\ wall (mkdt 2025 1 1 9 0 0) < wall o.2
             /\ wall jan10 <= wall o.2
             /\ nth_occurrence standup (Z.to_nat o.1)
                                (strip_tz (mkdt 2025 1 1 9 0 0)) = Some o.2
             /\ forall j dj,
                  (j < Z.to_nat o.1)%nat ->
                  nth_occurrence standup j (strip_tz (mkdt 2025 1 1 9 0 0))
                  = Some dj ->
                  wall dj < wall jan10).
Proof.
  assert (Hrun : generate_recurring_instances fromisoformat_plain q1_start
                   standup (Some jan10) (Some jan12)
                 = Ok (map (instance_of standup) standup_first_inside))
    by (vm_compute; reflexivity).
  split; [exact Hrun |].
  apply (proj2 (occurrences_increasing_first_in_window fromisoformat_plain
                  q1_start standup jan10 jan12 _ Hrun)
               (mkdt 2025 1 1 9 0 0)).
  - discriminate.
  - vm_compute. reflexivity.
Defined.

(** C7 as the claim words it fails: the daily row due 2025-01-01T09:00,
    expanded over [2025-01-10, 2025-01-12], starts at 2025-01-10T09:00. *)
Lemma first_occurrence_not_due_date :
  generate_recurring_instances fromisoformat_plain q1_start standup
                               (Some jan10) (Some jan12)
  = Ok (map (instance_of standup)
            [(9, mkdt 2025 1 10 9 0 0); (10, mkdt 2025 1 11 9 0 0)])
  /\ fromisoformat_plain (due_date standup) = Some (mkdt 2025 1 1 9 0 0)
  /\ mkdt 2025 1 10 9 0 0 <> mkdt 2025 1 1 9 0 0
  /\ (map (fun i => due_date (inst_row i))
          (map (instance_of standup)
               [(9, mkdt 2025 1 10 9 0 0); (10, mkdt 2025 1 11 9 0 0)]))
     = ["2025-01-10T09:00:00"; "2025-01-11T09:00:00"].
Proof.
  split; [vm_compute; reflexivity |].
  split; [vm_compute; reflexivity |].
  split; [vm_compute; discriminate | vm_compute; reflexivity].
Qed.

Lemma cap_counts_steps_witness :
  repeat_interval backup <> "none"
  /\ fromisoformat_plain (due_date backup) = Some (mkdt 2024 1 1 9 0 0)
  /\ nth_occurrence backup 100 (strip_tz (mkdt 2024 1 1 9 0 0))
     = Some (mkdt 2024 4 10 9 0 0)
  /\ wall (mkdt 2024 4 10 9 0 0) < wall q1_start
  /\ generate_recurring_instances fromisoformat_plain q1_start backup
                                  (Some q1_start) (Some y2030)
     = Ok [].
Proof.
  assert (Hrep : repeat_interval backup <> "none") by (vm_compute; discriminate).
  assert (Hparse : fromisoformat_plain (due_date backup)
                   = Some (mkdt 2024 1 1 9 0 0)) by (vm_compute; reflexivity).
  assert (Hnth : nth_occurrence backup 100 (strip_tz (mkdt 2024 1 1 9 0 0))
                 = Some (mkdt 2024 4 10 9 0 0)) by (vm_compute; reflexivity).
  assert (Hlt : wall (mkdt 2024 4 10 9 0 0) < wall q1_start)
    by (vm_compute; reflexivity).
  repeat (split; [assumption |]).
  exact (proj2 (cap_counts_steps fromisoformat_plain q1_start backup q1_start
                                 y2030 (mkdt 2024 1 1 9 0 0) Hrep Hparse)
               (mkdt 2024 4 10 9 0 0) Hnth Hlt).
Defined.

End Scenarios.

(** ** [send_daily_update]: bucketing and the digest *)

Module DigestFacts.
Import Py Item Digest.

Lemma string_app_nil_r (s : string) : s +:+ EmptyString = s.
Proof. induction s as [| c s IH]; simpl; [reflexivity |]. unfold String.app in *. simpl. f_equal. exact IH. Qed.

Lemma string_app_assoc (a b c : string) : (a +:+ b) +:+ c = a +:+ (b +:+ c).
Proof.
  induction a as [| x a IH]; [reflexivity |].
  unfold String.app in *. simpl. f_equal. exact IH.
Qed.

Lemma fold_left_lines (line : item -> string) (l : list item) (text : string) :
  fold_left (fun text i => text +:+ line i) l text
  = text +:+ lines_text (map line l).
Proof.
  revert text. induction l as [| i l IH]; intros text; simpl.
  - symmetry. apply string_app_nil_r.
  - rewrite IH. apply string_app_assoc.
Qed.

Lemma lines_text_app (l1 l2 : list string) :
  lines_text (l1 ++ l2) = lines_text l1 +:+ lines_text l2.
Proof.
  induction l1 as [| s l1 IH]; simpl; [reflexivity |].
  rewrite IH. symmetry. apply string_app_assoc.
Qed.

(** The text of a section is the lines of the first five tasks and of the
    first five events, and nothing after them. *)
Lemma section_text_lines (line : item -> string) (tasks events : list item) :
  section_text line tasks events
  = lines_text (map line (take 5 tasks ++ take 5 events)).
Proof.
  unfold section_text. rewrite !fold_left_lines, map_app, lines_text_app.
  reflexivity.
Qed.


Section WithParser.

Variable fromisoformat : string -> option datetime.

Lemma bucket_fold today (pending : list item) (b : buckets) :
  fold_left (bucket_step fromisoformat today) pending b
  = Buckets
      (overdue b ++ filter (fun t => urgency_of fromisoformat today t = Some Overdue) pending)
      (today_ b ++ filter (fun t => urgency_of fromisoformat today t = Some DueToday) pending)
      (upcoming b ++ filter (fun t => urgency_of fromisoformat today t = Some Upcoming) pending).
Proof.
  revert b. induction pending as [| t pending IH]; intros b.
  - simpl. rewrite !app_nil_r. destruct b; reflexivity.
  - simpl. rewrite IH. rewrite !filter_cons.
    unfold bucket_step, urgency_of.
    destruct (fromisoformat (due_date t)) as [due |]; simpl.
    + destruct (date due <? date today); simpl.
      { repeat case_decide; try congruence; rewrite <- ?app_assoc; reflexivity. }
      destruct (date due =? date today); simpl.
      { repeat case_decide; try congruence; rewrite <- ?app_assoc; reflexivity. }
      destruct (date due - date today <=? 7); simpl.
      { repeat case_decide; try congruence; rewrite <- ?app_assoc; reflexivity. }
      repeat case_decide; try congruence; reflexivity.
    + repeat case_decide; try congruence; rewrite <- ?app_assoc; reflexivity.
Qed.

(** Each of the three lists is the sublist of the rows that take its
    branch, in the order of the input. *)
Lemma bucket_loop_filter today (pending : list item) :
  bucket_loop fromisoformat today pending
  = Buckets
      (filter (fun t => urgency_of fromisoformat today t = Some Overdue) pending)
      (filter (fun t => urgency_of fromisoformat today t = Some DueToday) pending)
      (filter (fun t => urgency_of fromisoformat today t = Some Upcoming) pending).
Proof. unfold bucket_loop. rewrite bucket_fold. reflexivity. Qed.

(** The rows dropped by the loop are the only ones missing from its three
    lists. *)
Lemma bucket_count today (pending : list item) :
  (length (filter (fun t => urgency_of fromisoformat today t = Some Overdue) pending)
   + length (filter (fun t => urgency_of fromisoformat today t = Some DueToday) pending)
   + length (filter (fun t => urgency_of fromisoformat today t = Some Upcoming) pending)
   + length (filter (fun t => urgency_of fromisoformat today t = None) pending)
   = length pending)%nat.
Proof.
  induction pending as [| t pending IH]; [reflexivity |].
  rewrite !filter_cons.
  destruct (urgency_of fromisoformat today t) as [[| |] |];
    repeat case_decide; try congruence; simpl; lia.
Qed.

Lemma filter_length_disjoint {X} (A B C : X -> Prop)
    `{!forall x, Decision (A x)} `{!forall x, Decision (B x)}
    `{!forall x, Decision (C x)} (l : list X) :
  (forall x, A x -> B x -> False) ->
  (forall x, C x <-> A x \/ B x) ->
  (length (filter A l) + length (filter B l) = length (filter C l))%nat.
Proof.
  intros Hdisj Hor. induction l as [| x l IH]; [reflexivity |].
  rewrite !filter_cons.
  destruct (decide (A x)) as [Ha | Ha]; destruct (decide (B x)) as [Hb | Hb];
    destruct (decide (C x)) as [Hc | Hc]; simpl; try lia; exfalso.
  - exact (Hdisj x Ha Hb).
  - exact (Hdisj x Ha Hb).
  - apply Hc, Hor. auto.
  - apply Hc, Hor. auto.
  - apply Hor in Hc as [? | ?]; auto.
Qed.

(** Tasks and events counted apart add up to the pending rows counted
    together. *)
Lemma pending_total (items : list item) :
  (length (filter (fun i => item_type i = "task" /\ status i = "pending") items)
   + length (filter (fun i => item_type i = "event" /\ status i = "pending") items)
   = length (filter is_pending items))%nat.
Proof.
  apply filter_length_disjoint.
  - intros i [Ht _] [He _]. rewrite Ht in He. discriminate.
  - intros i. unfold is_pending. tauto.
Qed.

Lemma pending_count_split (U : item -> Prop) `{!forall i, Decision (U i)}
    (items : list item) :
  (length (filter U (filter (fun i => item_type i = "task" /\ status i = "pending") items))
   + length (filter U (filter (fun i => item_type i = "event" /\ status i = "pending") items))
   = length (filter (fun i => is_pending i /\ U i) items))%nat.
Proof.
  rewrite !list_filter_filter.
  apply filter_length_disjoint.
  - intros i [_ [Ht _]] [_ [He _]]. rewrite Ht in He. discriminate.
  - intros i. unfold is_pending. tauto.
Qed.

End WithParser.

Lemma add_section_first_five e title line (tasks events : list item) :
  add_section e title line tasks events
  = add_section e title line (take 5 tasks) (take 5 events).
Proof.
  unfold add_section.
  rewrite !section_text_lines, !take_take. simpl (5 `min` 5)%nat.
  destruct tasks as [| t tasks]; destruct events as [| ev events]; reflexivity.
Qed.

Lemma add_section_fields e title line (tasks events : list item) :
  embed_fields (add_section e title line tasks events) = embed_fields e
  \/ embed_fields (add_section e title line tasks events)
     = embed_fields e
       ++ [Field title
             (str_take 1024
                (lines_text (map line (take 5 tasks ++ take 5 events))))
             false].
Proof.
  unfold add_section. rewrite section_text_lines.
  destruct tasks as [| t tasks]; destruct events as [| ev events];
    try (left; reflexivity);
    match goal with
    | |- context [truthy ?s] => destruct (truthy s)
    end; auto.
Qed.

Lemma app_literal_ne (c : ascii) (a b : string) :
  String c a +:+ b <> EmptyString.
Proof. change (String c (a +:+ b) <> EmptyString). discriminate. Qed.

Lemma app_ne_l (a b : string) : a <> EmptyString -> a +:+ b <> EmptyString.
Proof. destruct a as [| c a]; [congruence |]. intros _. apply app_literal_ne. Qed.

(** The lines of a list that is not empty, none of them empty, are not
    the empty text. *)
Lemma lines_text_ne (line : item -> string) (l : list item) :
  (forall i, line i <> EmptyString) -> l <> [] ->
  truthy (lines_text (map line l)) = true.
Proof.
  intros Hline Hl. destruct l as [| i l]; [congruence |].
  simpl. pose proof (app_ne_l (line i) (lines_text (map line l)) (Hline i)).
  destruct (line i +:+ lines_text (map line l)); [congruence | reflexivity].
Qed.

(** One of the three blocks: nothing for two empty lists, otherwise one
    field with the lines of the first five tasks and of the first five
    events; the rest of the embed is left as it is. *)
Lemma add_section_exact e title line (tasks events : list item) :
  (forall i, line i <> EmptyString) ->
  add_section e title line tasks events
  = {| embed_title := embed_title e;
       embed_description := embed_description e;
       embed_color := embed_color e;
       embed_fields :=
         embed_fields e
         ++ match tasks, events with
            | [], [] => []
            | _, _ =>
                [Field title
                   (str_take 1024
                      (lines_text (map line (take 5 tasks ++ take 5 events))))
                   false]
            end;
       embed_footer := embed_footer e |}.
Proof.
  intros Hline. unfold add_section. rewrite section_text_lines.
  destruct tasks as [| t tasks]; destruct events as [| ev events].
  - rewrite app_nil_r. destruct e; reflexivity.
  - rewrite lines_text_ne by (exact Hline || discriminate). reflexivity.
  - rewrite lines_text_ne by (exact Hline || discriminate). reflexivity.
  - rewrite lines_text_ne by (exact Hline || discriminate). reflexivity.
Qed.

End DigestFacts.

Section DigestClaims.
Import Py Item Digest DigestFacts Scenario.

(** C3, as the code has it: the bucketing loop keeps three lists and each
    pending row goes to at most one of them, the one of the branch it
    takes; a row due more than 7 days ahead goes to none (there is no
    fourth list), and a row whose date does not parse goes to
    [upcoming]. *)
Theorem buckets_three_lists fromisoformat today (pending : list item) :
  bucket_loop fromisoformat today pending
  = Buckets
      (filter (fun t => urgency_of fromisoformat today t = Some Overdue) pending)
      (filter (fun t => urgency_of fromisoformat today t = Some DueToday) pending)
      (filter (fun t => urgency_of fromisoformat today t = Some Upcoming) pending)
  /\ (length (overdue (bucket_loop fromisoformat today pending))
      + length (today_ (bucket_loop fromisoformat today pending))
      + length (upcoming (bucket_loop fromisoformat today pending))
      + length (filter (fun t => urgency_of fromisoformat today t = None) pending)
      = length pending)%nat
  /\ (forall t, fromisoformat (due_date t) = None ->
                urgency_of fromisoformat today t = Some Upcoming)
  /\ (forall t due, fromisoformat (due_date t) = Some due ->
                    7 < date due - date today ->
                    urgency_of fromisoformat today t = None).
Proof.
  split; [apply bucket_loop_filter |].
  split; [rewrite bucket_loop_filter; simpl; apply bucket_count |].
  split.
  - intros t Hparse. unfold urgency_of. rewrite Hparse. reflexivity.
  - intros t due Hparse Hfar. unfold urgency_of. rewrite Hparse.
    destruct (date due <? date today) eqn:E1; [apply Z.ltb_lt in E1; lia |].
    destruct (date due =? date today) eqn:E2; [apply Z.eqb_eq in E2; lia |].
    destruct (date due - date today <=? 7) eqn:E3; [apply Z.leb_le in E3; lia |].
    reflexivity.
Qed.

(** C3 as the claim words it fails: on 2025-09-10 the row due 2025-10-01 is
    in none of the lists, and the row whose date does not parse is in
    [upcoming]. *)
Lemma far_row_dropped_bad_date_upcoming :
  bucket_loop fromisoformat_plain sep10 [item_a; item_b; item_c; item_d; item_e]
  = Buckets [item_a] [item_b] [item_c; item_e]
  /\ fromisoformat_plain (due_date item_e) = None
  /\ item_d ∉ [item_a] ++ [item_b] ++ [item_c; item_e].
Proof.
  split; [vm_compute; reflexivity |].
  split; [vm_compute; reflexivity |].
  intros Hin. repeat (apply elem_of_cons in Hin as [Heq | Hin]; [discriminate |]).
  apply elem_of_nil in Hin. exact Hin.
Qed.

Lemma buckets_three_lists_witness :
  fromisoformat_plain (due_date item_e) = None
  /\ urgency_of fromisoformat_plain sep10 item_e = Some Upcoming.
Proof.
  split; [vm_compute; reflexivity |].
  apply (proj1 (proj2 (proj2
           (buckets_three_lists fromisoformat_plain sep10 [item_e])))).
  vm_compute. reflexivity.
Defined.

(** C8, as the code has it: the whole of the digest.  It has a section
    for each urgency with a pending task or a pending event in it, in the
    order overdue, due today, upcoming, and no section for an urgency with
    none.  A section is one field: the lines of the first five tasks of
    its own bucket and then of the first five events, up to ten rows, and
    nothing tells of the rows left out (only the text is clipped, to 1024
    characters).  The last field counts all the pending rows, the overdue
    ones and the ones due today.  There is no other field, and neither the
    description nor the footer speaks of rows. *)
Theorem digest_sections_and_counts fromisoformat commands_channel today items :
  let bucket (kind : string) (u : urgency) :=
    filter (fun i => urgency_of fromisoformat today i = Some u)
           (filter (fun i => item_type i = kind /\ status i = "pending")
                   items) in
  let section (title : string) (line : item -> string) (u : urgency) :=
    match bucket "task" u, bucket "event" u with
    | [], [] => []
    | _, _ =>
        [Field title
           (str_take 1024
              (lines_text (map line (take 5 (bucket "task" u)
                                     ++ take 5 (bucket "event" u)))))
           false]
    end in
  daily_update_embed fromisoformat commands_channel today items
  = {| embed_title := "📋 Daily Update - Tasks & Events";
       embed_description := "Daily summary for " +:+ strftime_long today;
       embed_color := 3381759;
       embed_fields :=
         section "⚠️ OVERDUE" (overdue_line fromisoformat) Overdue
         ++ section "📅 DUE TODAY" today_line DueToday
         ++ section "📈 UPCOMING (Next 7 Days)" (upcoming_line fromisoformat)
                    Upcoming
         ++ [Field "📊 Summary"
               (summary_text
                  (length (filter is_pending items))
                  (length (filter (fun i =>
                     is_pending i
                     /\ urgency_of fromisoformat today i = Some Overdue) items))
                  (length (filter (fun i =>
                     is_pending i
                     /\ urgency_of fromisoformat today i = Some DueToday) items)))
               true];
       embed_footer :=
         "Use commands in #"
         +:+ match commands_channel with
             | Some name => name
             | None => "commands-channel"
             end
         +:+ " to manage items" |}
  /\ (forall u, (length (take 5 (bucket "task" u)
                         ++ take 5 (bucket "event" u)) <= 10)%nat).
Proof.
  intros bucket section. split.
  - unfold daily_update_embed.
    rewrite !bucket_loop_filter. cbn [overdue today_ upcoming].
    rewrite (add_section_exact _ "⚠️ OVERDUE")
      by (intros i; apply app_literal_ne).
    rewrite (add_section_exact _ "📅 DUE TODAY")
      by (intros i; apply app_literal_ne).
    rewrite (add_section_exact _ "📈 UPCOMING (Next 7 Days)")
      by (intros i; apply app_literal_ne).
    unfold set_footer, add_field.
    cbn [embed_title embed_description embed_color embed_fields embed_footer].
    rewrite <- pending_total, <- !pending_count_split.
    subst section bucket. cbn beta. rewrite <- !app_assoc. reflexivity.
  - intros u. rewrite length_app, !length_take. lia.
Qed.

(** C8 as the claim words it fails: with six overdue tasks and six overdue
    events the overdue section shows ten rows, and nothing in it tells that
    two more are overdue. *)
Lemma overdue_section_ten_rows_no_note :
  embed_fields (daily_update_embed fromisoformat_plain None sep10
                                   (late_tasks ++ late_events))
  = [Field "⚠️ OVERDUE"
       (lines_text (map (overdue_line fromisoformat_plain)
                        (take 5 late_tasks ++ take 5 late_events)))
       false;
     Field "📊 Summary" (summary_text 12 12 0) true]
  /\ length (take 5 late_tasks ++ take 5 late_events) = 10%nat
  /\ head (embed_fields (daily_update_embed fromisoformat_plain None sep10
                                            (late_tasks ++ late_events)))
     = head (embed_fields (daily_update_embed fromisoformat_plain None sep10
                             (take 5 late_tasks ++ take 5 late_events))).
Proof.
  split; [vm_compute; reflexivity |].
  split; vm_compute; reflexivity.
Qed.

End DigestClaims.

(** ** [schedule_reminders_and_updates]: the job store *)

Module SchedulerFacts.
Import Py PyFacts Item Scheduler.

Lemma clear_fold_lookup (l : list (string * job)) (s : scheduler) (k : string) :
  jobs (fold_left (fun s (j : string * job) =>
                     if startswith j.1 "reminder_" then remove_job j.1 s else s)
                  l s) !! k
  = if decide (startswith k "reminder_" = true /\ k ∈ l.*1)
    then None else jobs s !! k.
Proof.
  revert s. induction l as [| [id j] l IH]; intros s; simpl.
  - case_decide as H; [| reflexivity]. destruct H as [_ H].
    apply elem_of_nil in H. contradiction.
  - rewrite IH. simpl.
    destruct (decide (startswith k "reminder_" = true /\ k ∈ l.*1))
      as [[Hk Hin] | Hn].
    { rewrite decide_True; [reflexivity |].
      split; [exact Hk | apply elem_of_cons; right; exact Hin]. }
    destruct (decide (k = id)) as [-> | Hne].
    + destruct (startswith id "reminder_") eqn:Hid; simpl.
      * rewrite lookup_delete_eq. rewrite decide_True; [reflexivity |].
        split; [reflexivity | apply elem_of_cons; left; reflexivity].
      * reflexivity.
    + assert (Hs : jobs (if startswith id "reminder_"
                         then remove_job id s else s) !! k = jobs s !! k).
      { destruct (startswith id "reminder_"); simpl; [| reflexivity].
        apply lookup_delete_ne. congruence. }
      rewrite Hs. rewrite decide_False; [reflexivity |].
      intros [Hk Hin]. apply elem_of_cons in Hin as [-> | Hin];
        [congruence | apply Hn; auto].
Qed.

Lemma clear_fold_rest (l : list (string * job)) (s : scheduler) :
  running (fold_left (fun s (j : string * job) =>
                        if startswith j.1 "reminder_" then remove_job j.1 s else s)
                     l s) = running s
  /\ calls (fold_left (fun s (j : string * job) =>
                         if startswith j.1 "reminder_" then remove_job j.1 s else s)
                      l s)
     = calls s
       ++ map RemoveJob (filter (fun id => startswith id "reminder_" = true) l.*1).
Proof.
  revert s. induction l as [| [id j] l IH]; intros s; simpl.
  - rewrite app_nil_r. auto.
  - destruct (IH (if startswith id "reminder_" then remove_job id s else s))
      as [Hr Hc].
    rewrite Hr, Hc. rewrite filter_cons. simpl.
    destruct (startswith id "reminder_") eqn:Hid; simpl.
    + rewrite <- app_assoc. auto.
    + auto.
Qed.

(** The clearing loop removes the jobs whose id starts with [reminder_],
    all of them, and no other. *)
Lemma clear_reminders_jobs (s : scheduler) :
  jobs (clear_reminders s) = filter kept (jobs s).
Proof.
  apply map_eq. intros k. unfold clear_reminders, get_jobs.
  rewrite clear_fold_lookup. apply option_eq. intros v.
  rewrite map_lookup_filter_Some. unfold kept. simpl.
  case_decide as H.
  - split; [discriminate |]. intros [_ Hk]. destruct H as [H _]. congruence.
  - split; [| tauto]. intros Hv. split; [exact Hv |].
    destruct (startswith k "reminder_") eqn:Hk; [| reflexivity].
    exfalso. apply H. split; [reflexivity |].
    apply list_elem_of_fmap. exists (k, v). split; [reflexivity |].
    apply elem_of_map_to_list. exact Hv.
Qed.

Lemma clear_reminders_calls (s : scheduler) :
  calls (clear_reminders s)
  = calls s
    ++ map RemoveJob (filter (fun id => startswith id "reminder_" = true)
                             (get_jobs s).*1).
Proof. unfold clear_reminders. apply clear_fold_rest. Qed.

Lemma clear_reminders_running (s : scheduler) :
  running (clear_reminders s) = running s.
Proof. unfold clear_reminders. apply clear_fold_rest. Qed.

Lemma add_job_Ok id j replace_existing s s' :
  add_job id j replace_existing s = Ok s' ->
  jobs s' = <[id := j]> (jobs s)
  /\ running s' = running s
  /\ calls s' = calls s ++ [AddJob id].
Proof.
  unfold add_job. destruct (jobs s !! id); [destruct replace_existing |];
    try discriminate; intros [= <-]; auto.
Qed.

Lemma add_job_fresh id j s :
  jobs s !! id = None ->
  add_job id j false s
  = Ok {| jobs := <[id := j]> (jobs s); running := running s;
          calls := calls s ++ [AddJob id] |}.
Proof. intros H. unfold add_job. rewrite H. reflexivity. Qed.

Lemma add_job_replace id j s :
  exists s', add_job id j true s = Ok s'.
Proof. unfold add_job. destruct (jobs s !! id); eauto. Qed.

(** What a run of [add_job]s that succeeds has done, and what made it
    succeed: the ids were new to the store and differ from each other. *)
Lemma add_all_Ok (planned : list (string * job)) :
  forall s s',
    add_all planned s = Ok s' ->
    NoDup planned.*1
    /\ (forall id, id ∈ planned.*1 -> jobs s !! id = None)
    /\ jobs s' = list_to_map planned ∪ jobs s
    /\ running s' = running s
    /\ calls s' = calls s ++ map AddJob planned.*1.
Proof.
  induction planned as [| [id j] planned IH]; intros s s'; simpl.
  - intros [= <-]. split; [constructor |]. split.
    + intros id Hin. apply elem_of_nil in Hin. contradiction.
    + rewrite (left_id_L ∅ (∪)), app_nil_r. auto.
  - unfold add_job. destruct (jobs s !! id) eqn:Hid; [discriminate |].
    cbn [mbind outcome_bind]. intros H.
    apply IH in H as (Hnd & Hfresh & Hjobs & Hrun & Hcalls).
    simpl in *.
    assert (Hnotin : id ∉ planned.*1).
    { intros Hin. specialize (Hfresh id Hin).
      rewrite lookup_insert_eq in Hfresh. discriminate. }
    split; [constructor; assumption |]. split; [| split; [| split]].
    + intros k Hin. apply elem_of_cons in Hin as [-> | Hin]; [exact Hid |].
      specialize (Hfresh k Hin).
      rewrite lookup_insert_ne in Hfresh; [exact Hfresh |].
      intros ->. exact (Hnotin Hin).
    + rewrite Hjobs. rewrite <- insert_union_l.
      rewrite insert_union_r; [reflexivity |].
      apply not_elem_of_list_to_map_1. exact Hnotin.
    + exact Hrun.
    + rewrite Hcalls, <- app_assoc. reflexivity.
Qed.

Lemma add_all_fresh (planned : list (string * job)) :
  forall s,
    NoDup planned.*1 ->
    (forall id, id ∈ planned.*1 -> jobs s !! id = None) ->
    exists s', add_all planned s = Ok s'.
Proof.
  induction planned as [| [id j] planned IH]; intros s Hnd Hfresh; simpl.
  - eauto.
  - simpl in Hnd. apply NoDup_cons in Hnd as [Hnotin Hnd].
    rewrite add_job_fresh by (apply Hfresh; simpl; apply elem_of_cons; auto).
    cbn [mbind outcome_bind]. apply IH; [exact Hnd |].
    intros k Hin. simpl. rewrite lookup_insert_ne by (intros ->; exact (Hnotin Hin)).
    apply Hfresh. simpl. apply elem_of_cons. auto.
Qed.

Lemma prefix_app (p s : string) : String.prefix p (p +:+ s) = true.
Proof.
  induction p as [| c p IH].
  - destruct s; reflexivity.
  - change (String c p +:+ s) with (String c (p +:+ s)). simpl.
    destruct (ascii_dec c c); [exact IH | congruence].
Qed.

Section WithEnvironment.

Variable fromisoformat : string -> option datetime.
Variable str_title : string -> string.
Variable timestamp_int : datetime -> Z.
Variable USER_ID_MAP : gmap string Z.

Local Abbreviation plan_item := (plan_item fromisoformat str_title timestamp_int USER_ID_MAP).
Local Abbreviation planned_jobs :=
  (planned_jobs fromisoformat str_title timestamp_int USER_ID_MAP).
Local Abbreviation schedule_items :=
  (schedule_items fromisoformat str_title timestamp_int USER_ID_MAP).
Local Abbreviation schedule_reminders_and_updates :=
  (schedule_reminders_and_updates fromisoformat str_title timestamp_int USER_ID_MAP).

Lemma reminder_job_id_prefix i reminder_time :
  startswith (reminder_job_id timestamp_int i reminder_time) "reminder_" = true.
Proof. unfold startswith, reminder_job_id. apply prefix_app. Qed.

Lemma plan_item_id_prefix now i id j :
  plan_item now i = Ok (Some (id, j)) -> startswith id "reminder_" = true.
Proof.
  unfold Scheduler.plan_item.
  destruct (negb (String.eqb (status i) "pending")); [discriminate |].
  destruct (negb (truthy (due_date i))); [discriminate |].
  destruct (fromisoformat (due_date i)) as [due |]; [| discriminate].
  destruct (dt_sub _ _) as [rt | |]; cbn [mbind outcome_bind]; try discriminate.
  destruct (dt_le now rt).
  - destruct (dt_add now (days 30)) as [h | |]; cbn [mbind outcome_bind];
      try discriminate.
    destruct (dt_le rt h); [| discriminate].
    intros [= <- _]. apply reminder_job_id_prefix.
  - cbn [mbind outcome_bind]. discriminate.
Qed.

Lemma planned_jobs_prefix now items :
  forall planned,
    planned_jobs now items = Ok planned ->
    forall id, id ∈ planned.*1 -> startswith id "reminder_" = true.
Proof.
  induction items as [| i items IH]; intros planned; simpl.
  - intros [= <-] id Hin. apply elem_of_nil in Hin. contradiction.
  - destruct (plan_item now i) as [p | |] eqn:Hp; cbn [mbind outcome_bind];
      try discriminate.
    destruct (planned_jobs now items) as [more | |]; cbn [mbind outcome_bind];
      try discriminate.
    intros [= <-] id Hin. destruct p as [[id0 j0] |].
    + simpl in Hin. apply elem_of_cons in Hin as [-> | Hin].
      * exact (plan_item_id_prefix _ _ _ _ Hp).
      * exact (IH more eq_refl id Hin).
    + exact (IH more eq_refl id Hin).
Qed.

(** The loop succeeds exactly when every row can be planned and every
    planned job can be added. *)
Lemma schedule_items_Ok now items :
  forall s s',
    schedule_items now items s = Ok s'
    <-> exists planned,
          planned_jobs now items = Ok planned /\ add_all planned s = Ok s'.
Proof.
  induction items as [| i items IH]; intros s s'; simpl.
  - split.
    + intros [= <-]. exists []. auto.
    + intros (planned & [= <-] & H). exact H.
  - destruct (plan_item now i) as [[[id j] |] | e |]; cbn [mbind outcome_bind].
    + destruct (add_job id j false s) as [s1 | e |] eqn:Hadd;
        cbn [mbind outcome_bind].
      * rewrite IH. split.
        -- intros (planned & Hpl & Hall). rewrite Hpl. cbn [mbind outcome_bind].
           exists ((id, j) :: planned). split; [reflexivity |].
           simpl. rewrite Hadd. exact Hall.
        -- intros (planned & Hpl & Hall).
           destruct (planned_jobs now items) as [more | |];
             cbn [mbind outcome_bind] in Hpl; try discriminate.
           injection Hpl as <-. simpl in Hall. rewrite Hadd in Hall.
           exists more. auto.
      * split; [discriminate |]. intros (planned & Hpl & Hall).
        destruct (planned_jobs now items) as [more | |];
          cbn [mbind outcome_bind] in Hpl; try discriminate.
        injection Hpl as <-. simpl in Hall. rewrite Hadd in Hall.
        discriminate.
      * split; [discriminate |]. intros (planned & Hpl & Hall).
        destruct (planned_jobs now items) as [more | |];
          cbn [mbind outcome_bind] in Hpl; try discriminate.
        injection Hpl as <-. simpl in Hall. rewrite Hadd in Hall.
        discriminate.
    + rewrite IH. split.
      * intros (planned & Hpl & Hall). rewrite Hpl. eauto.
      * intros (planned & Hpl & Hall).
        destruct (planned_jobs now items) as [more | |];
          cbn [mbind outcome_bind] in Hpl; try discriminate.
        injection Hpl as <-. eauto.
    + split; [discriminate |]. intros (planned & Hpl & _). discriminate.
    + split; [discriminate |]. intros (planned & Hpl & _). discriminate.
Qed.

(** A row for which nothing is planned leaves the rest of the batch as it
    would be without it. *)
Lemma schedule_items_skip now i before after s :
  plan_item now i = Ok None ->
  schedule_items now (before ++ i :: after) s
  = schedule_items now (before ++ after) s.
Proof.
  intros Hskip. revert s. induction before as [| b before IH]; intros s; simpl.
  - rewrite Hskip. reflexivity.
  - destruct (plan_item now b) as [[[id j] |] | e |]; cbn [mbind outcome_bind];
      try reflexivity.
    + destruct (add_job id j false s); cbn [mbind outcome_bind];
        try reflexivity. apply IH.
    + apply IH.
Qed.

(** The job store after a pass that succeeds. *)
Lemma schedule_Ok now items s0 s1 :
  schedule_reminders_and_updates now items s0 = Ok s1 ->
  exists planned,
    planned_jobs now items = Ok planned
    /\ NoDup planned.*1
    /\ jobs s1 = <["daily_update" := daily_update_job]>
                   (list_to_map planned ∪ filter kept (jobs s0))
    /\ calls s1
       = calls s0
         ++ map RemoveJob (filter (fun id => startswith id "reminder_" = true)
                                  (get_jobs s0).*1)
         ++ map AddJob planned.*1 ++ [AddJob "daily_update"].
Proof.
  unfold Scheduler.schedule_reminders_and_updates.
  destruct (schedule_items now items (clear_reminders s0)) as [a | |] eqn:Ha;
    cbn [mbind outcome_bind]; try discriminate.
  destruct (add_job "daily_update" daily_update_job true a) as [b | |] eqn:Hb;
    cbn [mbind outcome_bind]; try discriminate.
  intros [= <-].
  apply schedule_items_Ok in Ha as (planned & Hpl & Hall).
  apply add_all_Ok in Hall as (Hnd & _ & Hja & _ & Hca).
  apply add_job_Ok in Hb as (Hjb & _ & Hcb).
  exists planned. split; [exact Hpl |]. split; [exact Hnd |].
  rewrite clear_reminders_jobs in Hja. rewrite clear_reminders_calls in Hca.
  split.
  - destruct (running b); simpl; rewrite Hjb, Hja; reflexivity.
  - destruct (running b); simpl; rewrite Hcb, Hca, <- !app_assoc; reflexivity.
Qed.

(** When the planned ids are new to the store, the pass succeeds. *)
Lemma schedule_fresh now items s0 planned :
  planned_jobs now items = Ok planned ->
  NoDup planned.*1 ->
  exists s1, schedule_reminders_and_updates now items s0 = Ok s1.
Proof.
  intros Hpl Hnd. unfold Scheduler.schedule_reminders_and_updates.
  destruct (add_all_fresh planned (clear_reminders s0) Hnd) as [a Ha].
  { intros id Hin. rewrite clear_reminders_jobs.
    apply map_lookup_filter_None_2. right. intros x _ Hkept.
    unfold kept in Hkept. simpl in Hkept.
    rewrite (planned_jobs_prefix _ _ _ Hpl id Hin) in Hkept. discriminate. }
  assert (Hsched : schedule_items now items (clear_reminders s0) = Ok a).
  { apply schedule_items_Ok. exists planned. auto. }
  rewrite Hsched. cbn [mbind outcome_bind].
  destruct (add_job_replace "daily_update" daily_update_job a) as [b Hb].
  rewrite Hb. cbn [mbind outcome_bind]. eauto.
Qed.



Lemma plan_item_parsed now i due :
  status i = "pending" ->
  due_date i <> EmptyString ->
  fromisoformat (due_date i) = Some due ->
  plan_item now i
  = (reminder_time ←
       dt_sub (if is_aware due then replace_tzinfo_None due else due)
              (minutes 30);
     in_window ←
       (if dt_le now reminder_time
        then horizon ← dt_add now (days 30); Ok (dt_le reminder_time horizon)
        else Ok false);
     if in_window : bool
     then Ok (Some (reminder_job_id timestamp_int i reminder_time,
                    {| job_trigger := DateTrigger reminder_time;
                       job_run :=
                         ReminderJob (reminder_message fromisoformat str_title
                                                       USER_ID_MAP i) |}))
     else Ok None).
Proof.
  intros Hst Hne Hparse. unfold Scheduler.plan_item.
  rewrite Hst, Hparse.
  destruct (due_date i); [congruence | reflexivity].
Qed.

(** The fire time is the due time less 30 minutes, and the row is planned
    exactly when that time lies between now and 30 days from now. *)
Lemma plan_item_in_window now i due horizon :
  status i = "pending" ->
  due_date i <> EmptyString ->
  fromisoformat (due_date i) = Some due ->
  valid_datetime due -> valid_datetime now ->
  dt_add now (days 30) = Ok horizon ->
  ((exists p, plan_item now i = Ok (Some p))
   <-> wall now <= wall due - minutes 30 <= wall now + days 30)
  /\ (forall id j,
        plan_item now i = Ok (Some (id, j)) ->
        exists fire_at,
          wall fire_at = wall due - minutes 30
          /\ tzinfo fire_at = None
          /\ id = reminder_job_id timestamp_int i fire_at
          /\ j = Job (DateTrigger fire_at)
                     (ReminderJob (reminder_message fromisoformat str_title
                                                    USER_ID_MAP i))).
Proof.
  intros Hst Hne Hparse Hdue Hnow Hh.
  rewrite (plan_item_parsed now i due Hst Hne Hparse).
  set (due' := if is_aware due then replace_tzinfo_None due else due).
  assert (Hw : wall due' = wall due)
    by (subst due'; destruct (is_aware due); reflexivity).
  assert (Htz : tzinfo due' = None).
  { subst due'. unfold is_aware. destruct (tzinfo due) eqn:E; simpl; auto. }
  rewrite Hh. apply dt_add_Ok in Hh as [Hhw _].
  destruct (dt_sub due' (minutes 30)) as [rt | e |] eqn:Hrt;
    cbn [mbind outcome_bind].
  - apply dt_add_Ok in Hrt as [Hrw Hrtz]. rewrite Hw in Hrw. rewrite Htz in Hrtz.
    unfold dt_le. destruct (wall now <=? wall rt) eqn:Hlo;
      cbn [mbind outcome_bind];
      [destruct (wall rt <=? wall horizon) eqn:Hhi |];
      rewrite ?Z.leb_le, ?Z.leb_gt in *.
    + split.
      * split; [lia | eauto].
      * intros id j [= <- <-]. exists rt. repeat split; try assumption; lia.
    + split.
      * split; [intros [p Hp]; discriminate | lia].
      * discriminate.
    + split.
      * split; [intros [p Hp]; discriminate | lia].
      * discriminate.
  - split; [| discriminate].
    split; [intros [p Hp]; discriminate |].
    unfold dt_sub, dt_add in Hrt. rewrite Hw in Hrt.
    destruct ((0 <=? wall due + - minutes 30)
              && (wall due + - minutes 30 <? MAXORDINAL * US_PER_DAY)) eqn:Hc;
      [discriminate |].
    apply andb_false_iff in Hc. rewrite Z.leb_gt, Z.ltb_ge in Hc.
    unfold valid_datetime in *.
    unfold minutes, days, timedelta, US_PER_SECOND in *. lia.
  - exfalso. unfold dt_sub, dt_add in Hrt. destruct (_ && _); discriminate.
Qed.

(** The rows the loop passes over: not pending, or with a date that does
    not parse, or with a fire time outside the 30 days from now. *)
Lemma plan_item_excluded now i :
  status i <> "pending"
  \/ fromisoformat (due_date i) = None
  \/ (exists due fire_at horizon,
        fromisoformat (due_date i) = Some due
        /\ dt_sub (if is_aware due then replace_tzinfo_None due else due)
                  (minutes 30) = Ok fire_at
        /\ dt_add now (days 30) = Ok horizon
        /\ ~ (wall now <= wall fire_at <= wall horizon)) ->
  plan_item now i = Ok None.
Proof.
  unfold Scheduler.plan_item.
  intros [Hst | [Hparse | (due & rt & h & Hparse & Hrt & Hh & Hout)]].
  - apply String.eqb_neq in Hst. rewrite Hst. reflexivity.
  - rewrite Hparse. destruct (negb _); [reflexivity |].
    destruct (negb _); reflexivity.
  - rewrite Hparse, Hrt, Hh. destruct (negb _); [reflexivity |].
    destruct (negb _); [reflexivity |]. cbn [mbind outcome_bind].
    unfold dt_le. destruct (wall now <=? wall rt) eqn:Hlo;
      cbn [mbind outcome_bind]; [| reflexivity].
    destruct (wall rt <=? wall h) eqn:Hhi; [| reflexivity].
    apply Z.leb_le in Hlo, Hhi. lia.
Qed.

End WithEnvironment.

End SchedulerFacts.

Section SchedulerClaims.
Import Py Item Scheduler SchedulerFacts Scenario.

Local Abbreviation schedule :=
  (schedule_reminders_and_updates fromisoformat_plain title_ascii timestamp_utc ∅).
Local Abbreviation plan :=
  (plan_item fromisoformat_plain title_ascii timestamp_utc ∅).



(** C5: for a pending row whose due date parses, the fire time is the due
    time less 30 minutes, and the row is planned exactly when
    [now <= fire time <= now + 30 days]; the meeting due 2025-09-07T14:00
    is planned at 13:00 with the fire time 2025-09-07T13:30. *)
Theorem reminder_fire_time_and_window :
  (forall fromisoformat str_title timestamp_int USER_ID_MAP now i due horizon,
     status i = "pending" ->
     due_date i <> EmptyString ->
     fromisoformat (due_date i) = Some due ->
     valid_datetime due -> valid_datetime now ->
     dt_add now (days 30) = Ok horizon ->
     ((exists p,
         plan_item fromisoformat str_title timestamp_int USER_ID_MAP now i
         = Ok (Some p))
      <-> wall now <= wall due - minutes 30 <= wall now + days 30)
     /\ (forall id j,
           plan_item fromisoformat str_title timestamp_int USER_ID_MAP now i
           = Ok (Some (id, j)) ->
           exists fire_at,
             wall fire_at = wall due - minutes 30
             /\ tzinfo fire_at = None
             /\ id = reminder_job_id timestamp_int i fire_at
             /\ j = Job (DateTrigger fire_at)
                        (ReminderJob (reminder_message fromisoformat str_title
                                                       USER_ID_MAP i))))
  /\ plan sep7_13h meeting
     = Ok (Some (meeting_job_id,
                 Job (DateTrigger sep7_13h30)
                     (ReminderJob (reminder_message fromisoformat_plain
                                                    title_ascii ∅ meeting)))).
Proof.
  split.
  - intros. apply plan_item_in_window with (horizon := horizon); assumption.
  - vm_compute. reflexivity.
Qed.

Lemma reminder_fire_time_and_window_witness :
  (wall sep7_13h <= wall (mkdt 2025 9 7 14 0 0) - minutes 30
   <= wall sep7_13h + days 30)
  /\ exists p, plan sep7_13h meeting = Ok (Some p).
Proof.
  assert (Hin : wall sep7_13h <= wall (mkdt 2025 9 7 14 0 0) - minutes 30
                <= wall sep7_13h + days 30)
    by (vm_compute; split; discriminate).
  split; [exact Hin |].
  apply (proj1 (proj1 reminder_fire_time_and_window
                  fromisoformat_plain title_ascii timestamp_utc ∅
                  sep7_13h meeting (mkdt 2025 9 7 14 0 0)
                  (mkdt 2025 10 7 13 0 0)
                  eq_refl ltac:(discriminate) eq_refl
                  ltac:(vm_compute; split; [discriminate | reflexivity])
                  ltac:(vm_compute; split; [discriminate | reflexivity])
                  eq_refl)).
  exact Hin.
Defined.

(** C9 fails on the code: the subtraction of the 30 minutes is outside the
    [try], so the row due 0001-01-01T00:10, whose fire time is before the
    first day [datetime] can hold and so before now, raises
    [OverflowError] and ends the pass; without it the meeting is
    planned. *)
Theorem ancient_due_date_aborts_pass :
  status ancient = "pending"
  /\ fromisoformat_plain (due_date ancient) = Some (mkdt 1 1 1 0 10 0)
  /\ wall (mkdt 1 1 1 0 10 0) - minutes 30 < wall sep7_13h
  /\ plan sep7_13h ancient = Raise OverflowError
  /\ schedule sep7_13h [ancient; meeting] idle = Raise OverflowError
  /\ exists s,
       schedule sep7_13h [meeting] idle = Ok s
       /\ jobs s !! meeting_job_id
          = Some (Job (DateTrigger sep7_13h30)
                      (ReminderJob (reminder_message fromisoformat_plain
                                                     title_ascii ∅ meeting))).
Proof.
  split; [reflexivity |].
  split; [vm_compute; reflexivity |].
  split; [vm_compute; reflexivity |].
  split; [vm_compute; reflexivity |].
  split; [vm_compute; reflexivity |].
  eexists. split; vm_compute; reflexivity.
Qed.

End SchedulerClaims.

Section ExpansionWitnesses.
Import Py Item Recurrence Scenario.

Lemma expand_terminates_at_most_100_witness :
  generate_recurring_instances fromisoformat_plain q1_start rent
                               (Some q1_start) (Some q1_end)
  = Ok (map (instance_of rent) rent_occurrences)
  /\ (length (map (instance_of rent) rent_occurrences) <= 100)%nat.
Proof.
  assert (H : generate_recurring_instances fromisoformat_plain q1_start rent
                                           (Some q1_start) (Some q1_end)
              = Ok (map (instance_of rent) rent_occurrences))
    by (vm_compute; reflexivity).
  split; [exact H |].
  exact (proj1 (proj2 (expand_terminates_at_most_100 fromisoformat_plain
                         q1_start rent (Some q1_start) (Some q1_end))) _ H).
Defined.

End ExpansionWitnesses.

(** * Properties of the rest of the program *)

(** ** Text *)

Module TextFacts.
Import Py Text.

Lemma all_chars_app P (a b : string) :
  all_chars P (a +:+ b) = all_chars P a && all_chars P b.
Proof.
  induction a as [| c a IH]; [reflexivity |].
  change (String c a +:+ b) with (String c (a +:+ b)). simpl.
  rewrite IH. apply andb_assoc.
Qed.

Lemma pretty_N_go_chars P (x : N) (s : string) :
  (forall d, P (pretty_N_char d) = true) ->
  all_chars P s = true ->
  all_chars P (pretty_N_go x s) = true.
Proof.
  intros Hdigit. revert s.
  induction (N.lt_wf_0 x) as [x _ IH]; intros s Hs.
  destruct (decide (x = 0%N)) as [-> | Hx]; [exact Hs |].
  rewrite pretty_N_go_step by lia. apply IH.
  - apply N.div_lt; lia.
  - simpl. rewrite Hdigit, Hs. reflexivity.
Qed.

(** [str(n)] is made of digits and a sign: it holds no underscore. *)
Lemma str_of_int_no_underscore (n : Z) :
  all_chars not_underscore (str_of_int n) = true.
Proof.
  assert (Hdigit : forall d, not_underscore (pretty_N_char d) = true).
  { intros d. unfold pretty_N_char. repeat case_match; reflexivity. }
  assert (HN : forall p, all_chars not_underscore (pretty (N.pos p)) = true).
  { intros p. unfold pretty, pretty_N. case_decide; [reflexivity |].
    apply pretty_N_go_chars; [exact Hdigit | reflexivity]. }
  unfold str_of_int, pretty, pretty_Z. destruct n as [| p | p].
  - reflexivity.
  - apply HN.
  - rewrite all_chars_app. apply andb_true_iff. split; [reflexivity | apply HN].
Qed.

(** Two texts cut at their first underscore agree on both sides of it. *)
Lemma split_at_underscore (a b x y : string) :
  all_chars not_underscore a = true ->
  all_chars not_underscore b = true ->
  a +:+ "_" +:+ x = b +:+ "_" +:+ y ->
  a = b /\ x = y.
Proof.
  revert b. induction a as [| c a IH]; intros [| d b] Ha Hb H.
  - change (String "_" x = String "_" y) in H. injection H as ->. auto.
  - exfalso. change (String "_" x = String d (b +:+ "_" +:+ y)) in H.
    injection H as <- _. simpl in Hb. discriminate.
  - exfalso. change (String c (a +:+ "_" +:+ x) = String "_" y) in H.
    injection H as -> _. simpl in Ha. discriminate.
  - change (String c a +:+ "_" +:+ x) with (String c (a +:+ "_" +:+ x)) in H.
    change (String d b +:+ "_" +:+ y) with (String d (b +:+ "_" +:+ y)) in H.
    injection H as -> H. simpl in Ha, Hb.
    apply andb_true_iff in Ha as [_ Ha]. apply andb_true_iff in Hb as [_ Hb].
    destruct (IH b Ha Hb H) as [-> ->]. auto.
Qed.

End TextFacts.

(** ** More on [generate_recurring_instances] *)

Section MoreExpansion.
Import Py PyFacts Item Recurrence RecurrenceFacts Window Text TextFacts Scenario.

Variable fromisoformat : string -> option datetime.

(** What any call returns, when it returns. *)
Lemma generate_Ok now item start_date end_date l :
  generate_recurring_instances fromisoformat now item start_date end_date = Ok l ->
  l = [original item]
  \/ exists s e d0 occ,
       repeat_interval item <> "none"
       /\ window_start now start_date = Ok s
       /\ window_end now end_date = Ok e
       /\ fromisoformat (due_date item) = Some d0
       /\ occurrences (S (Z.to_nat max_instances)) item
                      (strip_tz s) (strip_tz e) (strip_tz d0) 0 = Ok occ
       /\ l = map (instance_of item) occ.
Proof.
  unfold generate_recurring_instances.
  destruct (String.eqb (repeat_interval item) "none") eqn:Hrep;
    [intros [= <-]; auto |].
  apply String.eqb_neq in Hrep.
  change (match start_date with Some d => Ok d | None => dt_sub now (days 180) end)
    with (window_start now start_date).
  change (match end_date with Some d => Ok d | None => dt_add now (days 730) end)
    with (window_end now end_date).
  destruct (window_start now start_date) as [s | |]; cbn [mbind outcome_bind];
    try discriminate.
  destruct (window_end now end_date) as [e | |]; cbn [mbind outcome_bind];
    try discriminate.
  destruct (fromisoformat (due_date item)) as [d0 |]; [| intros [= <-]; auto].
  rewrite recur_loop_occurrences.
  destruct (occurrences _ item _ _ _ 0) as [occ | |] eqn:Hocc;
    cbn [mbind outcome_bind]; try discriminate.
  intros [= <-]. right. exists s, e, d0, occ. auto 10.
Qed.

(** Every occurrence returned for a row that repeats and whose due date
    parses lies inside the window, the bounds left out being 180 days
    before now and 730 days after; such a row never comes back as itself
    with a due date outside the window. *)
Theorem occurrences_inside_window now item start_date end_date l d0 :
  repeat_interval item <> "none" ->
  fromisoformat (due_date item) = Some d0 ->
  generate_recurring_instances fromisoformat now item start_date end_date = Ok l ->
  exists s e occ,
    window_start now start_date = Ok s
    /\ window_end now end_date = Ok e
    /\ l = map (instance_of item) occ
    /\ Forall (fun o : Z * datetime => wall s <= wall o.2 <= wall e) occ
    /\ Forall (fun x : instance =>
                 exists d, due_date (inst_row x) = isoformat d
                           /\ wall s <= wall d <= wall e) l.
Proof.
  intros Hrep Hparse H. unfold generate_recurring_instances in H.
  apply String.eqb_neq in Hrep. rewrite Hrep in H.
  change (match start_date with Some d => Ok d | None => dt_sub now (days 180) end)
    with (window_start now start_date) in H.
  change (match end_date with Some d => Ok d | None => dt_add now (days 730) end)
    with (window_end now end_date) in H.
  destruct (window_start now start_date) as [s | |];
    cbn [mbind outcome_bind] in H; try discriminate.
  destruct (window_end now end_date) as [e | |];
    cbn [mbind outcome_bind] in H; try discriminate.
  rewrite Hparse, recur_loop_occurrences in H.
  destruct (occurrences _ item _ _ _ 0) as [occ | |] eqn:Hocc;
    cbn [mbind outcome_bind] in H; try discriminate.
  injection H as <-. exists s, e, occ.
  repeat (split; [reflexivity |]).
  apply occurrences_inside in Hocc.
  assert (Hin : Forall (fun o : Z * datetime => wall s <= wall o.2 <= wall e)
                       occ).
  { eapply Forall_impl; [exact Hocc |]. intros o (_ & Hw & _).
    rewrite !wall_strip_tz in Hw. exact Hw. }
  split; [exact Hin |].
  apply Forall_forall. intros x Hx. apply list_elem_of_In in Hx.
  apply in_map_iff in Hx as (o & <- & Ho).
  exists o.2. split; [reflexivity |].
  rewrite Forall_forall in Hin. apply Hin, list_elem_of_In, Ho.
Qed.

Lemma occurrences_index_increasing fuel item start_date end_date :
  forall cur count occ,
    occurrences fuel item start_date end_date cur count = Ok occ ->
    StronglySorted (fun a b : Z * datetime => a.1 < b.1) occ.
Proof.
  induction fuel as [| fuel IH]; intros cur count occ H; [discriminate |].
  apply occurrences_S_inv in H
    as [[_ ->] | (Hle & Hlt & [[_ ->] | (next & rest & Hn & Hr & ->)])].
  - constructor.
  - destruct (dt_le start_date cur); repeat constructor.
  - pose proof (IH _ _ _ Hr) as Hsorted.
    destruct (dt_le start_date cur); [| exact Hsorted].
    constructor; [exact Hsorted |].
    apply occurrences_inside in Hr.
    eapply Forall_impl; [exact Hr |]. intros [k d]. simpl. lia.
Qed.

Lemma instance_id_inj item (a b : Z * datetime) :
  0 <= a.1 -> 0 <= b.1 ->
  inst_id (instance_of item a) = inst_id (instance_of item b) -> a.1 = b.1.
Proof.
  destruct a as [ka da], b as [kb db]. simpl. intros Ha Hb.
  destruct (0 <? ka) eqn:Eka; destruct (0 <? kb) eqn:Ekb;
    rewrite ?Z.ltb_lt, ?Z.ltb_ge in *; try discriminate; [| lia].
  intros [= H].
  apply (split_at_underscore _ _ ("recur_" +:+ str_of_int ka)
                             ("recur_" +:+ str_of_int kb)) in H
    as [_ H]; try apply str_of_int_no_underscore.
  apply (inj (String.app "recur_")) in H.
  apply (inj pretty) in H. exact H.
Qed.

Lemma instance_ids_NoDup item (occ : list (Z * datetime)) :
  StronglySorted (fun a b : Z * datetime => a.1 < b.1) occ ->
  Forall (fun o : Z * datetime => 0 <= o.1) occ ->
  NoDup (map (fun o => inst_id (instance_of item o)) occ).
Proof.
  induction 1 as [| o occ Hs IH Hlt]; intros Hnonneg; [constructor |].
  apply Forall_cons in Hnonneg as [Ho Hnonneg]. simpl.
  apply NoDup_cons. split; [| exact (IH Hnonneg)].
  intros Hin. apply list_elem_of_In, in_map_iff in Hin as (o' & Heq & Hin').
  apply list_elem_of_In in Hin'.
  rewrite Forall_forall in Hlt, Hnonneg.
  pose proof (Hlt o' Hin'). pose proof (Hnonneg o' Hin').
  apply instance_id_inj in Heq; lia.
Qed.

(** The ids of the instances returned by one call differ from each
    other. *)
Theorem instance_ids_distinct now item start_date end_date l :
  generate_recurring_instances fromisoformat now item start_date end_date = Ok l ->
  NoDup (map inst_id l).
Proof.
  intros H. apply generate_Ok in H
    as [-> | (s & e & d0 & occ & _ & _ & _ & _ & Hocc & ->)].
  - simpl. apply NoDup_singleton.
  - rewrite map_map. apply instance_ids_NoDup.
    + exact (occurrences_index_increasing _ _ _ _ _ _ _ Hocc).
    + apply occurrences_inside in Hocc.
      eapply Forall_impl; [exact Hocc |]. intros o (Hk & _). lia.
Qed.

(** Neighbours in the list of a daily row are exactly one day apart, and
    of a weekly row exactly seven days. *)
Theorem daily_weekly_steps now item start_date end_date l delta :
  (repeat_interval item = "daily" /\ delta = days 1)
  \/ (repeat_interval item = "weekly" /\ delta = weeks 1) ->
  generate_recurring_instances fromisoformat now item start_date end_date = Ok l ->
  l = [original item]
  \/ exists occ, l = map (instance_of item) occ /\ adjacent (apart delta) occ.
Proof.
  intros Hrep H. apply generate_Ok in H
    as [-> | (s & e & d0 & occ & _ & _ & _ & _ & Hocc & ->)]; [auto |].
  right. exists occ. split; [reflexivity |].
  apply occurrences_linked in Hocc as [Hadj _].
  eapply adjacent_impl; [| exact Hadj].
  intros a b [Hidx Hstep]. split; [exact Hidx |].
  unfold next_occurrence in Hstep.
  destruct Hrep as [[Hr ->] | [Hr ->]]; rewrite Hr in Hstep; simpl in Hstep;
    injection Hstep as Hstep; apply dt_add_Ok in Hstep as [Hw _]; exact Hw.
Qed.

End MoreExpansion.

Section MoreExpansionWitnesses.
Import Py Item Recurrence Window Scenario Scenario2.

Lemma occurrences_inside_window_witness :
  generate_recurring_instances fromisoformat_plain q1_start rent
                               (Some q1_start) (Some q1_end)
  = Ok (map (instance_of rent) rent_occurrences)
  /\ exists s e occ,
       window_start q1_start (Some q1_start) = Ok s
       /\ window_end q1_start (Some q1_end) = Ok e
       /\ map (instance_of rent) rent_occurrences = map (instance_of rent) occ
       /\ Forall (fun o : Z * datetime => wall s <= wall o.2 <= wall e) occ
       /\ Forall (fun x : instance =>
                    exists d, due_date (inst_row x) = isoformat d
                              /\ wall s <= wall d <= wall e)
                 (map (instance_of rent) rent_occurrences).
Proof.
  split; [vm_compute; reflexivity |].
  apply (occurrences_inside_window fromisoformat_plain q1_start rent
           (Some q1_start) (Some q1_end) _ (mkdt 2025 1 31 9 0 0)).
  - discriminate.
  - vm_compute. reflexivity.
  - vm_compute. reflexivity.
Defined.

Lemma instance_ids_distinct_witness :
  generate_recurring_instances fromisoformat_plain q1_start rent
                               (Some q1_start) (Some q1_end)
  = Ok (map (instance_of rent) rent_occurrences)
  /\ NoDup (map inst_id (map (instance_of rent) rent_occurrences)).
Proof.
  split; [vm_compute; reflexivity |].
  apply (instance_ids_distinct fromisoformat_plain q1_start rent
           (Some q1_start) (Some q1_end)).
  vm_compute. reflexivity.
Defined.

Lemma daily_weekly_steps_witness :
  repeat_interval standup = "daily"
  /\ generate_recurring_instances fromisoformat_plain q1_start standup
                                  (Some jan10) (Some jan12)
     = Ok (map (instance_of standup) standup_occurrences)
  /\ (map (instance_of standup) standup_occurrences = [original standup]
      \/ exists occ,
           map (instance_of standup) standup_occurrences
           = map (instance_of standup) occ
           /\ adjacent (apart (days 1)) occ).
Proof.
  split; [reflexivity |]. split; [vm_compute; reflexivity |].
  apply (daily_weekly_steps fromisoformat_plain q1_start standup
           (Some jan10) (Some jan12) _ (days 1)).
  - left. split; reflexivity.
  - vm_compute. reflexivity.
Defined.

End MoreExpansionWitnesses.

(** ** More on [schedule_reminders_and_updates] *)

Module SchedulerMore.
Import Py PyFacts Item Scheduler SchedulerFacts Text TextFacts.

Section WithEnvironment.

Variable fromisoformat : string -> option datetime.
Variable str_title : string -> string.
Variable timestamp_int : datetime -> Z.
Variable USER_ID_MAP : gmap string Z.

Local Abbreviation plan_item :=
  (plan_item fromisoformat str_title timestamp_int USER_ID_MAP).
Local Abbreviation planned_jobs :=
  (planned_jobs fromisoformat str_title timestamp_int USER_ID_MAP).
Local Abbreviation schedule_reminders_and_updates :=
  (schedule_reminders_and_updates fromisoformat str_title timestamp_int USER_ID_MAP).

(** The planned jobs are the ones of the rows, no more and no less. *)
Lemma planned_jobs_elem now items :
  forall planned,
    planned_jobs now items = Ok planned ->
    forall p, p ∈ planned <-> exists i, i ∈ items /\ plan_item now i = Ok (Some p).
Proof.
  induction items as [| i items IH]; intros planned; simpl.
  - intros [= <-] p. split.
    + intros H. apply elem_of_nil in H. contradiction.
    + intros (i & H & _). apply elem_of_nil in H. contradiction.
  - destruct (plan_item now i) as [pi | |] eqn:Hp; cbn [mbind outcome_bind];
      try discriminate.
    destruct (planned_jobs now items) as [more | |]; cbn [mbind outcome_bind];
      try discriminate.
    intros [= <-] p. specialize (IH more eq_refl p).
    destruct pi as [p0 |].
    + rewrite elem_of_cons, IH. split.
      * intros [-> | (i' & Hin & Hpi)].
        -- exists i. split; [apply elem_of_cons; auto | exact Hp].
        -- exists i'. split; [apply elem_of_cons; auto | exact Hpi].
      * intros (i' & Hin & Hpi). apply elem_of_cons in Hin as [-> | Hin].
        -- left. congruence.
        -- right. eauto.
    + rewrite IH. split.
      * intros (i' & Hin & Hpi). exists i'.
        split; [apply elem_of_cons; auto | exact Hpi].
      * intros (i' & Hin & Hpi). apply elem_of_cons in Hin as [-> | Hin].
        -- congruence.
        -- eauto.
Qed.

(** After a pass, the reminder jobs in the store are exactly the jobs
    planned in this pass: none of the reminders the store held before is
    left, unless it is planned again. *)
Theorem reminders_are_the_plan now items s0 s1 id j :
  schedule_reminders_and_updates now items s0 = Ok s1 ->
  startswith id "reminder_" = true ->
  (jobs s1 !! id = Some j
   <-> exists i, i ∈ items /\ plan_item now i = Ok (Some (id, j))).
Proof.
  intros H Hrem. apply schedule_Ok in H as (planned & Hpl & Hnd & Hj & _).
  rewrite <- (planned_jobs_elem now items planned Hpl (id, j)).
  rewrite Hj, lookup_insert_ne by (intros <-; discriminate).
  rewrite lookup_union_l.
  - symmetry. apply elem_of_list_to_map. exact Hnd.
  - apply map_lookup_filter_None_2. right. intros x _ Hkept.
    unfold kept in Hkept. simpl in Hkept. congruence.
Qed.

(** A pass leaves every other job as it was, makes sure the daily update
    is set for 8:00, and leaves the scheduler running. *)
Theorem other_jobs_untouched now items s0 s1 :
  schedule_reminders_and_updates now items s0 = Ok s1 ->
  (forall id, startswith id "reminder_" = false -> id <> "daily_update" ->
              jobs s1 !! id = jobs s0 !! id)
  /\ jobs s1 !! "daily_update" = Some (Job (CronTrigger 8 0) DailyUpdateJob)
  /\ running s1 = true.
Proof.
  intros H. pose proof (schedule_Ok _ _ _ _ _ _ _ _ H)
    as (planned & Hpl & Hnd & Hj & _).
  split; [| split].
  - intros id Hrem Hne. rewrite Hj, lookup_insert_ne by congruence.
    rewrite lookup_union_r.
    + apply option_eq. intros v. rewrite map_lookup_filter_Some.
      unfold kept. simpl. tauto.
    + apply not_elem_of_list_to_map_1. intros Hin.
      rewrite (planned_jobs_prefix _ _ _ _ _ _ _ Hpl id Hin) in Hrem.
      discriminate.
  - rewrite Hj. apply lookup_insert_eq.
  - unfold Scheduler.schedule_reminders_and_updates in H.
    destruct (schedule_items _ _ _ _ now items (clear_reminders s0)) as [a | |];
      cbn [mbind outcome_bind] in H; try discriminate.
    destruct (add_job "daily_update" daily_update_job true a) as [b | |];
      cbn [mbind outcome_bind] in H; try discriminate.
    injection H as <-. destruct (running b) eqn:Hr; [exact Hr | reflexivity].
Qed.

Lemma plan_item_job_id now i id j :
  plan_item now i = Ok (Some (id, j)) ->
  exists reminder_time, id = reminder_job_id timestamp_int i reminder_time.
Proof.
  unfold Scheduler.plan_item.
  destruct (negb (String.eqb (status i) "pending")); [discriminate |].
  destruct (negb (truthy (due_date i))); [discriminate |].
  destruct (fromisoformat (due_date i)) as [due |]; [| discriminate].
  destruct (dt_sub _ _) as [rt | |]; cbn [mbind outcome_bind]; try discriminate.
  destruct (dt_le now rt).
  - destruct (dt_add now (days 30)) as [h | |]; cbn [mbind outcome_bind];
      try discriminate.
    destruct (dt_le rt h); [| discriminate]. intros [= <- _]. eauto.
  - cbn [mbind outcome_bind]. discriminate.
Qed.

(** The job id tells the row: rows with different ids never share a
    job id. *)
Lemma reminder_job_id_inj i i' t t' :
  reminder_job_id timestamp_int i t = reminder_job_id timestamp_int i' t' ->
  item_id i = item_id i'.
Proof.
  unfold reminder_job_id. intros H.
  apply (inj (String.app "reminder_")) in H.
  apply split_at_underscore in H as [H _];
    try apply str_of_int_no_underscore.
  apply (inj pretty) in H. exact H.
Qed.

Lemma planned_ids_NoDup now items :
  forall planned,
    NoDup (map item_id items) ->
    planned_jobs now items = Ok planned ->
    NoDup planned.*1.
Proof.
  induction items as [| i items IH]; intros planned Hnd; simpl.
  - intros [= <-]. constructor.
  - simpl in Hnd. apply NoDup_cons in Hnd as [Hnotin Hnd].
    destruct (plan_item now i) as [pi | |] eqn:Hp; cbn [mbind outcome_bind];
      try discriminate.
    destruct (planned_jobs now items) as [more | |] eqn:Hmore;
      cbn [mbind outcome_bind]; try discriminate.
    intros [= <-]. specialize (IH more Hnd eq_refl).
    destruct pi as [[id j] |]; [| exact IH].
    simpl. apply NoDup_cons. split; [| exact IH].
    intros Hin. apply list_elem_of_fmap in Hin as ([id' j'] & Heq & Hin).
    simpl in Heq. subst id'.
    apply (planned_jobs_elem now items more Hmore) in Hin as (i' & Hin' & Hp').
    apply plan_item_job_id in Hp as [t ->].
    apply plan_item_job_id in Hp' as [t' Heq].
    apply reminder_job_id_inj in Heq.
    apply Hnotin. rewrite Heq.
    apply list_elem_of_In, in_map, list_elem_of_In. exact Hin'.
Qed.

(** With rows whose ids differ from each other, as the primary key makes
    them, a pass in which no row fails to be planned succeeds: the store
    never answers [ConflictingIdError]. *)
Theorem distinct_ids_no_conflict now items s0 :
  NoDup (map item_id items) ->
  (forall i, i ∈ items -> exists p, plan_item now i = Ok p) ->
  exists s1, schedule_reminders_and_updates now items s0 = Ok s1.
Proof.
  intros Hnd Hplan.
  assert (Hpl : exists planned, planned_jobs now items = Ok planned).
  { clear Hnd. induction items as [| i items IH]; simpl; [eauto |].
    destruct (Hplan i) as [p Hp]; [apply elem_of_cons; auto |].
    destruct IH as [more Hmore].
    { intros i' Hin. apply Hplan. apply elem_of_cons. auto. }
    rewrite Hp, Hmore. cbn [mbind outcome_bind]. eauto. }
  destruct Hpl as [planned Hpl].
  apply (schedule_fresh _ _ _ _ now items s0 planned Hpl).
  exact (planned_ids_NoDup now items planned Hnd Hpl).
Qed.

End WithEnvironment.

End SchedulerMore.

Section SchedulerMoreWitnesses.
Import Py Item Scheduler SchedulerFacts SchedulerMore Scenario.

Local Abbreviation schedule :=
  (schedule_reminders_and_updates fromisoformat_plain title_ascii timestamp_utc ∅).
Local Abbreviation plan :=
  (plan_item fromisoformat_plain title_ascii timestamp_utc ∅).

Lemma reminders_are_the_plan_witness :
  exists s1,
    schedule sep7_13h [meeting] holding_old_text = Ok s1
    /\ startswith meeting_job_id "reminder_" = true
    /\ (jobs s1 !! meeting_job_id
        = Some (Job (DateTrigger sep7_13h30)
                    (ReminderJob (reminder_message fromisoformat_plain
                                                   title_ascii ∅ meeting)))
        <-> exists i,
              i ∈ [meeting]
              /\ plan sep7_13h i
                 = Ok (Some (meeting_job_id,
                             Job (DateTrigger sep7_13h30)
                                 (ReminderJob (reminder_message
                                                 fromisoformat_plain
                                                 title_ascii ∅ meeting))))).
Proof.
  eexists. split; [vm_compute; reflexivity |]. split; [reflexivity |].
  apply (reminders_are_the_plan fromisoformat_plain title_ascii timestamp_utc ∅
           sep7_13h [meeting] holding_old_text).
  - vm_compute. reflexivity.
  - reflexivity.
Defined.

Lemma other_jobs_untouched_witness :
  exists s1,
    schedule sep7_13h [meeting] holding_old_text = Ok s1
    /\ (forall id, startswith id "reminder_" = false -> id <> "daily_update" ->
                   jobs s1 !! id = jobs holding_old_text !! id)
    /\ jobs s1 !! "daily_update" = Some (Job (CronTrigger 8 0) DailyUpdateJob)
    /\ running s1 = true.
Proof.
  eexists. split; [vm_compute; reflexivity |].
  apply (other_jobs_untouched fromisoformat_plain title_ascii timestamp_utc ∅
           sep7_13h [meeting] holding_old_text).
  vm_compute. reflexivity.
Defined.

Lemma distinct_ids_no_conflict_witness :
  NoDup (map item_id [meeting; review])
  /\ exists s1, schedule sep7_13h [meeting; review] idle = Ok s1.
Proof.
  assert (Hnd : NoDup (map item_id [meeting; review])).
  { simpl. apply NoDup_cons. split.
    - intros H. apply list_elem_of_singleton in H. discriminate.
    - apply NoDup_singleton. }
  split; [exact Hnd |].
  apply (distinct_ids_no_conflict fromisoformat_plain title_ascii timestamp_utc
           ∅ sep7_13h [meeting; review] idle Hnd).
  intros i Hin. apply elem_of_cons in Hin as [-> | Hin];
    [| apply list_elem_of_singleton in Hin; subst i];
    eexists; vm_compute; reflexivity.
Defined.

End SchedulerMoreWitnesses.

(** ** [validate_input], [format_mention_for_discord], the template filters *)

Module HelpersFacts.
Import Py PyFacts Text Helpers DigestFacts.

Lemma str_len_take (n : nat) (s : string) : (str_len (str_take n s) <= n)%nat.
Proof.
  revert n. induction s as [| c s IH]; intros n; simpl; [lia |].
  destruct (is_continuation c) eqn:Hc; simpl.
  - rewrite Hc. apply IH.
  - destruct n as [| n]; simpl; [lia |]. rewrite Hc.
    specialize (IH n). lia.
Qed.

Lemma str_take_all (n : nat) (s : string) :
  (str_len s <= n)%nat -> str_take n s = s.
Proof.
  revert n. induction s as [| c s IH]; intros n; simpl; [reflexivity |].
  destruct (is_continuation c) eqn:Hc; intros Hlen.
  - rewrite IH by exact Hlen. reflexivity.
  - destruct n as [| n]; [lia |]. rewrite IH by lia. reflexivity.
Qed.

Lemma str_take_prefix (n : nat) (s : string) :
  exists rest, s = str_take n s +:+ rest.
Proof.
  revert n. induction s as [| c s IH]; intros n; simpl.
  - exists EmptyString. reflexivity.
  - destruct (is_continuation c).
    + destruct (IH n) as [rest Hrest]. exists rest.
      change (String c (str_take n s) +:+ rest)
        with (String c (str_take n s +:+ rest)).
      rewrite <- Hrest. reflexivity.
    + destruct n as [| n].
      * exists (String c s). reflexivity.
      * destruct (IH n) as [rest Hrest]. exists rest.
        change (String c (str_take n s) +:+ rest)
          with (String c (str_take n s +:+ rest)).
        rewrite <- Hrest. reflexivity.
Qed.

(** What [validate_input] returns has at most [max_length] characters, is
    the start of what it was given, and passes through [validate_input]
    unchanged. *)
Theorem validate_input_bounded (data : string) (max_length : nat) :
  (str_len (validate_input data max_length) <= max_length)%nat
  /\ (exists rest, data = validate_input data max_length +:+ rest)
  /\ validate_input (validate_input data max_length) max_length
     = validate_input data max_length.
Proof.
  assert (Hlen : (str_len (validate_input data max_length) <= max_length)%nat).
  { unfold validate_input. destruct (negb (truthy data)); [simpl; lia |].
    destruct (max_length <? str_len data)%nat eqn:E.
    - apply str_len_take.
    - apply Nat.ltb_ge in E. exact E. }
  split; [exact Hlen |]. split.
  - unfold validate_input. destruct (negb (truthy data)).
    + exists data. reflexivity.
    + destruct (max_length <? str_len data)%nat.
      * apply str_take_prefix.
      * exists EmptyString. symmetry. apply string_app_nil_r.
  - unfold validate_input at 1.
    destruct (negb (truthy (validate_input data max_length))) eqn:Ht.
    + destruct (validate_input data max_length); [reflexivity | discriminate].
    + apply Nat.ltb_ge in Hlen. rewrite Hlen. reflexivity.
Qed.

Section WithLibrary.

Variable fromisoformat : string -> option datetime.
Variable str_strip : string -> string.

(** A mention made ready for Discord is empty or starts with [@]; it is
    empty exactly when the mention is empty or nothing is left of it after
    [strip]. *)
Theorem format_mention_at_sign (mention : string) :
  (format_mention_for_discord str_strip mention = EmptyString
   \/ startswith (format_mention_for_discord str_strip mention) "@" = true)
  /\ (format_mention_for_discord str_strip mention = EmptyString
      <-> mention = EmptyString \/ str_strip mention = EmptyString).
Proof.
  unfold format_mention_for_discord.
  destruct mention as [| c m]; cbn [truthy negb]; [split; [auto | tauto] |].
  generalize (str_strip (String c m)). intros [| d s]; cbn [truthy andb];
    [split; [auto | tauto] |].
  destruct (startswith (String d s) "@") eqn:Hat; cbn [negb].
  - split; [right; exact Hat |].
    split; [discriminate | intros [H | H]; discriminate].
  - change ("@" +:+ String d s) with (String "@" (String d s)).
    split; [right; reflexivity |].
    split; [discriminate | intros [H | H]; discriminate].
Qed.

Lemma replace_char_absent (c : ascii) (by_ s : string) :
  Text.all_chars (fun x => negb (Ascii.eqb x c)) s = true ->
  replace_char c by_ s = s.
Proof.
  induction s as [| x s IH]; simpl; [reflexivity |].
  intros H. apply andb_true_iff in H as [Hx Hs].
  apply negb_true_iff in Hx. rewrite Hx, IH by exact Hs. reflexivity.
Qed.

(** The status of a due date that parses: [overdue] when it is before now,
    [due-soon] from now up to, and not including, two days from now,
    [normal] from then on. *)
Theorem time_until_due_bands now (datetime_str : string) due :
  datetime_str <> EmptyString -> datetime_str <> "None" ->
  fromisoformat (replace_char "Z" "+00:00" datetime_str) = Some due ->
  (time_until_due_filter fromisoformat now datetime_str = "overdue"
   <-> wall due < wall now)
  /\ (time_until_due_filter fromisoformat now datetime_str = "due-soon"
      <-> wall now <= wall due < wall now + days 2)
  /\ (time_until_due_filter fromisoformat now datetime_str = "normal"
      <-> wall now + days 2 <= wall due).
Proof.
  clear str_strip. intros Hne Hnone Hparse. unfold time_until_due_filter.
  assert (Ht : truthy datetime_str = true)
    by (destruct datetime_str; [congruence | reflexivity]).
  apply String.eqb_neq in Hnone. rewrite Ht, Hnone, Hparse. simpl.
  set (due' := if is_aware due then replace_tzinfo_None due else due).
  assert (Hw : wall due' = wall due)
    by (subst due'; destruct (is_aware due); reflexivity).
  rewrite Hw. unfold days_between. rewrite Hw.
  unfold days, timedelta, US_PER_SECOND. rewrite US_PER_DAY_eq.
  destruct (wall due <? wall now) eqn:E1;
    [| destruct ((wall due - wall now) / 86400000000 <=? 1) eqn:E2];
    rewrite ?Z.ltb_lt, ?Z.ltb_ge, ?Z.leb_le, ?Z.leb_gt in *;
    (split; [| split]); split; try discriminate; try reflexivity; intros;
    try (exfalso; Z.div_mod_to_equations; lia);
    Z.div_mod_to_equations; lia.
Qed.

(** On a text without [Z] that parses, the template filter shows what
    [format_time_12hour] shows. *)
Theorem format_datetime_filter_agrees (datetime_str : string) dt :
  datetime_str <> EmptyString -> datetime_str <> "None" ->
  Text.all_chars (fun x => negb (Ascii.eqb x "Z")) datetime_str = true ->
  fromisoformat datetime_str = Some dt ->
  format_datetime_filter fromisoformat datetime_str
  = Digest.format_time_12hour fromisoformat datetime_str.
Proof.
  intros Hne Hnone HnoZ Hparse.
  unfold format_datetime_filter, Digest.format_time_12hour.
  assert (Ht : truthy datetime_str = true)
    by (destruct datetime_str; [congruence | reflexivity]).
  apply String.eqb_neq in Hnone. rewrite Ht, Hnone. simpl.
  rewrite replace_char_absent by exact HnoZ. rewrite Hparse. reflexivity.
Qed.

End WithLibrary.

End HelpersFacts.

(** ** The listing and searching commands *)

Module CommandsFacts.
Import Py Item Text Commands.

(** A loop of [add_field]s appends one field per row, in order, and
    touches nothing else of the embed. *)
Lemma fold_entries (entry : embed -> item -> embed)
    (field_of : item -> Digest.embed_field) (l : list item) :
  (forall e i, entry e i = add_field e (Digest.field_name (field_of i))
                                     (Digest.field_value (field_of i))
                                     (Digest.field_inline (field_of i))) ->
  forall e,
    fields (fold_left entry l e) = fields e ++ map field_of l
    /\ footer (fold_left entry l e) = footer e
    /\ title (fold_left entry l e) = title e
    /\ colour (fold_left entry l e) = colour e.
Proof.
  intros Hentry. induction l as [| i l IH]; intros e; simpl.
  - rewrite app_nil_r. auto.
  - destruct (IH (entry e i)) as (Hf & Hfoot & Ht & Hc).
    rewrite Hf, Hfoot, Ht, Hc, Hentry. simpl.
    rewrite <- app_assoc. simpl. destruct (field_of i). auto.
Qed.

(** The shape of a listing: the first [cap] rows, and a footer when there
    are more. *)
Lemma listing_shape (entry : embed -> item -> embed)
    (field_of : item -> Digest.embed_field) (cap : nat) (l : list item)
    (e0 : embed) (foot : string) :
  (forall e i, entry e i = add_field e (Digest.field_name (field_of i))
                                     (Digest.field_value (field_of i))
                                     (Digest.field_inline (field_of i))) ->
  fields e0 = [] -> footer e0 = None ->
  let e := if (cap <? length l)%nat
           then set_footer (fold_left entry (take cap l) e0) foot
           else fold_left entry (take cap l) e0 in
  fields e = map field_of (take cap l)
  /\ length (fields e) = (cap `min` length l)%nat
  /\ footer e = if (cap <? length l)%nat then Some foot else None.
Proof.
  intros Hentry Hf0 Hfoot0.
  destruct (fold_entries entry field_of (take cap l) Hentry e0)
    as (Hf & Hfoot & _).
  rewrite Hf0 in Hf. rewrite Hfoot0 in Hfoot. simpl in Hf.
  assert (Hlen : length (map field_of (take cap l)) = (cap `min` length l)%nat)
    by (rewrite length_map, length_take; reflexivity).
  destruct (cap <? length l)%nat; simpl; rewrite Hf; auto.
Qed.

Section WithLibrary.

Variable fromisoformat : string -> option datetime.
Variable str_lower : string -> string.
Variable str_title : string -> string.

(** [eventlist] and [tasklist] answer with a text when nothing is pending;
    otherwise they show the first 15 pending rows of their kind, one field
    each and in the order of the rows, and the footer tells the total
    exactly when more than 15 are pending. *)
Theorem incomplete_lists_first_15 (items : list item) :
  let events :=
    filter (fun i => item_type i = "event" /\ status i = "pending") items in
  let tasks :=
    filter (fun i => item_type i = "task" /\ status i = "pending") items in
  (match eventlist fromisoformat items with
   | Text t => events = [] /\ t = "No incomplete events found!"
   | Rich e =>
       events <> []
       /\ fields e = map (list_field fromisoformat) (take 15 events)
       /\ length (fields e) = (15 `min` length events)%nat
       /\ footer e
          = if (15 <? length events)%nat
            then Some ("Showing first 15 of "
                       +:+ str_of_int (Z.of_nat (length events))
                       +:+ " incomplete events")
            else None
   end)
  /\ (match tasklist fromisoformat items with
      | Text t => tasks = [] /\ t = "No incomplete tasks found!"
      | Rich e =>
          tasks <> []
          /\ fields e = map (list_field fromisoformat) (take 15 tasks)
          /\ length (fields e) = (15 `min` length tasks)%nat
          /\ footer e
             = if (15 <? length tasks)%nat
               then Some ("Showing first 15 of "
                          +:+ str_of_int (Z.of_nat (length tasks))
                          +:+ " incomplete tasks")
               else None
      end).
Proof.
  intros events tasks. split.
  - unfold eventlist. fold events.
    destruct events as [| ev rest]; [auto |].
    split; [discriminate |].
    apply (listing_shape (list_entry fromisoformat) (list_field fromisoformat));
      reflexivity.
  - unfold tasklist. fold tasks.
    destruct tasks as [| t rest]; [auto |].
    split; [discriminate |].
    apply (listing_shape (list_entry fromisoformat) (list_field fromisoformat));
      reflexivity.
Qed.

(** A search with a term shows the first 10 rows of its kind that match,
    completed ones among them, one field each and in the order of the
    rows; the footer tells the total exactly when more than 10 match, and a
    text is the answer when none does. *)
Theorem searches_first_10 (items : list item) (search_term : string) :
  search_term <> EmptyString ->
  let found kind :=
    filter (fun i => matches str_lower (str_lower search_term) i = true)
           (filter (fun i => item_type i = kind) items) in
  (match searchevent fromisoformat str_lower str_title items (Some search_term) with
   | Text t =>
       found "event" = []
       /\ t = "No events found matching '" +:+ search_term +:+ "'"
   | Rich e =>
       found "event" <> []
       /\ fields e = map (search_field fromisoformat str_title)
                         (take 10 (found "event"))
       /\ length (fields e) = (10 `min` length (found "event"))%nat
       /\ footer e
          = if (10 <? length (found "event"))%nat
            then Some ("Showing first 10 of "
                       +:+ str_of_int (Z.of_nat (length (found "event")))
                       +:+ " matching events")
            else None
   end)
  /\ (match searchtask fromisoformat str_lower str_title items (Some search_term) with
      | Text t =>
          found "task" = []
          /\ t = "No tasks found matching '" +:+ search_term +:+ "'"
      | Rich e =>
          found "task" <> []
          /\ fields e = map (search_field fromisoformat str_title)
                            (take 10 (found "task"))
          /\ length (fields e) = (10 `min` length (found "task"))%nat
          /\ footer e
             = if (10 <? length (found "task"))%nat
               then Some ("Showing first 10 of "
                          +:+ str_of_int (Z.of_nat (length (found "task")))
                          +:+ " matching tasks")
               else None
      end).
Proof.
  intros Hne found. destruct search_term as [| c term]; [congruence |].
  split.
  - unfold searchevent. fold (found "event").
    destruct (found "event") as [| ev rest]; [auto |].
    split; [discriminate |].
    apply (listing_shape (search_entry fromisoformat str_title)
                         (search_field fromisoformat str_title));
      reflexivity.
  - unfold searchtask. fold (found "task").
    destruct (found "task") as [| t rest]; [auto |].
    split; [discriminate |].
    apply (listing_shape (search_entry fromisoformat str_title)
                         (search_field fromisoformat str_title));
      reflexivity.
Qed.

End WithLibrary.

End CommandsFacts.

Section HelpersWitnesses.
Import Py Item Text Helpers HelpersFacts Commands CommandsFacts Scheduler Scenario.

Lemma time_until_due_bands_witness :
  (time_until_due_filter fromisoformat_plain sep7_13h "2025-09-07T14:00"
   = "overdue"
   <-> wall (mkdt 2025 9 7 14 0 0) < wall sep7_13h)
  /\ (time_until_due_filter fromisoformat_plain sep7_13h "2025-09-07T14:00"
      = "due-soon"
      <-> wall sep7_13h <= wall (mkdt 2025 9 7 14 0 0) < wall sep7_13h + days 2)
  /\ (time_until_due_filter fromisoformat_plain sep7_13h "2025-09-07T14:00"
      = "normal"
      <-> wall sep7_13h + days 2 <= wall (mkdt 2025 9 7 14 0 0)).
Proof.
  apply (time_until_due_bands fromisoformat_plain sep7_13h "2025-09-07T14:00"
           (mkdt 2025 9 7 14 0 0)).
  - discriminate.
  - discriminate.
  - vm_compute. reflexivity.
Defined.

Lemma format_datetime_filter_agrees_witness :
  format_datetime_filter fromisoformat_plain "2025-09-07T14:00"
  = Digest.format_time_12hour fromisoformat_plain "2025-09-07T14:00".
Proof.
  apply (format_datetime_filter_agrees fromisoformat_plain "2025-09-07T14:00"
           (mkdt 2025 9 7 14 0 0)).
  - discriminate.
  - discriminate.
  - reflexivity.
  - vm_compute. reflexivity.
Defined.

Lemma searches_first_10_witness :
  exists e,
    searchevent fromisoformat_plain lower_ascii title_ascii
                [meeting; review] (Some "MEET") = Rich e
    /\ fields e = [search_field fromisoformat_plain title_ascii meeting]
    /\ footer e = None.
Proof.
  pose proof (searches_first_10 fromisoformat_plain lower_ascii title_ascii
                [meeting; review] "MEET" ltac:(discriminate)) as [H _].
  destruct (searchevent fromisoformat_plain lower_ascii title_ascii
              [meeting; review] (Some "MEET")) as [t | e] eqn:E.
  - destruct H as [H _]. vm_compute in H. discriminate.
  - exists e. split; [reflexivity |].
    destruct H as (_ & Hf & _ & Hfoot). split; [exact Hf | exact Hfoot].
Defined.

End HelpersWitnesses.

(** ** [database.py] *)

Module DatabaseFacts.
Import Py Item Text Helpers HelpersFacts Database.

Lemma in_list_spec (x : string) (l : list string) :
  in_list x l = true <-> x ∈ l.
Proof.
  unfold in_list. rewrite existsb_exists. split.
  - intros (y & Hin & Heq). apply String.eqb_eq in Heq. subst y.
    apply list_elem_of_In. exact Hin.
  - intros Hin. exists x. split; [apply list_elem_of_In; exact Hin |].
    apply String.eqb_refl.
Qed.

Lemma is_in_text (x : option string) (l : list string) :
  is_in x l = true -> x = Some (text x) /\ text x ∈ l.
Proof.
  destruct x as [s |]; simpl; [| discriminate].
  intros H. apply in_list_spec in H. auto.
Qed.

Lemma is_true_text (x : option string) :
  is_true x = true -> x = Some (text x) /\ text x <> EmptyString.
Proof.
  destruct x as [[| c s] |]; simpl; try discriminate. auto.
Qed.

Lemma truthy_ne (s : string) : truthy s = true <-> s <> EmptyString.
Proof. destruct s; simpl; split; congruence. Qed.

Lemma or_else_ne (x : option string) (d : string) :
  d <> EmptyString -> or_else x d <> EmptyString.
Proof.
  intros Hd. destruct x as [[| c s] |]; simpl; congruence.
Qed.

Lemma or_else_Some (s d : string) :
  s <> EmptyString -> or_else (Some s) d = s.
Proof. destruct s; simpl; congruence. Qed.

Lemma or_else_Some_empty (s : string) : or_else (Some s) EmptyString = s.
Proof. destruct s; reflexivity. Qed.

(** A cut to one character or more leaves a text that is not empty not
    empty. *)
Lemma str_take_ne (n : nat) (s : string) :
  s <> EmptyString -> str_take (S n) s <> EmptyString.
Proof.
  destruct s as [| c s]; [congruence |]. intros _. simpl.
  destruct (is_continuation c); discriminate.
Qed.

(** No key is above [max_rowid]. *)
Lemma max_rowid_bound {A} (m : gmap Z A) :
  0 <= max_rowid m /\ forall k a, m !! k = Some a -> k <= max_rowid m.
Proof.
  unfold max_rowid.
  apply (map_fold_weak_ind
           (fun r (m : gmap Z A) =>
              0 <= r /\ forall k a, m !! k = Some a -> k <= r)).
  - split; [lia |]. intros k a H. rewrite lookup_empty in H. discriminate.
  - intros i x m' r _ [H0 Hle]. split; [lia |].
    intros k a Hk. destruct (decide (k = i)) as [-> | Hne]; [lia |].
    rewrite lookup_insert_ne in Hk by congruence.
    specialize (Hle k a Hk). lia.
Qed.

(** The key of a new row: positive, above every key of the table and
    above the largest it has held. *)
Lemma next_rowid_fresh {A} (m : gmap Z A) (seq k : Z) :
  next_rowid m seq = Some k ->
  0 < k <= MAX_ROWID /\ seq < k /\ m !! k = None.
Proof.
  unfold next_rowid. destruct (max_rowid_bound m) as [H0 Hle].
  destruct (Z.max seq (max_rowid m) <? MAX_ROWID) eqn:Htop; [| discriminate].
  apply Z.ltb_lt in Htop.
  intros [= <-]. split; [lia |]. split; [lia |].
  destruct (m !! (Z.max seq (max_rowid m) + 1)) as [a |] eqn:E; [| reflexivity].
  apply Hle in E. lia.
Qed.

(** Membership in a list written out. *)
Ltac in_literal :=
  repeat rewrite elem_of_cons; rewrite ?elem_of_nil; tauto.
Ltac in_literal_in H :=
  repeat rewrite elem_of_cons in H; rewrite ?elem_of_nil in H.

Lemma check_constraints_written (c : columns) :
  written c -> check_constraints c = true.
Proof.
  intros [Ht _ _ Hs _ Hr _ _ Hp _]. unfold check_constraints.
  repeat (apply andb_true_iff; split); apply in_list_spec.
  - destruct Ht as [-> | ->]; in_literal.
  - destruct Hs as [-> | ->]; in_literal.
  - destruct Hr as [-> | [-> | [-> | ->]]]; in_literal.
  - destruct Hp as [-> | [-> | ->]]; in_literal.
Qed.

(** The row [add_item_db] builds, once its three tests have passed. *)
Lemma added_row_written (current_timestamp : string)
    (item_type name due_date mention repeat_interval category notes priority
       color : option string) :
  is_in item_type ["task"; "event"] = true ->
  is_true name = true -> (str_len (text name) <= 100)%nat ->
  is_true due_date = true ->
  written
    {| c_type := text item_type; c_name := text name;
       c_due_date := text due_date; c_status := "pending";
       c_mention := str_take 50 (or_else mention EmptyString);
       c_repeat_interval :=
         if negb (is_in repeat_interval ["none"; "daily"; "weekly"; "monthly"])
         then "none" else text repeat_interval;
       c_category := str_take 30 (or_else category "Misc");
       c_notes := str_take 500 (or_else notes EmptyString);
       c_priority :=
         if negb (is_in priority ["Low"; "Medium"; "High"]) then "Medium"
         else text priority;
       c_color := str_take 20 (or_else color "#3399ff");
       c_created_at := current_timestamp;
       c_updated_at := current_timestamp |}.
Proof.
  intros Hty Hname Hlen Hdue.
  apply is_in_text in Hty as [_ Hty]. apply is_true_text in Hname as [_ Hname].
  apply is_true_text in Hdue as [_ Hdue].
  split; cbn [c_type c_name c_due_date c_status c_mention c_repeat_interval
              c_category c_notes c_priority c_color].
  - in_literal_in Hty. tauto.
  - auto.
  - exact Hdue.
  - auto.
  - apply str_len_take.
  - destruct (is_in repeat_interval _) eqn:E; cbn [negb]; [| auto].
    apply is_in_text in E as [_ E]. in_literal_in E. tauto.
  - split; [apply str_take_ne, or_else_ne; discriminate | apply str_len_take].
  - apply str_len_take.
  - destruct (is_in priority _) eqn:E; cbn [negb]; [| auto].
    apply is_in_text in E as [_ E]. in_literal_in E. tauto.
  - split; [apply str_take_ne, or_else_ne; discriminate | apply str_len_take].
Qed.

(** [add_item_db], read backwards from what it returns. *)
Lemma add_item_db_Returns (current_timestamp : string)
    (item_type name due_date mention repeat_interval category notes priority
       color : option string) (d d' : db) (k : Z) :
  add_item_db current_timestamp item_type name due_date mention
              repeat_interval category notes priority color d
  = (Returns k, d') ->
  exists c,
    written c
    /\ c_type c = text item_type /\ c_name c = text name
    /\ c_due_date c = text due_date /\ c_status c = "pending"
    /\ c_mention c = str_take 50 (or_else mention EmptyString)
    /\ c_category c = str_take 30 (or_else category "Misc")
    /\ c_notes c = str_take 500 (or_else notes EmptyString)
    /\ c_color c = str_take 20 (or_else color "#3399ff")
    /\ c_created_at c = current_timestamp
    /\ next_rowid (tasks d) (tasks_seq d) = Some k
    /\ d' = {| tasks := <[k := c]> (tasks d); tasks_seq := k;
               users := users d; users_seq := users_seq d |}.
Proof.
  unfold add_item_db.
  destruct (is_true item_type); cbn [negb orb]; [| discriminate].
  destruct (is_in item_type _) eqn:Hty; cbn [negb]; [| discriminate].
  destruct (is_true name) eqn:Hname; cbn [negb orb]; [| discriminate].
  destruct (100 <? str_len (text name))%nat eqn:Hlen; [discriminate |].
  destruct (is_true due_date) eqn:Hdue; cbn [negb]; [| discriminate].
  apply Nat.ltb_ge in Hlen.
  pose proof (added_row_written current_timestamp item_type name due_date
                mention repeat_interval category notes priority color
                Hty Hname Hlen Hdue) as Hw.
  unfold insert_task. rewrite (check_constraints_written _ Hw). cbn [negb].
  destruct (next_rowid (tasks d) (tasks_seq d)) as [k' |]; [| discriminate].
  intros [= <- <-]. eexists. split; [exact Hw |].
  repeat (split; [reflexivity |]). reflexivity.
Qed.

(** A positive [int] is bound exactly when it is a rowid. *)
Lemma fits_rowid (n : Z) : 0 < n -> fits n = (n <=? MAX_ROWID).
Proof.
  intros Hpos. unfold fits.
  replace (- MAX_ROWID - 1 <=? n) with true; [reflexivity |].
  symmetry. apply Z.leb_le. unfold MAX_ROWID. lia.
Qed.

Lemma fits_true (n : Z) : 0 < n <= MAX_ROWID -> fits n = true.
Proof. intros [Hpos Hmax]. rewrite fits_rowid by exact Hpos. apply Z.leb_le, Hmax. Qed.

Lemma fits_false (n : Z) : MAX_ROWID < n -> fits n = false.
Proof.
  intros Hmax. rewrite fits_rowid by (unfold MAX_ROWID in *; lia).
  apply Z.leb_gt, Hmax.
Qed.

Lemma get_item_lookup (item_id : Z) (d : db) :
  0 < item_id <= MAX_ROWID ->
  get_item item_id d = (fun c => (item_id, c)) <$> tasks d !! item_id.
Proof.
  intros Hid. unfold get_item, select_task.
  destruct (item_id <=? 0) eqn:E; [apply Z.leb_le in E; lia |].
  rewrite fits_true by exact Hid. cbn [negb].
  destruct (tasks d !! item_id); reflexivity.
Qed.

Lemma get_item_Some (item_id : Z) (d : db) (r : Z * columns) :
  get_item item_id d = Some r ->
  0 < item_id <= MAX_ROWID /\ r.1 = item_id /\ tasks d !! item_id = Some r.2.
Proof.
  unfold get_item, select_task. destruct (item_id <=? 0) eqn:E; [discriminate |].
  apply Z.leb_gt in E. rewrite fits_rowid by exact E.
  destruct (item_id <=? MAX_ROWID) eqn:Hmax; cbn [negb]; [| discriminate].
  apply Z.leb_le in Hmax.
  destruct (tasks d !! item_id) as [c |]; [| discriminate].
  intros [= <-]. auto.
Qed.

(** An id that is no rowid finds nothing: the query raises, and
    [get_item] answers [None]. *)
Lemma get_item_huge (item_id : Z) (d : db) :
  MAX_ROWID < item_id -> get_item item_id d = None.
Proof.
  intros Hmax. unfold get_item, select_task.
  destruct (item_id <=? 0); [reflexivity |].
  rewrite fits_false by exact Hmax. reflexivity.
Qed.

(** *** The whitelist of [update_item_db] *)

Lemma safe_fields_lookup (fields : gmap string value) (k : string) :
  safe_fields fields !! k
  = (v ← fields !! k;
     validate ← allowed_fields !! k;
     match validate v with
     | Left_out => None
     | validated_value => Some validated_value
     end).
Proof. unfold safe_fields. apply map_lookup_imap. Qed.

(** A [str] among the fields to write is what the validator of its column
    has made of the value given. *)
Lemma texts_lookup (fields : gmap string value) (k v : string)
    (validate : value -> validated) :
  allowed_fields !! k = Some validate ->
  texts (safe_fields fields) !! k = Some v ->
  exists x, fields !! k = Some x /\ validate x = Kept v.
Proof.
  intros Hallowed. unfold texts.
  rewrite lookup_omap, safe_fields_lookup, Hallowed.
  destruct (fields !! k) as [x |]; [| discriminate].
  intros H. exists x. split; [reflexivity |]. cbn in H.
  destruct (validate x); cbn in H; congruence.
Qed.

Lemma one_of_Kept (l : list string) (x : value) (v : string) :
  one_of l x = Kept v -> v ∈ l.
Proof.
  destruct x as [| s | | | |]; simpl; try discriminate.
  destruct (in_list s l) eqn:E; [| discriminate].
  intros [= <-]. apply in_list_spec. exact E.
Qed.

Lemma cut_Kept (n : nat) (x : value) (v : string) :
  falsy x = false -> cut (S n) x = Kept v ->
  v <> EmptyString /\ (str_len v <= S n)%nat
  /\ exists s, x = VStr s /\ s <> EmptyString /\ v = str_take (S n) s.
Proof.
  destruct x as [| s | | | |]; cbn [cut falsy]; try discriminate.
  intros Hs [= <-]. apply negb_false_iff, truthy_ne in Hs.
  split; [apply str_take_ne, Hs |]. split; [apply str_len_take |]. eauto.
Qed.

Lemma or_cut_Kept (default_ : string) (n : nat) (x : value) (v : string) :
  or_cut default_ (S n) x = Kept v ->
  (str_len v <= S n)%nat /\ (default_ <> EmptyString -> v <> EmptyString).
Proof.
  unfold or_cut. destruct (falsy x) eqn:Hx.
  - intros [= <-]. split; [apply str_len_take |]. apply str_take_ne.
  - intros H. apply cut_Kept in H as (Hne & Hlen & _); auto.
Qed.

Lemma safe_type fields v :
  texts (safe_fields fields) !! "type" = Some v -> v = "task" \/ v = "event".
Proof.
  intros H. apply (texts_lookup fields "type" v (one_of ["task"; "event"]) eq_refl) in H
    as (x & _ & H).
  apply one_of_Kept in H. in_literal_in H. tauto.
Qed.

Lemma safe_status fields v :
  texts (safe_fields fields) !! "status" = Some v ->
  v = "pending" \/ v = "completed".
Proof.
  intros H.
  apply (texts_lookup fields "status" v (one_of ["pending"; "completed"]) eq_refl) in H
    as (x & _ & H).
  apply one_of_Kept in H. in_literal_in H. tauto.
Qed.

Lemma safe_repeat_interval fields v :
  texts (safe_fields fields) !! "repeat_interval" = Some v ->
  v = "none" \/ v = "daily" \/ v = "weekly" \/ v = "monthly".
Proof.
  intros H.
  apply (texts_lookup fields "repeat_interval" v (one_of ["none"; "daily"; "weekly"; "monthly"])
                      eq_refl) in H as (x & _ & H).
  apply one_of_Kept in H. in_literal_in H. tauto.
Qed.

Lemma safe_priority fields v :
  texts (safe_fields fields) !! "priority" = Some v ->
  v = "Low" \/ v = "Medium" \/ v = "High".
Proof.
  intros H.
  apply (texts_lookup fields "priority" v (one_of ["Low"; "Medium"; "High"]) eq_refl) in H
    as (x & _ & H).
  apply one_of_Kept in H. in_literal_in H. tauto.
Qed.

Lemma safe_name fields v :
  texts (safe_fields fields) !! "name" = Some v ->
  v <> EmptyString /\ (str_len v <= 100)%nat.
Proof.
  intros H.
  eapply (texts_lookup fields "name" v _ eq_refl) in H as (x & _ & H).
  cbn [snd] in H. cbn beta in H.
  destruct (falsy x) eqn:Hx; [discriminate |].
  destruct (len x) as [n |]; [| discriminate].
  destruct (n <=? 100)%nat; [| discriminate].
  apply cut_Kept in H as (Hne & Hlen & _); auto.
Qed.

Lemma safe_due_date fields v :
  texts (safe_fields fields) !! "due_date" = Some v -> v <> EmptyString.
Proof.
  intros H.
  eapply (texts_lookup fields "due_date" v _ eq_refl) in H as (x & _ & H).
  cbn [snd] in H. cbn beta in H.
  destruct (falsy x) eqn:Hx; [discriminate |].
  apply cut_Kept in H as (Hne & _); auto.
Qed.

Lemma safe_mention fields v :
  texts (safe_fields fields) !! "mention" = Some v -> (str_len v <= 50)%nat.
Proof.
  intros H.
  apply (texts_lookup fields "mention" v (or_cut EmptyString 50) eq_refl) in H
    as (x & _ & H).
  apply or_cut_Kept in H. tauto.
Qed.

Lemma safe_notes fields v :
  texts (safe_fields fields) !! "notes" = Some v -> (str_len v <= 500)%nat.
Proof.
  intros H.
  apply (texts_lookup fields "notes" v (or_cut EmptyString 500) eq_refl) in H
    as (x & _ & H).
  apply or_cut_Kept in H. tauto.
Qed.

Lemma safe_category fields v :
  texts (safe_fields fields) !! "category" = Some v ->
  v <> EmptyString /\ (str_len v <= 30)%nat.
Proof.
  intros H.
  apply (texts_lookup fields "category" v (or_cut "Misc" 30) eq_refl) in H as (x & _ & H).
  apply or_cut_Kept in H as [Hlen Hne]. split; [apply Hne; discriminate | exact Hlen].
Qed.

Lemma safe_color fields v :
  texts (safe_fields fields) !! "color" = Some v ->
  v <> EmptyString /\ (str_len v <= 20)%nat.
Proof.
  intros H.
  apply (texts_lookup fields "color" v (or_cut "#3399ff" 20) eq_refl) in H as (x & _ & H).
  apply or_cut_Kept in H as [Hlen Hne]. split; [apply Hne; discriminate | exact Hlen].
Qed.

(** A column not among the ten of the whitelist is left out. *)
Lemma safe_fields_unknown fields (k : string) :
  k ∉ ["type"; "name"; "due_date"; "status"; "mention"; "repeat_interval";
       "category"; "notes"; "priority"; "color"] ->
  safe_fields fields !! k = None.
Proof.
  intros Hk. rewrite safe_fields_lookup.
  destruct (fields !! k) as [x |]; [| reflexivity].
  assert (Hnone : allowed_fields !! k = None).
  { apply not_elem_of_list_to_map_1. exact Hk. }
  cbn [mbind option_bind]. rewrite Hnone. reflexivity.
Qed.

(** The [SET] clauses of [update_item_db] leave a row as the writes leave
    it. *)
Lemma set_fields_written fields (current_timestamp : string) (c : columns) :
  written c ->
  written (set_fields (texts (safe_fields fields)) current_timestamp c).
Proof.
  intros [Ht Hn Hd Hs Hm Hr Hc Ho Hp Hcol].
  split; cbn [set_fields c_type c_name c_due_date c_status c_mention
              c_repeat_interval c_category c_notes c_priority c_color].
  - destruct (texts (safe_fields fields) !! "type") eqn:E; cbn [default];
      [eapply safe_type; exact E | exact Ht].
  - destruct (texts (safe_fields fields) !! "name") eqn:E; cbn [default];
      [eapply safe_name; exact E | exact Hn].
  - destruct (texts (safe_fields fields) !! "due_date") eqn:E; cbn [default];
      [eapply safe_due_date; exact E | exact Hd].
  - destruct (texts (safe_fields fields) !! "status") eqn:E; cbn [default];
      [eapply safe_status; exact E | exact Hs].
  - destruct (texts (safe_fields fields) !! "mention") eqn:E; cbn [default];
      [eapply safe_mention; exact E | exact Hm].
  - destruct (texts (safe_fields fields) !! "repeat_interval") eqn:E;
      cbn [default]; [eapply safe_repeat_interval; exact E | exact Hr].
  - destruct (texts (safe_fields fields) !! "category") eqn:E; cbn [default];
      [eapply safe_category; exact E | exact Hc].
  - destruct (texts (safe_fields fields) !! "notes") eqn:E; cbn [default];
      [eapply safe_notes; exact E | exact Ho].
  - destruct (texts (safe_fields fields) !! "priority") eqn:E; cbn [default];
      [eapply safe_priority; exact E | exact Hp].
  - destruct (texts (safe_fields fields) !! "color") eqn:E; cbn [default];
      [eapply safe_color; exact E | exact Hcol].
Qed.

Lemma set_status_written (status current_timestamp : string) (c : columns) :
  in_list status ["pending"; "completed"] = true ->
  written c -> written (set_status status current_timestamp c).
Proof.
  intros Hst [Ht Hn Hd Hs Hm Hr Hc Ho Hp Hcol].
  apply in_list_spec in Hst. in_literal_in Hst.
  split; cbn [set_status c_type c_name c_due_date c_status c_mention
              c_repeat_interval c_category c_notes c_priority c_color];
    try assumption; tauto.
Qed.

(** *** [add_item_db] *)

(** A row [add_item_db] has added is found under the id returned, with the
    type, name and due date given and the status [pending]; the id is
    positive, was free and is above every id the table has held; every
    other row and the users are as before. *)
Theorem add_item_db_stores (current_timestamp : string)
    (item_type name due_date mention repeat_interval category notes priority
       color : option string) (d d' : db) (k : Z) :
  add_item_db current_timestamp item_type name due_date mention
              repeat_interval category notes priority color d
  = (Returns k, d') ->
  0 < k /\ tasks_seq d < k /\ tasks d !! k = None
  /\ (exists c,
        get_item k d' = Some (k, c)
        /\ c_type c = text item_type /\ c_name c = text name
        /\ c_due_date c = text due_date /\ c_status c = "pending"
        /\ c_created_at c = current_timestamp)
  /\ (forall j, j <> k -> get_item j d' = get_item j d)
  /\ tasks_seq d' = k /\ users d' = users d.
Proof.
  intros H. apply add_item_db_Returns in H
    as (c & Hw & Hty & Hname & Hdue & Hst & _ & _ & _ & _ & Hcr & Hk & ->).
  destruct (next_rowid_fresh _ _ _ Hk) as (Hpos & Hseq & Hfree).
  split; [lia |].
  repeat (split; [assumption |]). split; [| split; [| split; reflexivity]].
  - exists c. rewrite get_item_lookup by exact Hpos. cbn [tasks].
    rewrite lookup_insert_eq. repeat (split; [assumption || reflexivity |]).
    exact Hcr.
  - intros j Hj. unfold get_item, select_task. cbn [tasks].
    rewrite lookup_insert_ne by congruence. reflexivity.
Qed.


(** *** [update_item_status], [update_item_db], [delete_item] *)

(** What [update_item_status] answers on a database the program has made.
    It returns exactly when the id is a rowid (positive, of 64 bits), the
    status is [pending] or [completed] and a row has the id; that row then
    has the new status and the new [updated_at] and nothing else has
    changed.  It raises [ValueError] for an id that is not positive, for
    another status, and for a rowid that no row has, and [OverflowError]
    for a positive id that is no rowid when the status is accepted; each
    time the database is as before.  It raises nothing else. *)
Theorem update_item_status_answers (current_timestamp : string) (item_id : Z)
    (status : string) (d : db) :
  consistent d ->
  match update_item_status current_timestamp item_id status d with
  | (Returns _, d') =>
      exists c,
        get_item item_id d = Some (item_id, c)
        /\ 0 < item_id <= MAX_ROWID
        /\ (status = "pending" \/ status = "completed")
        /\ d' = {| tasks := <[item_id := set_status status current_timestamp c]>
                              (tasks d);
                   tasks_seq := tasks_seq d;
                   users := users d; users_seq := users_seq d |}
  | (Raises (ValueError msg), d') =>
      d' = d
      /\ (item_id <= 0 /\ msg = "Invalid item ID"
          \/ 0 < item_id /\ in_list status ["pending"; "completed"] = false
             /\ msg = "Invalid status"
          \/ 0 < item_id <= MAX_ROWID
             /\ in_list status ["pending"; "completed"] = true
             /\ get_item item_id d = None
             /\ msg = "No item found with ID " +:+ str_of_int item_id)
  | (Raises OverflowError, d') =>
      d' = d /\ MAX_ROWID < item_id
      /\ in_list status ["pending"; "completed"] = true
  | (Raises _, _) => False
  end.
Proof.
  intros Hd. unfold update_item_status.
  destruct (item_id <=? 0) eqn:Hid.
  { apply Z.leb_le in Hid. auto. }
  apply Z.leb_gt in Hid.
  destruct (in_list status _) eqn:Hst; cbn [negb]; [| auto 10].
  unfold update_task. rewrite fits_rowid by exact Hid.
  destruct (item_id <=? MAX_ROWID) eqn:Hmax; cbn [negb].
  2:{ apply Z.leb_gt in Hmax. auto. }
  apply Z.leb_le in Hmax.
  rewrite get_item_lookup by (split; assumption).
  destruct (tasks d !! item_id) as [c |] eqn:Hrow;
    cbn [fmap option_fmap option_map].
  - destruct (Hd _ _ Hrow) as [_ Hw].
    rewrite (check_constraints_written _
               (set_status_written status current_timestamp c Hst Hw)).
    cbn [negb Z.eqb]. exists c. split; [reflexivity |].
    split; [split; assumption |]. split; [| reflexivity].
    apply in_list_spec in Hst. in_literal_in Hst. tauto.
  - cbn [Z.eqb]. split; [reflexivity |]. right. right. auto.
Qed.




(** What [delete_item] answers.  For an id that is not positive it raises
    [ValueError], and for a positive id that is no rowid [OverflowError];
    the database is as before.  For a rowid it returns whether a row had
    the id; afterwards none has it, the other rows are as before, and the
    largest id the table has held is kept. *)
Theorem delete_item_answers (item_id : Z) (d : db) :
  (item_id <= 0 ->
   delete_item item_id d = (Raises (ValueError "Invalid item ID"), d))
  /\ (MAX_ROWID < item_id ->
      delete_item item_id d = (Raises OverflowError, d))
  /\ (0 < item_id <= MAX_ROWID ->
      exists d',
        delete_item item_id d
        = (Returns (bool_decide (is_Some (get_item item_id d))), d')
        /\ get_item item_id d' = None
        /\ (forall j, j <> item_id -> get_item j d' = get_item j d)
        /\ tasks_seq d' = tasks_seq d /\ users d' = users d).
Proof.
  unfold delete_item, delete_task. split; [| split].
  - intros Hid. apply Z.leb_le in Hid. rewrite Hid. reflexivity.
  - intros Hmax.
    destruct (item_id <=? 0) eqn:E;
      [apply Z.leb_le in E; unfold MAX_ROWID in Hmax; lia |].
    rewrite fits_false by exact Hmax. reflexivity.
  - intros Hid.
    destruct (item_id <=? 0) eqn:E; [apply Z.leb_le in E; lia |]. clear E.
    rewrite fits_true by exact Hid. cbn [negb].
    rewrite (get_item_lookup item_id d) by exact Hid.
    destruct (tasks d !! item_id) as [c |] eqn:Hrow;
      cbn [fmap option_fmap option_map].
    + eexists. split; [reflexivity |]. split; [| split; [| split; reflexivity]].
      * rewrite get_item_lookup by exact Hid. cbn [tasks].
        rewrite lookup_delete_eq. reflexivity.
      * intros j Hj. unfold get_item, select_task. cbn [tasks].
        rewrite lookup_delete_ne by congruence. reflexivity.
    + exists d. split; [reflexivity |]. split; [| auto].
      rewrite get_item_lookup by exact Hid. rewrite Hrow. reflexivity.
Qed.

(** *** The users *)

Lemma select_user_Some (username : string) (d : db) (r : Z * user) :
  select_user username d = Some r ->
  users d !! r.1 = Some r.2 /\ u_username r.2 = username.
Proof.
  unfold select_user. intros H. apply head_Some_elem_of in H.
  apply list_elem_of_filter in H as [Hname Hin].
  apply elem_of_map_to_list' in Hin. auto.
Qed.

Lemma select_user_None (username : string) (d : db) :
  select_user username d = None <->
  forall k u, users d !! k = Some u -> u_username u <> username.
Proof.
  unfold select_user. rewrite head_None. split.
  - intros Hnil k u Hk Hname.
    assert (Hin : (k, u) ∈ filter (fun r : Z * user => u_username r.2 = username)
                                  (map_to_list (users d))).
    { apply list_elem_of_filter. split; [exact Hname |].
      apply elem_of_map_to_list. exact Hk. }
    rewrite Hnil in Hin. apply elem_of_nil in Hin. exact Hin.
  - intros Hnone.
    destruct (filter _ (map_to_list (users d))) as [| r l] eqn:E; [reflexivity |].
    assert (Hin : r ∈ filter (fun r : Z * user => u_username r.2 = username)
                             (map_to_list (users d)))
      by (rewrite E; apply elem_of_cons; auto).
    apply list_elem_of_filter in Hin as [Hname Hin].
    apply elem_of_map_to_list' in Hin. exfalso. exact (Hnone _ _ Hin Hname).
Qed.

(** With usernames unique, the row of a username is the one found. *)
Lemma select_user_unique (d : db) (k : Z) (u : user) :
  users_unique d -> users d !! k = Some u ->
  select_user (u_username u) d = Some (k, u).
Proof.
  intros Huniq Hk.
  destruct (select_user (u_username u) d) as [r |] eqn:E.
  - apply select_user_Some in E as [Hr Hname]. destruct r as [k' u'].
    simpl in Hr, Hname.
    assert (k' = k) by (eapply Huniq; eauto). subst k'.
    rewrite Hk in Hr. congruence.
  - exfalso. eapply select_user_None in E; [| exact Hk]. congruence.
Qed.

Lemma insert_user_unique (u : user) (d d' : db) (k : Z) :
  users_unique d -> insert_user u d = (Returns k, d') ->
  users_unique d' /\ users d' = <[k := u]> (users d) /\ users d !! k = None
  /\ tasks d' = tasks d /\ tasks_seq d' = tasks_seq d.
Proof.
  intros Huniq. unfold insert_user.
  destruct (select_user (u_username u) d) eqn:Hsel; [discriminate |].
  destruct (next_rowid (users d) (users_seq d)) as [k' |] eqn:Hk;
    [| discriminate].
  intros [= <- <-]. destruct (next_rowid_fresh _ _ _ Hk) as (_ & _ & Hfree).
  split; [| auto]. intros k1 k2 u1 u2. cbn [users].
  assert (Hfresh : forall j v, users d !! j = Some v ->
                               u_username v <> u_username u)
    by (apply select_user_None; exact Hsel).
  destruct (decide (k1 = k')) as [-> | H1], (decide (k2 = k')) as [-> | H2];
    rewrite ?lookup_insert_eq, ?lookup_insert_ne by congruence.
  - reflexivity.
  - intros [= <-] H2' Heq. exfalso. eapply Hfresh; eauto.
  - intros H1' [= <-] Heq. exfalso. eapply Hfresh; eauto.
  - apply Huniq.
Qed.

(** What [add_user] answers.  When it returns, the username was not
    there, it is there afterwards with the hash made of the password, one
    user has been added and no username is held twice.  It raises
    "Username already exists" exactly when the three tests pass and the
    username is there; whenever it raises, the database is as before. *)
Theorem add_user_answers (current_timestamp password_hash : string)
    (username password : string) (d : db) :
  users_unique d ->
  let accepted :=
    username <> EmptyString /\ password <> EmptyString
    /\ (str_len username <= 50)%nat /\ (6 <= str_len password)%nat in
  match add_user current_timestamp password_hash username password d with
  | (Returns _, d') =>
      accepted
      /\ fetch_user username d = None
      /\ (exists k, fetch_user username d'
                    = Some (k, User username password_hash current_timestamp))
      /\ (forall other, other <> username ->
                        fetch_user other d' = fetch_user other d)
      /\ get_user_count d' = S (get_user_count d)
      /\ users_unique d' /\ tasks d' = tasks d
  | (Raises (ValueError msg), d') =>
      d' = d
      /\ (msg = "Username already exists"
          <-> accepted /\ is_Some (fetch_user username d))
  | (Raises IntegrityError, d') => False
  | (Raises OperationalError, d') => d' = d /\ accepted
  | (Raises _, d') => False
  end.
Proof.
  intros Huniq accepted. subst accepted. unfold add_user.
  destruct (truthy username) eqn:Hu; cbn [negb orb].
  2:{ split; [reflexivity |]. apply not_true_iff_false in Hu.
      rewrite truthy_ne in Hu.
      split; [discriminate | intros [(? & _) _]; tauto]. }
  destruct (truthy password) eqn:Hp; cbn [negb].
  2:{ split; [reflexivity |]. apply not_true_iff_false in Hp.
      rewrite truthy_ne in Hp.
      split; [discriminate | intros [(_ & ? & _) _]; tauto]. }
  apply truthy_ne in Hu, Hp.
  destruct (50 <? str_len username)%nat eqn:Hlen.
  { apply Nat.ltb_lt in Hlen. split; [reflexivity |].
    split; [discriminate | intros [(_ & _ & ? & _) _]; lia]. }
  apply Nat.ltb_ge in Hlen.
  destruct (str_len password <? 6)%nat eqn:Hpw.
  { apply Nat.ltb_lt in Hpw. split; [reflexivity |].
    split; [discriminate | intros [(_ & _ & _ & ?) _]; lia]. }
  apply Nat.ltb_ge in Hpw.
  assert (Hfetch : forall x, fetch_user username x = select_user username x).
  { intros x. unfold fetch_user.
    destruct username; [congruence |]. cbn [truthy negb orb].
    apply Nat.ltb_ge in Hlen. rewrite Hlen. reflexivity. }
  destruct (insert_user (User username password_hash current_timestamp) d)
    as [[k | e] d'] eqn:Hins.
  - apply insert_user_unique in Hins
      as (Huniq' & Husers & Hfree & Htasks & _); [| exact Huniq].
    split; [auto |]. rewrite !Hfetch.
    assert (Hnone : select_user username d = None).
    { destruct (select_user username d) as [r |] eqn:E; [| reflexivity].
      exfalso. apply select_user_Some in E as [Hr Hname].
      destruct r as [k0 u0]. simpl in Hr, Hname.
      assert (Hnew : users d' !! k = Some (User username password_hash
                                                current_timestamp))
        by (rewrite Husers; apply lookup_insert_eq).
      assert (Hold : users d' !! k0 = Some u0).
      { rewrite Husers, lookup_insert_ne; [exact Hr | congruence]. }
      assert (k0 = k) by (eapply Huniq'; eauto). congruence. }
    split; [exact Hnone |]. split; [| split; [| split; [| auto]]].
    + exists k.
      apply (select_user_unique d' k
               (User username password_hash current_timestamp) Huniq').
      rewrite Husers. apply lookup_insert_eq.
    + intros other Hother. unfold fetch_user.
      destruct (negb (truthy other) || (50 <? str_len other)%nat);
        [reflexivity |].
      destruct (select_user other d) as [r |] eqn:E.
      * apply select_user_Some in E as [Hr Hname]. destruct r as [k0 u0].
        simpl in Hr, Hname. subst other.
        apply (select_user_unique d' k0 u0 Huniq').
        rewrite Husers, lookup_insert_ne; [exact Hr | congruence].
      * apply select_user_None. intros k0 u0 Hk0.
        rewrite Husers in Hk0.
        destruct (decide (k0 = k)) as [-> | Hne].
        -- rewrite lookup_insert_eq in Hk0. injection Hk0 as <-. simpl.
           congruence.
        -- rewrite lookup_insert_ne in Hk0 by congruence.
           eapply select_user_None in E; eauto.
    + unfold get_user_count. rewrite Husers.
      apply map_size_insert_None. exact Hfree.
  - unfold insert_user in Hins. cbn [u_username] in Hins.
    destruct (select_user username d) as [r |] eqn:Hsel.
    + injection Hins as <- <-. split; [reflexivity |].
      split; [intros _ | reflexivity]. rewrite Hfetch, Hsel. eauto.
    + destruct (next_rowid (users d) (users_seq d)); [discriminate |].
      injection Hins as <- <-. auto.
Qed.

(** *** What every write keeps *)

(** A call changes the database in one way or not at all. *)
Lemma add_user_inv (current_timestamp password_hash username password : string)
    (d : db) :
  let d' := (add_user current_timestamp password_hash username password d).2 in
  d' = d
  \/ exists k,
       insert_user (User username password_hash current_timestamp) d
       = (Returns k, d').
Proof.
  unfold add_user.
  repeat match goal with
         | |- context [if ?b then _ else _] => destruct b; [left; reflexivity |]
         end.
  destruct (insert_user _ d) as [[k | e] d'] eqn:E.
  - right. exists k. reflexivity.
  - left. unfold insert_user in E.
    destruct (select_user _ d); [injection E as <- <-; reflexivity |].
    destruct (next_rowid _ _); [discriminate |].
    injection E as <- <-. reflexivity.
Qed.

Lemma add_item_db_inv (current_timestamp : string)
    (item_type name due_date mention repeat_interval category notes priority
       color : option string) (d : db) :
  let r := add_item_db current_timestamp item_type name due_date mention
                       repeat_interval category notes priority color d in
  r.2 = d \/ exists k, r = (Returns k, r.2).
Proof.
  cbn zeta.
  destruct (add_item_db current_timestamp item_type name due_date mention
              repeat_interval category notes priority color d)
    as [[k | e] d'] eqn:E; [right; exists k; reflexivity |].
  left. cbn [snd]. unfold add_item_db in E.
  repeat match type of E with
         | (if ?b then _ else _) = _ => destruct b; [congruence |]
         end.
  cbv zeta in E. unfold insert_task in E.
  destruct (negb (check_constraints _)); [congruence |].
  destruct (next_rowid _ _); congruence.
Qed.

Lemma update_item_status_inv (current_timestamp : string) (item_id : Z)
    (status : string) (d : db) :
  let d' := (update_item_status current_timestamp item_id status d).2 in
  d' = d
  \/ exists c,
       tasks d !! item_id = Some c
       /\ in_list status ["pending"; "completed"] = true
       /\ d' = {| tasks := <[item_id := set_status status current_timestamp c]>
                             (tasks d);
                  tasks_seq := tasks_seq d;
                  users := users d; users_seq := users_seq d |}.
Proof.
  unfold update_item_status, update_task.
  destruct (item_id <=? 0); [left; reflexivity |].
  destruct (in_list status _) eqn:Hst; cbn [negb]; [| left; reflexivity].
  destruct (fits item_id); cbn [negb]; [| left; reflexivity].
  destruct (tasks d !! item_id) as [c |] eqn:Hrow; [| left; reflexivity].
  destruct (check_constraints _); cbn [negb]; [| left; reflexivity].
  right. exists c. auto.
Qed.

Lemma update_item_db_inv (current_timestamp : string) (item_id : Z)
    (fields : gmap string value) (d : db) :
  let d' := (update_item_db current_timestamp item_id fields d).2 in
  d' = d
  \/ exists c,
       tasks d !! item_id = Some c
       /\ d' = {| tasks :=
                    <[item_id := set_fields (texts (safe_fields fields))
                                            current_timestamp c]> (tasks d);
                  tasks_seq := tasks_seq d;
                  users := users d; users_seq := users_seq d |}.
Proof.
  unfold update_item_db, update_task.
  destruct (item_id <=? 0); [left; reflexivity |].
  destruct (decide (fields = ∅)); [left; reflexivity |].
  destruct (decide (has Failed (safe_fields fields))); [left; reflexivity |].
  destruct (decide (safe_fields fields = ∅)); [left; reflexivity |].
  destruct (decide (has Unbound (safe_fields fields))); [left; reflexivity |].
  destruct (fits item_id); cbn [negb]; [| left; reflexivity].
  destruct (tasks d !! item_id) as [c |] eqn:Hrow; [| left; reflexivity].
  destruct (check_constraints _); cbn [negb]; [| left; reflexivity].
  right. exists c. auto.
Qed.

Lemma delete_task_keeps (item_id : Z) (d : db) :
  consistent d -> users_unique d ->
  consistent (delete_task item_id d).2 /\ users_unique (delete_task item_id d).2
  /\ tasks_seq d <= tasks_seq (delete_task item_id d).2.
Proof.
  intros Hd Hu. unfold delete_task.
  destruct (fits item_id); cbn [negb snd];
    [| split; [exact Hd | split; [exact Hu | lia]]].
  destruct (tasks d !! item_id) eqn:Hrow; cbn [snd];
    [| split; [exact Hd | split; [exact Hu | lia]]].
  split; [| split; [exact Hu | cbn [tasks_seq]; lia]].
  intros j c'. cbn [tasks tasks_seq]. intros Hj.
  apply lookup_delete_Some in Hj as [_ Hj]. exact (Hd _ _ Hj).
Qed.

(** A row replaced by one as the writes leave it. *)
Lemma replace_row_keeps (d : db) (item_id : Z) (c c' : columns) :
  consistent d -> tasks d !! item_id = Some c -> written c' ->
  consistent {| tasks := <[item_id := c']> (tasks d);
                tasks_seq := tasks_seq d;
                users := users d; users_seq := users_seq d |}.
Proof.
  intros Hd Hrow Hw j cj. cbn [tasks tasks_seq].
  destruct (decide (j = item_id)) as [-> | Hne].
  - rewrite lookup_insert_eq. intros [= <-].
    destruct (Hd _ _ Hrow). auto.
  - rewrite lookup_insert_ne by congruence. apply Hd.
Qed.

Lemma perform_keeps (d : db) (w : write) :
  consistent d -> users_unique d ->
  consistent (perform d w) /\ users_unique (perform d w)
  /\ tasks_seq d <= tasks_seq (perform d w).
Proof.
  intros Hd Hu.
  assert (Hsame : consistent d /\ users_unique d /\ tasks_seq d <= tasks_seq d)
    by (split; [exact Hd | split; [exact Hu | lia]]).
  destruct w as [ts h u p | ts ty nm due men rep cat notes pri col
                 | ts item_id status | ts item_id fields | item_id | event_id];
    cbn [perform].
  - destruct (add_user_inv ts h u p d) as [-> | [k Hins]]; [exact Hsame |].
    apply insert_user_unique in Hins as (Hu' & _ & _ & Htasks & Hseq);
      [| exact Hu].
    split; [| split; [exact Hu' | lia]].
    intros k0 c Hk0. rewrite Htasks in Hk0. rewrite Hseq. exact (Hd _ _ Hk0).
  - destruct (add_item_db_inv ts ty nm due men rep cat notes pri col d)
      as [-> | [k E]]; [exact Hsame |].
    apply add_item_db_Returns in E
      as (c & Hw & _ & _ & _ & _ & _ & _ & _ & _ & _ & Hk & ->).
    destruct (next_rowid_fresh _ _ _ Hk) as (Hpos & Hseq & Hfree).
    split; [| split; [exact Hu | cbn [tasks_seq]; lia]].
    intros j c'. cbn [tasks tasks_seq].
    destruct (decide (j = k)) as [-> | Hne].
    + rewrite lookup_insert_eq. intros [= <-]. split; [lia | exact Hw].
    + rewrite lookup_insert_ne by congruence. intros Hj.
      destruct (Hd _ _ Hj). split; [lia | assumption].
  - destruct (update_item_status_inv ts item_id status d)
      as [-> | (c & Hrow & Hst & ->)]; [exact Hsame |].
    split; [| split; [exact Hu | cbn [tasks_seq]; lia]].
    eapply replace_row_keeps; [exact Hd | exact Hrow |].
    apply set_status_written; [exact Hst |]. apply (Hd _ _ Hrow).
  - destruct (update_item_db_inv ts item_id fields d)
      as [-> | (c & Hrow & ->)]; [exact Hsame |].
    split; [| split; [exact Hu | cbn [tasks_seq]; lia]].
    eapply replace_row_keeps; [exact Hd | exact Hrow |].
    apply set_fields_written. apply (Hd _ _ Hrow).
  - unfold delete_item. destruct (item_id <=? 0); [exact Hsame |].
    pose proof (delete_task_keeps item_id d Hd Hu) as H.
    destruct (delete_task item_id d) as [[n | e] d']; exact H.
  - apply delete_task_keeps; assumption.
Qed.

Lemma perform_all_keeps (ws : list write) (d : db) :
  consistent d -> users_unique d ->
  consistent (perform_all ws d) /\ users_unique (perform_all ws d)
  /\ tasks_seq d <= tasks_seq (perform_all ws d).
Proof.
  revert d. induction ws as [| w ws IH]; intros d Hd Hu; simpl.
  - split; [exact Hd | split; [exact Hu | lia]].
  - destruct (perform_keeps d w Hd Hu) as (Hd' & Hu' & Hseq).
    destruct (IH _ Hd' Hu') as (Hd'' & Hu'' & Hseq').
    unfold perform_all in *. split; [exact Hd'' | split; [exact Hu'' | lia]].
Qed.

Lemma empty_db_consistent : consistent empty_db /\ users_unique empty_db.
Proof.
  split.
  - intros k c H. cbn in H. rewrite lookup_empty in H. discriminate.
  - intros k1 k2 u1 u2 H. cbn in H. rewrite lookup_empty in H. discriminate.
Qed.

(** Whatever the program writes, and in whatever order, starting from the
    empty tables: every row of [tasks] satisfies the [CHECK] constraints,
    has a name, a due date, a category and a colour that are not empty,
    its texts are within the lengths the program cuts them to, its id is
    positive, and no username is held twice. *)
Theorem writes_keep_rows_valid (ws : list write) :
  let d := perform_all ws empty_db in
  users_unique d
  /\ forall k c,
       tasks d !! k = Some c ->
       0 < k <= tasks_seq d /\ written c /\ check_constraints c = true
       /\ k <= MAX_ROWID.
Proof.
  destruct empty_db_consistent as [Hd Hu].
  destruct (perform_all_keeps ws empty_db Hd Hu) as (Hd' & Hu' & _).
  split; [exact Hu' |]. intros k c Hk. destruct (Hd' _ _ Hk) as [[Hr Hmax] Hw].
  split; [exact Hr |]. split; [exact Hw |].
  split; [apply check_constraints_written, Hw | exact Hmax].
Qed.

Lemma perform_seq_mono (d : db) (w : write) :
  tasks_seq d <= tasks_seq (perform d w).
Proof.
  destruct w as [ts h u p | ts ty nm due men rep cat notes pri col
                 | ts item_id status | ts item_id fields | item_id | event_id];
    cbn [perform].
  - destruct (add_user_inv ts h u p d) as [-> | [k Hins]]; [lia |].
    unfold insert_user in Hins.
    destruct (select_user _ d); [discriminate |].
    destruct (next_rowid _ _); [| discriminate].
    injection Hins as _ Hins. rewrite <- Hins. cbn [tasks_seq]. lia.
  - destruct (add_item_db_inv ts ty nm due men rep cat notes pri col d)
      as [-> | [k E]]; [lia |].
    apply add_item_db_Returns in E
      as (c & _ & _ & _ & _ & _ & _ & _ & _ & _ & _ & Hk & ->).
    apply next_rowid_fresh in Hk. cbn [tasks_seq]. lia.
  - destruct (update_item_status_inv ts item_id status d)
      as [-> | (c & _ & _ & ->)]; cbn [tasks_seq]; lia.
  - destruct (update_item_db_inv ts item_id fields d)
      as [-> | (c & _ & ->)]; cbn [tasks_seq]; lia.
  - unfold delete_item, delete_task. destruct (item_id <=? 0); [cbn; lia |].
    destruct (fits item_id); cbn [negb]; [| cbn; lia].
    destruct (tasks d !! item_id); cbn; lia.
  - unfold delete_task. destruct (fits event_id); cbn [negb]; [| cbn; lia].
    destruct (tasks d !! event_id); cbn; lia.
Qed.

Lemma perform_all_seq_mono (ws : list write) (d : db) :
  tasks_seq d <= tasks_seq (perform_all ws d).
Proof.
  revert d. induction ws as [| w ws IH]; intros d; simpl; [lia |].
  pose proof (perform_seq_mono d w). specialize (IH (perform d w)).
  unfold perform_all in *. lia.
Qed.

(** An id is given once: of two rows added one after the other, whatever
    is written in between, rows deleted among it, the later has the larger
    id. *)
Theorem ids_never_reused (ws : list write) (d d1 d2 : db) (k1 k2 : Z)
    (t1 t2 : string)
    (item_type1 name1 due_date1 mention1 repeat_interval1 category1 notes1
       priority1 color1 : option string)
    (item_type2 name2 due_date2 mention2 repeat_interval2 category2 notes2
       priority2 color2 : option string) :
  add_item_db t1 item_type1 name1 due_date1 mention1 repeat_interval1
              category1 notes1 priority1 color1 d = (Returns k1, d1) ->
  add_item_db t2 item_type2 name2 due_date2 mention2 repeat_interval2
              category2 notes2 priority2 color2 (perform_all ws d1)
  = (Returns k2, d2) ->
  k1 < k2.
Proof.
  intros H1 H2.
  apply add_item_db_Returns in H1
    as (c1 & _ & _ & _ & _ & _ & _ & _ & _ & _ & _ & _ & ->).
  apply add_item_db_Returns in H2
    as (c2 & _ & _ & _ & _ & _ & _ & _ & _ & _ & _ & Hnext & _).
  apply next_rowid_fresh in Hnext as (_ & Hseq2 & _).
  match type of Hseq2 with
  | tasks_seq (perform_all ws ?x) < _ =>
      pose proof (perform_all_seq_mono ws x) as Hmono
  end.
  cbn [tasks_seq] in Hmono. lia.
Qed.

(** *** [fetch_items] *)

Lemma leb_trans (a b c : string) :
  String.leb a b = true -> String.leb b c = true -> String.leb a c = true.
Proof.
  unfold String.leb. revert b c.
  induction a as [| x a IH]; intros [| y b] [| z c]; simpl;
    try discriminate; try reflexivity.
  unfold Ascii.compare.
  destruct (N.compare_spec (N_of_ascii x) (N_of_ascii y)) as [Hxy | Hxy | Hxy],
           (N.compare_spec (N_of_ascii y) (N_of_ascii z)) as [Hyz | Hyz | Hyz],
           (N.compare_spec (N_of_ascii x) (N_of_ascii z)) as [Hxz | Hxz | Hxz];
    try discriminate; try reflexivity; try (exfalso; lia).
  apply IH.
Qed.

Lemma due_date_le_total : Total due_date_le.
Proof. intros a b. apply String.leb_total. Qed.

Lemma due_date_le_trans : Transitive due_date_le.
Proof. intros a b c. apply leb_trans. Qed.

Lemma select_tasks_rows (d : db) (r : Z * columns) :
  r ∈ select_tasks d <-> tasks d !! r.1 = Some r.2.
Proof.
  unfold select_tasks.
  rewrite (merge_sort_Permutation due_date_le (map_to_list (tasks d))).
  apply elem_of_map_to_list'.
Qed.

(** None of the defaults of [fetch_items] replaces a value of a row the
    program has written. *)
Lemma safe_item_written (r : Z * columns) :
  0 < r.1 -> written r.2 -> safe_item r = item_of r.
Proof.
  destruct r as [k c]. cbn [fst snd]. intros Hk [Ht [Hn _] Hd Hs _ Hr [Hc _] _ Hp [Hcol _]].
  unfold safe_item, item_of. cbn [fst snd].
  destruct (k =? 0) eqn:E; [apply Z.eqb_eq in E; lia |].
  rewrite !or_else_Some_empty.
  rewrite (or_else_Some (c_type c)) by (destruct Ht as [-> | ->]; discriminate).
  rewrite (or_else_Some (c_status c)) by (destruct Hs as [-> | ->]; discriminate).
  rewrite (or_else_Some (c_repeat_interval c))
    by (destruct Hr as [-> | [-> | [-> | ->]]]; discriminate).
  rewrite (or_else_Some (c_category c)) by exact Hc.
  rewrite (or_else_Some (c_priority c))
    by (destruct Hp as [-> | [-> | ->]]; discriminate).
  rewrite (or_else_Some (c_color c)) by exact Hcol.
  reflexivity.
Qed.

(** On a database the program has made, [fetch_items] answers every row
    once, with the values the row holds (none of the defaults is used),
    ordered by the text of the due date; the ids of the rows answered are
    pairwise distinct. *)
Theorem fetch_items_sorted_complete (d : db) :
  consistent d ->
  fetch_items d ≡ₚ map item_of (map_to_list (tasks d))
  /\ StronglySorted
       (fun a b : item => String.leb (due_date a) (due_date b) = true)
       (fetch_items d)
  /\ NoDup (map item_id (fetch_items d))
  /\ (forall i,
        i ∈ fetch_items d
        <-> exists c, get_item (item_id i) d = Some (item_id i, c)
                      /\ i = item_of (item_id i, c)).
Proof.
  intros Hd.
  assert (Heq : fetch_items d = map item_of (select_tasks d)).
  { unfold fetch_items. apply map_ext_in. intros r Hin.
    apply list_elem_of_In, select_tasks_rows in Hin.
    destruct (Hd _ _ Hin) as [Hk Hw]. apply safe_item_written; [lia | exact Hw]. }
  assert (Hperm : select_tasks d ≡ₚ map_to_list (tasks d))
    by apply merge_sort_Permutation.
  split; [| split; [| split]].
  - rewrite Heq. apply Permutation_map. exact Hperm.
  - rewrite Heq.
    apply (StronglySorted_fmap item_of due_date_le).
    + intros x y H. exact H.
    + apply (@StronglySorted_merge_sort _ due_date_le _ due_date_le_trans
                                        due_date_le_total).
  - rewrite Heq, map_map. cbn [item_of item_id].
    change (map (fun x : Z * columns => x.1) (select_tasks d))
      with ((select_tasks d).*1).
    rewrite Hperm. apply NoDup_fst_map_to_list.
  - intros i. rewrite Heq. split.
    + intros Hin. apply list_elem_of_In, in_map_iff in Hin as (r & <- & Hin).
      apply list_elem_of_In, select_tasks_rows in Hin.
      destruct (Hd _ _ Hin) as [Hk _]. exists r.2. cbn [item_of item_id].
      rewrite get_item_lookup by lia. rewrite Hin. destruct r; auto.
    + intros (c & Hget & ->). apply get_item_Some in Hget as (_ & _ & Hrow).
      cbn [snd item_of item_id fst] in Hrow.
      apply list_elem_of_In, in_map_iff. eexists. split; [reflexivity |].
      apply list_elem_of_In, select_tasks_rows. exact Hrow.
Qed.

End DatabaseFacts.

(** ** Marking a row completed *)

Module CompletionFacts.
Import Py Item Text Database DatabaseFacts Completion.

Section WithLibrary.

Variable str_strip : string -> string.
Variable str_title : string -> string.
Variable int_of_str : string -> option Z.
Variable bot_ready channel_found : bool.

(** On a row that [get_item] finds in a database the program has made,
    [update_item_status] with [completed] returns. *)
Lemma complete_found (current_timestamp : string) (item_id : Z) (d : db)
    (r : Z * columns) :
  consistent d -> get_item item_id d = Some r ->
  update_item_status current_timestamp item_id "completed" d
  = (Returns (),
     {| tasks := <[item_id := set_status "completed" current_timestamp r.2]>
                   (tasks d);
        tasks_seq := tasks_seq d;
        users := users d; users_seq := users_seq d |}).
Proof.
  intros Hd Hget. apply get_item_Some in Hget as (Hpos & _ & Hrow).
  unfold update_item_status, update_task.
  destruct (item_id <=? 0) eqn:E; [apply Z.leb_le in E; lia |].
  cbn [in_list existsb negb]. change (String.eqb "completed" "pending") with false.
  change (String.eqb "completed" "completed") with true. cbn [orb negb].
  rewrite (fits_true item_id Hpos). cbn [negb].
  rewrite Hrow. destruct (Hd _ _ Hrow) as [_ Hw].
  rewrite (check_constraints_written _
             (set_status_written "completed" current_timestamp r.2
                                 eq_refl Hw)).
  reflexivity.
Qed.

(** [completetask] and [completeevent] never raise on a database the
    program has made, and each changes it in one case only: the argument
    reads as the id of a row of its own kind that is not completed.  That
    row then gets the status [completed], an embed is sent and the
    notifications channel is told; in every other case the database is as
    before, one text is sent and the channel is not told. *)
Theorem complete_commands_guarded (current_timestamp : string)
    (id_text : option string) (d : db) :
  consistent d ->
  let marked (row_type kind title : string) (colour : Z) out d' :=
    exists item_id c,
      id_text <> None /\ int_of_str (text id_text) = Some item_id
      /\ get_item item_id d = Some (item_id, c)
      /\ c_type c = row_type /\ c_status c = "pending"
      /\ d' = {| tasks := <[item_id := set_status "completed"
                                                   current_timestamp c]>
                            (tasks d);
                 tasks_seq := tasks_seq d;
                 users := users d; users_seq := users_seq d |}
      /\ sent out = [Commands.Rich
                       (completed_embed str_strip title colour kind c)]
      /\ notified out
         = notify_discord bot_ready channel_found
                          (completed_message str_strip title c) true in
  let refused (out : done unit) d' :=
    d' = d /\ notified out = None /\ exists t, sent out = [Commands.Text t] in
  (exists out d',
     completetask str_strip int_of_str bot_ready channel_found
                  current_timestamp id_text d = (Returns out, d')
     /\ (marked "task" "Task" "✅ Task Completed!" 65280 out d'
         \/ refused out d'))
  /\ (exists out d',
        completeevent str_strip int_of_str bot_ready channel_found
                      current_timestamp id_text d = (Returns out, d')
        /\ (marked "event" "Event" "✅ Event Completed!" 3381759 out d'
            \/ refused out d')).
Proof.
  clear str_title. intros Hd marked refused. subst marked refused. cbn beta.
  split.
  - unfold completetask.
    destruct (is_true id_text) eqn:Harg; cbn [negb];
      [| eexists _, _; split; [reflexivity | right; cbn; eauto]].
    destruct (int_of_str (text id_text)) as [item_id |] eqn:Hint;
      [| eexists _, _; split; [reflexivity | right; cbn; eauto]].
    destruct (get_item item_id d) as [[k c] |] eqn:Hget;
      [| eexists _, _; split; [reflexivity | right; cbn; eauto]].
    destruct (String.eqb (c_type c) "task") eqn:Hty; cbn [negb];
      [| eexists _, _; split; [reflexivity | right; cbn; eauto]].
    destruct (String.eqb (c_status c) "completed") eqn:Hst;
      [eexists _, _; split; [reflexivity | right; cbn; eauto] |].
    rewrite (complete_found current_timestamp item_id d (k, c) Hd Hget).
    eexists _, _. split; [reflexivity |]. left. exists item_id, c.
    pose proof Hget as Hget'.
    apply get_item_Some in Hget' as (_ & Hk & Hrow). simpl in Hk, Hrow.
    subst k. destruct (Hd _ _ Hrow) as [_ [_ _ _ Hs _ _ _ _ _ _]].
    apply String.eqb_eq in Hty. apply String.eqb_neq in Hst.
    split; [destruct id_text; [discriminate | discriminate] |].
    repeat (split; [assumption || reflexivity || tauto |]). reflexivity.
  - unfold completeevent.
    destruct (is_true id_text) eqn:Harg; cbn [negb];
      [| eexists _, _; split; [reflexivity | right; cbn; eauto]].
    destruct (int_of_str (text id_text)) as [item_id |] eqn:Hint;
      [| eexists _, _; split; [reflexivity | right; cbn; eauto]].
    destruct (get_item item_id d) as [[k c] |] eqn:Hget;
      [| eexists _, _; split; [reflexivity | right; cbn; eauto]].
    destruct (String.eqb (c_type c) "event") eqn:Hty; cbn [negb];
      [| eexists _, _; split; [reflexivity | right; cbn; eauto]].
    destruct (String.eqb (c_status c) "completed") eqn:Hst;
      [eexists _, _; split; [reflexivity | right; cbn; eauto] |].
    rewrite (complete_found current_timestamp item_id d (k, c) Hd Hget).
    eexists _, _. split; [reflexivity |]. left. exists item_id, c.
    pose proof Hget as Hget'.
    apply get_item_Some in Hget' as (_ & Hk & Hrow). simpl in Hk, Hrow.
    subst k. destruct (Hd _ _ Hrow) as [_ [_ _ _ Hs _ _ _ _ _ _]].
    apply String.eqb_eq in Hty. apply String.eqb_neq in Hst.
    split; [destruct id_text; [discriminate | discriminate] |].
    repeat (split; [assumption || reflexivity || tauto |]). reflexivity.
Qed.

(** The route [/complete/<int:item_id>] on a database the program has
    made: it always answers with the redirect to the dashboard; when no
    row has the id nothing changes and nothing is told; when a row has it,
    task or event, completed or not, the row gets the status [completed]
    and the new [updated_at] (the second [UPDATE] of the route, which
    leaves [updated_at], is never the one that runs), and the channel is
    told when the loop is set, the bot is ready and the channel is
    found. *)
Theorem complete_item_marks_any_row (async_loop : bool)
    (current_timestamp : string) (item_id : Z) (d : db) :
  consistent d ->
  exists out d',
    complete_item str_strip str_title bot_ready channel_found async_loop
                  current_timestamp item_id d = (Returns out, d')
    /\ result out = Found "/dashboard" /\ sent out = []
    /\ match get_item item_id d with
       | None => d' = d /\ notified out = None
       | Some (_, c) =>
           d' = {| tasks := <[item_id := set_status "completed"
                                                    current_timestamp c]>
                             (tasks d);
                  tasks_seq := tasks_seq d;
                  users := users d; users_seq := users_seq d |}
           /\ notified out
              = if async_loop && bot_ready && channel_found
                then Some ("@everyone" +:+ newline
                           +:+ completed_message str_strip
                                 ("✅ " +:+ str_title (c_type c)
                                  +:+ " Completed!") c)
                else None
       end.
Proof.
  intros Hd. unfold complete_item.
  destruct (get_item item_id d) as [[k c] |] eqn:Hget.
  - rewrite (complete_found current_timestamp item_id d (k, c) Hd Hget).
    eexists _, _. split; [reflexivity |]. cbn [result sent notified snd].
    repeat (split; [reflexivity |]). unfold notify_discord.
    destruct async_loop, bot_ready, channel_found; reflexivity.
  - eexists _, _. split; [reflexivity |]. cbn. auto.
Qed.

End WithLibrary.

End CompletionFacts.

(** ** The calendar feed *)

Module ApiFacts.
Import Py PyFacts Item Recurrence RecurrenceFacts Window Api.

Section WithParser.

Variable fromisoformat : string -> option datetime.

(** The expansion of a row returns at most 100 instances or raises. *)
Lemma generate_bounded now item start_date end_date :
  generate_recurring_instances fromisoformat now item start_date end_date
  <> Diverge
  /\ (forall l,
        generate_recurring_instances fromisoformat now item start_date end_date
        = Ok l ->
        (length l <= 100)%nat).
Proof.
  unfold generate_recurring_instances.
  destruct (String.eqb (repeat_interval item) "none");
    [split; [discriminate | intros l [= <-]; simpl; lia] |].
  destruct (match start_date with Some d => Ok d | None => dt_sub now (days 180) end)
    as [s | ex | ] eqn:Hs; cbn [mbind outcome_bind].
  2: { split; [discriminate | intros l; discriminate]. }
  2: { exfalso. destruct start_date; [discriminate |].
       unfold dt_sub, dt_add in Hs. destruct (_ && _); discriminate. }
  destruct (match end_date with Some d => Ok d | None => dt_add now (days 730) end)
    as [e | ex | ] eqn:He; cbn [mbind outcome_bind].
  2: { split; [discriminate | intros l; discriminate]. }
  2: { exfalso. destruct end_date; [discriminate |].
       unfold dt_add in He. destruct (_ && _); discriminate. }
  destruct (fromisoformat (due_date item)) as [d0 |];
    [| split; [discriminate | intros l [= <-]; simpl; lia]].
  rewrite recur_loop_occurrences.
  pose proof (loop_fuel_enough (S (Z.to_nat max_instances)) item
                (strip_tz s) (strip_tz e) (strip_tz d0) 0 ltac:(lia)) as Hfuel.
  destruct (occurrences _ item _ _ _ 0) as [occ | ex |] eqn:Hocc;
    cbn [mbind outcome_bind]; [| split; [discriminate | intros l; discriminate]
                                 | congruence].
  split; [discriminate |]. intros l [= <-].
  apply occurrences_length in Hocc.
  rewrite ?app_nil_l, length_map.
  change (Z.to_nat (max_instances - 0)) with 100%nat in Hocc. exact Hocc.
Qed.

Lemma event_of_item_row (i : item) : event_of_row i (event_of_item i).
Proof. repeat split. Qed.

Lemma event_of_instance_row now item start_date end_date l :
  generate_recurring_instances fromisoformat now item start_date end_date = Ok l ->
  Forall (fun x => event_of_row item (event_of_instance x)) l.
Proof.
  intros H. apply generate_Ok in H
    as [-> | (s & e & d0 & occ & _ & _ & _ & _ & _ & ->)].
  - constructor; [| constructor]. repeat split.
  - apply Forall_forall. intros x Hin. apply list_elem_of_In in Hin.
    apply in_map_iff in Hin as (o & <- & _). repeat split.
Qed.

(** The loop, from any pass on. *)
Lemma events_loop_spec (clock : nat -> datetime) (items : list item)
    (start_date end_date : option datetime) :
  forall n events,
  exists new,
    events_loop fromisoformat clock n items start_date end_date events
    = Ok (events ++ new)
    /\ (length new <= 100 * length items)%nat
    /\ (forall e, e ∈ new -> exists i, i ∈ items /\ event_of_row i e)
    /\ (forall k i,
          items !! k = Some i ->
          match generate_recurring_instances fromisoformat (clock (n + k)%nat)
                                             i start_date end_date with
          | Ok instances =>
              forall x, x ∈ instances -> event_of_instance x ∈ new
          | _ => event_of_item i ∈ new
          end).
Proof.
  induction items as [| item rest IH]; intros n events.
  - exists []. simpl. rewrite app_nil_r. split; [reflexivity |].
    split; [lia |]. split.
    + intros e He. apply elem_of_nil in He. destruct He.
    + intros k i Hk. discriminate.
  - cbn [events_loop].
    destruct (generate_bounded (clock n) item start_date end_date)
      as [Hterm Hlen].
    destruct (generate_recurring_instances fromisoformat (clock n) item
                                           start_date end_date)
      as [instances | ex |] eqn:Hgen; [| | congruence].
    + destruct (IH (S n) (events ++ map event_of_instance instances))
        as (new & Hloop & Hcount & Hrows & Hall).
      exists (map event_of_instance instances ++ new).
      rewrite Hloop, <- app_assoc. split; [reflexivity |].
      specialize (Hlen _ eq_refl). split; [| split].
      * rewrite length_app, length_map. simpl. lia.
      * intros e He. apply elem_of_app in He as [He | He].
        -- exists item. split; [apply elem_of_cons; auto |].
           apply list_elem_of_In, in_map_iff in He as (x & <- & Hx).
           pose proof (event_of_instance_row _ _ _ _ _ Hgen) as Hf.
           rewrite Forall_forall in Hf. apply Hf, list_elem_of_In, Hx.
        -- destruct (Hrows e He) as (i & Hi & Hrow). exists i.
           split; [apply elem_of_cons; auto | exact Hrow].
      * intros [| k] i Hk.
        -- injection Hk as <-. rewrite Nat.add_0_r, Hgen. intros x Hx.
           apply elem_of_app. left.
           apply list_elem_of_In, in_map. apply list_elem_of_In. exact Hx.
        -- specialize (Hall k i Hk). rewrite Nat.add_succ_r.
           change (S n + k)%nat with (S (n + k)) in Hall.
           destruct (generate_recurring_instances fromisoformat
                       (clock (S (n + k))) i start_date end_date).
           ++ intros x Hx. apply elem_of_app. right. apply Hall, Hx.
           ++ apply elem_of_app. right. exact Hall.
           ++ apply elem_of_app. right. exact Hall.
    + destruct (IH (S n) (events ++ [event_of_item item]))
        as (new & Hloop & Hcount & Hrows & Hall).
      exists ([event_of_item item] ++ new).
      rewrite Hloop, <- app_assoc. split; [reflexivity |]. split; [| split].
      * rewrite length_app. simpl. lia.
      * intros e He. apply elem_of_app in He as [He | He].
        -- apply list_elem_of_singleton in He. subst e. exists item.
           split; [apply elem_of_cons; auto | apply event_of_item_row].
        -- destruct (Hrows e He) as (i & Hi & Hrow). exists i.
           split; [apply elem_of_cons; auto | exact Hrow].
      * intros [| k] i Hk.
        -- injection Hk as <-. rewrite Nat.add_0_r, Hgen.
           apply elem_of_app. left. apply list_elem_of_singleton. reflexivity.
        -- specialize (Hall k i Hk). rewrite Nat.add_succ_r.
           change (S n + k)%nat with (S (n + k)) in Hall.
           destruct (generate_recurring_instances fromisoformat
                       (clock (S (n + k))) i start_date end_date).
           ++ intros x Hx. apply elem_of_app. right. apply Hall, Hx.
           ++ apply elem_of_app. right. exact Hall.
           ++ apply elem_of_app. right. exact Hall.
Qed.

(** [GET /api/events] answers with a list whatever the rows and the two
    parameters are: no date and no parameter makes it fail.  The list has
    at most 100 events for each row, each event carries the values of a
    row and names it as its origin, a row that does not repeat or whose
    due date does not parse is in the list as it is, whatever the range
    asked for, and so is a row whose expansion raises. *)
Theorem api_events_get_answers (clock : nat -> datetime) (items : list item)
    (start_param end_param : option string) :
  exists events,
    api_events_get fromisoformat clock items start_param end_param = Ok events
    /\ (length events <= 100 * length items)%nat
    /\ (forall e, e ∈ events ->
                  exists i, i ∈ items
                            /\ ev_original_id e = IntId (item_id i)
                            /\ ev_title e = name i /\ ev_type e = item_type i
                            /\ ev_status e = status i
                            /\ ev_repeat_interval e = repeat_interval i)
    /\ (forall i, i ∈ items ->
                  repeat_interval i = "none"
                  \/ fromisoformat (due_date i) = None ->
                  event_of_item i ∈ events)
    /\ (forall k i ex,
          items !! k = Some i ->
          generate_recurring_instances
            fromisoformat (clock k) i
            (date_range fromisoformat start_param end_param).1
            (date_range fromisoformat start_param end_param).2
          = Raise ex ->
          event_of_item i ∈ events).
Proof.
  unfold api_events_get.
  destruct (date_range fromisoformat start_param end_param)
    as [start_date end_date].
  destruct (events_loop_spec clock items start_date end_date 0%nat [])
    as (new & Hloop & Hcount & Hrows & Hall).
  exists new. split; [exact Hloop |]. split; [exact Hcount |].
  split; [| split].
  - intros e He. destruct (Hrows e He) as (i & Hi & Hrow).
    exists i. unfold event_of_row in Hrow. tauto.
  - intros i Hi Hcase. apply list_elem_of_lookup in Hi as [k Hk].
    specialize (Hall k i Hk). cbn [Nat.add] in Hall.
    destruct (generate_recurring_instances fromisoformat (clock k) i
                                           start_date end_date)
      as [instances | ex |] eqn:Hgen; try exact Hall.
    assert (instances = [original i]) as ->.
    { unfold generate_recurring_instances in Hgen.
      destruct Hcase as [Hrep | Hparse].
      - rewrite Hrep in Hgen. cbn in Hgen. congruence.
      - destruct (String.eqb (repeat_interval i) "none"); [congruence |].
        destruct (match start_date with Some d => Ok d | None => _ end);
          cbn [mbind outcome_bind] in Hgen; try discriminate.
        destruct (match end_date with Some d => Ok d | None => _ end);
          cbn [mbind outcome_bind] in Hgen; try discriminate.
        rewrite Hparse in Hgen. congruence. }
    apply (Hall (original i)). apply elem_of_cons. auto.
  - intros k i ex Hk Hraise. cbn [fst snd] in Hraise.
    specialize (Hall k i Hk). cbn [Nat.add] in Hall.
    rewrite Hraise in Hall. exact Hall.
Qed.

End WithParser.

End ApiFacts.

(** ** Adding a row from Discord *)

Module AddingFacts.
Import Py Item Text Helpers HelpersFacts Database DatabaseFacts Completion Adding.

Lemma validate_input_len (data : string) (max_length : nat) :
  (str_len (validate_input data max_length) <= max_length)%nat.
Proof.
  unfold validate_input. destruct (negb (truthy data)); [simpl; lia |].
  destruct (max_length <? str_len data)%nat eqn:E.
  - apply str_len_take.
  - apply Nat.ltb_ge in E. exact E.
Qed.

(** What [validate_input] has cut, the cut of [add_item_db] leaves. *)
Lemma str_take_validate_input (data : string) (max_length : nat) :
  str_take max_length (validate_input data max_length)
  = validate_input data max_length.
Proof. apply str_take_all, validate_input_len. Qed.

Lemma app_cons_ne (a : string) (c : ascii) (b : string) :
  a +:+ String c b <> EmptyString.
Proof.
  destruct a as [| x a].
  - change (EmptyString +:+ String c b) with (String c b). discriminate.
  - change (String x a +:+ String c b) with (String x (a +:+ String c b)).
    discriminate.
Qed.

Lemma isoformat_ne (d : datetime) : isoformat d <> EmptyString.
Proof.
  unfold isoformat. destruct (ymd d) as [[y m] dd]. apply app_cons_ne.
Qed.

(** [add_item_db] on arguments that pass its three tests. *)
Lemma add_item_db_accepted (current_timestamp : string)
    (item_type name due_date : string)
    (mention repeat_interval category notes priority color : option string)
    (d : db) :
  in_list item_type ["task"; "event"] = true ->
  name <> EmptyString -> (str_len name <= 100)%nat ->
  due_date <> EmptyString ->
  add_item_db current_timestamp (Some item_type) (Some name) (Some due_date)
              mention repeat_interval category notes priority color d
  = match next_rowid (tasks d) (tasks_seq d) with
    | None => (Raises OperationalError, d)
    | Some k =>
        (Returns k,
         {| tasks :=
              <[k := {| c_type := item_type; c_name := name;
                        c_due_date := due_date; c_status := "pending";
                        c_mention := str_take 50 (or_else mention EmptyString);
                        c_repeat_interval :=
                          if negb (is_in repeat_interval
                                         ["none"; "daily"; "weekly"; "monthly"])
                          then "none" else text repeat_interval;
                        c_category := str_take 30 (or_else category "Misc");
                        c_notes := str_take 500 (or_else notes EmptyString);
                        c_priority :=
                          if negb (is_in priority ["Low"; "Medium"; "High"])
                          then "Medium" else text priority;
                        c_color := str_take 20 (or_else color "#3399ff");
                        c_created_at := current_timestamp;
                        c_updated_at := current_timestamp |}]> (tasks d);
            tasks_seq := k; users := users d; users_seq := users_seq d |})
    end.
Proof.
  intros Hty Hname Hlen Hdue. unfold add_item_db.
  assert (Htrue : truthy item_type = true).
  { apply in_list_spec in Hty. in_literal_in Hty.
    destruct Hty as [-> | [-> | []]]; reflexivity. }
  change (text (Some item_type)) with item_type.
  change (text (Some name)) with name.
  change (text (Some due_date)) with due_date.
  cbn [is_true is_in]. rewrite Htrue, Hty. cbn [negb orb].
  apply truthy_ne in Hname, Hdue. rewrite Hname, Hdue. cbn [negb orb].
  pose proof Hlen as Hlen'. apply Nat.ltb_ge in Hlen'. rewrite Hlen'.
  unfold insert_task.
  rewrite check_constraints_written; [reflexivity |].
  apply (added_row_written current_timestamp (Some item_type) (Some name)
           (Some due_date) mention repeat_interval category notes priority
           color); cbn [is_in is_true]; assumption.
Qed.

Lemma take_validated_or_empty (data : string) (n : nat) :
  str_take n (or_else (Some (validate_input data n)) EmptyString)
  = validate_input data n.
Proof. rewrite or_else_Some_empty. apply str_take_validate_input. Qed.

Lemma take_validated_or_misc (data : string) :
  str_take 30 (or_else (Some (validate_input data 30)) "Misc")
  = if truthy (validate_input data 30) then validate_input data 30
    else "Misc".
Proof.
  cbn [or_else]. destruct (truthy (validate_input data 30));
    [apply str_take_validate_input | reflexivity].
Qed.

(** The priority the commands pass on is one of the three. *)
Lemma priority_kept (more : bool) (p : string) :
  (if negb (is_in (Some (if more && in_list p ["Low"; "Medium"; "High"]
                         then p else "Medium"))
                  ["Low"; "Medium"; "High"])
   then "Medium"
   else text (Some (if more && in_list p ["Low"; "Medium"; "High"]
                    then p else "Medium")))
  = if more && in_list p ["Low"; "Medium"; "High"] then p else "Medium".
Proof.
  cbn [is_in]. destruct more; cbn [andb]; [| reflexivity].
  destruct (in_list p ["Low"; "Medium"; "High"]) eqn:E; [| reflexivity].
  rewrite E. reflexivity.
Qed.

Section WithLibrary.

Variable str_strip : string -> string.
Variable str_upper : string -> string.
Variable str_split : string -> list string.
Variable strptime : string -> string -> option datetime.
Variable fromisoformat : string -> option datetime.
Variable bot_ready channel_found async_loop : bool.

(** Both commands end in one of three ways.  They refuse: one text is
    sent, the channel is not told, the database is as before.  They store
    the row: its name, mention, category and notes are what
    [validate_input] returned (the cuts of [add_item_db] change none of
    them), an empty category apart, which is stored as [Misc]; it is
    pending and does not repeat.  Or the table has no id left.  The tests
    of [add_item_db] never reject what the commands pass on. *)
Theorem add_commands_store (current_timestamp : string) (args : option string)
    (d : db) :
  let parts := map str_strip (split_on "|" (text args)) in
  let stored (row_type color : string) (out : done bool) (d' : db) :=
    exists k due,
      parse_due_date str_upper str_split strptime
                     (validate_input (part parts 1 EmptyString) 50) = Some due
      /\ validate_input (part parts 0 EmptyString) 100 <> EmptyString
      /\ tasks d !! k = None
      /\ d' = {| tasks := <[k := stored_row current_timestamp row_type color
                                            parts due]> (tasks d);
                 tasks_seq := k; users := users d; users_seq := users_seq d |}
      /\ (exists e, sent out = [Commands.Rich e])
      /\ result out = async_loop in
  let refused (out : done bool) (d' : db) :=
    d' = d /\ notified out = None /\ result out = false
    /\ exists t, sent out = [Commands.Text t] in
  match addevent str_strip str_upper str_split strptime fromisoformat
                 bot_ready channel_found async_loop current_timestamp args d
  with
  | (Returns out, d') => stored "event" "#3399ff" out d' \/ refused out d'
  | (Raises e, d') =>
      e = OperationalError /\ d' = d
      /\ next_rowid (tasks d) (tasks_seq d) = None
  end
  /\ match addtask str_strip str_upper str_split strptime fromisoformat
                   bot_ready channel_found async_loop current_timestamp args d
     with
     | (Returns out, d') => stored "task" "#28a745" out d' \/ refused out d'
     | (Raises e, d') =>
         e = OperationalError /\ d' = d
         /\ next_rowid (tasks d) (tasks_seq d) = None
     end.
Proof.
  intros parts stored refused. subst stored refused. cbn beta.
  assert (Hrefuse : forall t,
            d = d /\ @None string = None /\ false = false
            /\ exists t', [Commands.Text t] = [Commands.Text t'])
    by (intros t; repeat split; eauto).
  split.
  - unfold addevent. fold parts.
    destruct (is_true args); cbn [negb]; [| right; apply Hrefuse].
    destruct (length parts <? 2)%nat; [right; apply Hrefuse |].
    cbv zeta.
    destruct (truthy (validate_input (part parts 0 EmptyString) 100))
      eqn:Hname; cbn [negb]; [| right; apply Hrefuse].
    destruct (parse_due_date str_upper str_split strptime
                (validate_input (part parts 1 EmptyString) 50))
      as [due |] eqn:Hdue; [| right; apply Hrefuse].
    apply truthy_ne in Hname.
    rewrite add_item_db_accepted;
      [| reflexivity | exact Hname | apply validate_input_len
       | apply isoformat_ne].
    destruct (next_rowid (tasks d) (tasks_seq d)) as [k |] eqn:Hk;
      [| auto].
    left. exists k, due. split; [reflexivity |]. split; [exact Hname |].
    split; [apply (next_rowid_fresh _ _ _ Hk) |].
    split; [| cbn; eauto].
    unfold stored_row.
    rewrite !take_validated_or_empty, take_validated_or_misc, priority_kept.
    reflexivity.
  - unfold addtask. fold parts.
    destruct (is_true args); cbn [negb]; [| right; apply Hrefuse].
    destruct (length parts <? 2)%nat; [right; apply Hrefuse |].
    cbv zeta.
    destruct (truthy (validate_input (part parts 0 EmptyString) 100))
      eqn:Hname; cbn [negb]; [| right; apply Hrefuse].
    destruct (parse_due_date str_upper str_split strptime
                (validate_input (part parts 1 EmptyString) 50))
      as [due |] eqn:Hdue; [| right; apply Hrefuse].
    apply truthy_ne in Hname.
    rewrite add_item_db_accepted;
      [| reflexivity | exact Hname | apply validate_input_len
       | apply isoformat_ne].
    destruct (next_rowid (tasks d) (tasks_seq d)) as [k |] eqn:Hk;
      [| auto].
    left. exists k, due. split; [reflexivity |]. split; [exact Hname |].
    split; [apply (next_rowid_fresh _ _ _ Hk) |].
    split; [| cbn; eauto].
    unfold stored_row.
    rewrite !take_validated_or_empty, take_validated_or_misc, priority_kept.
    reflexivity.
Qed.

End WithLibrary.

End AddingFacts.

(** ** [setup.py] *)

Module SetupFacts.
Import Py Setup.

(** With the [config.py] of the repository, [check_config] never answers
    [True], whatever the environment holds: the module has no attribute
    [DISCORD_CHANNEL_ID] (its channel ids are
    [DISCORD_COMMANDS_CHANNEL_ID] and [DISCORD_NOTIFICATIONS_CHANNEL_ID]).
    So [main] of [setup.py] never gets to the database or to the user: it
    never ends with "Setup completed successfully!". *)
Theorem setup_never_completes (getenv : string -> option string)
    (int_of_str : string -> option Z) (token_hex : string)
    (config_exists database_ready user_created : bool) :
  check_config config_exists (import_config getenv int_of_str token_hex)
  <> Some true
  /\ main config_exists (import_config getenv int_of_str token_hex)
          database_ready user_created <> Completed.
Proof.
  assert (Hcheck : check_config config_exists
                     (import_config getenv int_of_str token_hex) <> Some true).
  { unfold check_config, import_config.
    destruct config_exists; cbn [negb]; [| discriminate].
    destruct (int_of_str (getenv_or getenv "DISCORD_COMMANDS_CHANNEL_ID" "0"));
      [| discriminate].
    destruct (int_of_str
                (getenv_or getenv "DISCORD_NOTIFICATIONS_CHANNEL_ID" "0"));
      [| discriminate].
    match goal with
    | |- context [@lookup _ _ _ _ "DISCORD_CHANNEL_ID" ?m] =>
        assert (Hnone : m !! "DISCORD_CHANNEL_ID" = None)
    end.
    { apply not_elem_of_list_to_map_1. cbn [fmap list_fmap fst].
      repeat rewrite not_elem_of_cons. rewrite elem_of_nil.
      repeat split; solve [discriminate | tauto]. }
    rewrite Hnone.
    match goal with
    | |- (if ?b then _ else _) <> _ => destruct b; discriminate
    end. }
  split; [exact Hcheck |]. unfold main.
  destruct (check_config config_exists
              (import_config getenv int_of_str token_hex)) as [[|] |];
    [congruence | discriminate | discriminate].
Qed.

End SetupFacts.

(** ** The sample data at work *)

Section DatabaseWitnesses.
Import Py Item Text Helpers Database DatabaseFacts Completion CompletionFacts
       Scenario3.

Lemma two_rows_consistent : consistent two_rows /\ users_unique two_rows.
Proof.
  destruct empty_db_consistent as [Hd Hu].
  destruct (perform_all_keeps [add_meeting; add_review] empty_db Hd Hu)
    as (Hd' & Hu' & _).
  split; assumption.
Qed.

Lemma add_item_db_stores_witness :
  tasks two_rows !! 3 = None /\ tasks_seq three_rows = 3
  /\ exists c, get_item 3 three_rows = Some (3, c) /\ c_name c = "Backup".
Proof.
  destruct (add_item_db_stores later (Some "task") (Some "Backup")
              (Some "2025-10-01T10:00") None None None None None None
              two_rows three_rows 3)
    as (_ & _ & Hfree & (c & Hget & _ & Hname & _) & _ & Hseq & _).
  - vm_compute. reflexivity.
  - split; [exact Hfree |]. split; [exact Hseq |]. exists c. auto.
Defined.

Lemma update_item_status_answers_witness :
  (exists c, get_item 1 two_rows = Some (1, c))
  /\ update_item_status later huge_id "completed" two_rows
     = (Raises OverflowError, two_rows).
Proof.
  split; [| vm_compute; reflexivity].
  pose proof (update_item_status_answers later 1 "completed" two_rows
                (proj1 two_rows_consistent)) as H.
  destruct (update_item_status later 1 "completed" two_rows)
    as [[[] | e] d'] eqn:E.
  - destruct H as (c & Hc & _). exists c. exact Hc.
  - vm_compute in E. discriminate.
Defined.


Lemma delete_item_answers_witness :
  (exists d',
     delete_item 1 two_rows
     = (Returns (bool_decide (is_Some (get_item 1 two_rows))), d')
     /\ get_item 1 d' = None)
  /\ delete_item huge_id two_rows = (Raises OverflowError, two_rows).
Proof.
  destruct (delete_item_answers 1 two_rows) as (_ & _ & Hrow).
  destruct (Hrow ltac:(unfold MAX_ROWID; lia)) as (d' & H & Hnone & _).
  split; [exists d'; split; assumption |].
  apply (proj1 (proj2 (delete_item_answers huge_id two_rows))).
  unfold huge_id, MAX_ROWID. lia.
Defined.

Lemma add_user_answers_witness :
  exists k,
    fetch_user "admin" (add_user stamp "pbkdf2:sha256" "admin" "secret1"
                                 empty_db).2
    = Some (k, User "admin" "pbkdf2:sha256" stamp).
Proof.
  pose proof (add_user_answers stamp "pbkdf2:sha256" "admin" "secret1" empty_db
                (proj2 empty_db_consistent)) as H.
  cbn zeta in H.
  destruct (add_user stamp "pbkdf2:sha256" "admin" "secret1" empty_db)
    as [[[] | e] d'] eqn:E.
  - destruct H as (_ & _ & Hfetch & _). exact Hfetch.
  - vm_compute in E. discriminate.
Defined.

Lemma ids_never_reused_witness :
  exists d1 d2,
    add_item_db stamp (Some "task") (Some "Review") (Some "2025-06-01T09:00")
                None None None None None None empty_db = (Returns 1, d1)
    /\ add_item_db later (Some "task") (Some "Backup")
                   (Some "2025-10-01T10:00") None None None None None None
                   (perform_all [DeleteItem 1] d1) = (Returns 2, d2)
    /\ 1 < 2.
Proof.
  set (d1 := (add_item_db stamp (Some "task") (Some "Review")
                (Some "2025-06-01T09:00") None None None None None None
                empty_db).2).
  set (d2 := (add_item_db later (Some "task") (Some "Backup")
                (Some "2025-10-01T10:00") None None None None None None
                (perform_all [DeleteItem 1] d1)).2).
  assert (H1 : add_item_db stamp (Some "task") (Some "Review")
                 (Some "2025-06-01T09:00") None None None None None None
                 empty_db = (Returns 1, d1))
    by (vm_compute; reflexivity).
  assert (H2 : add_item_db later (Some "task") (Some "Backup")
                 (Some "2025-10-01T10:00") None None None None None None
                 (perform_all [DeleteItem 1] d1) = (Returns 2, d2))
    by (vm_compute; reflexivity).
  exists d1, d2. split; [exact H1 |]. split; [exact H2 |].
  exact (ids_never_reused [DeleteItem 1] empty_db d1 d2 1 2 stamp later
           _ _ _ _ _ _ _ _ _ _ _ _ _ _ _ _ _ _ H1 H2).
Defined.

Lemma fetch_items_sorted_complete_witness :
  StronglySorted
    (fun a b : item => String.leb (due_date a) (due_date b) = true)
    (fetch_items two_rows)
  /\ NoDup (map item_id (fetch_items two_rows)).
Proof.
  destruct (fetch_items_sorted_complete two_rows (proj1 two_rows_consistent))
    as (_ & Hsorted & Hids & _).
  split; assumption.
Defined.

Lemma complete_commands_guarded_witness :
  exists out d',
    completetask (fun s => s) int_plain true true later (Some "2") two_rows
    = (Returns out, d')
    /\ (exists c, get_item 2 two_rows = Some (2, c)
                  /\ get_item 2 d'
                     = Some (2, set_status "completed" later c)).
Proof.
  destruct (complete_commands_guarded (fun s => s) int_plain true true later
              (Some "2") two_rows (proj1 two_rows_consistent))
    as [(out & d' & Hrun & Hcase) _].
  exists out, d'. split; [exact Hrun |].
  destruct Hcase as [(item_id & c & _ & Hint & Hget & _ & _ & -> & _)
                    | (_ & _ & t & Ht)].
  - vm_compute in Hint. injection Hint as <-. exists c.
    split; [exact Hget |].
    rewrite get_item_lookup by (unfold MAX_ROWID; lia). cbn [tasks].
    rewrite lookup_insert_eq. reflexivity.
  - exfalso. vm_compute in Hrun. injection Hrun as <- _.
    discriminate.
Defined.

Lemma complete_item_marks_any_row_witness :
  exists out d',
    complete_item (fun s => s) Scheduler.title_ascii true true true later 1
                  two_rows = (Returns out, d')
    /\ result out = Found "/dashboard".
Proof.
  destruct (complete_item_marks_any_row (fun s => s) Scheduler.title_ascii
              true true true later 1 two_rows (proj1 two_rows_consistent))
    as (out & d' & Hrun & Hres & _).
  exists out, d'. split; assumption.
Defined.

End DatabaseWitnesses.
